(** * usbip-win2: PnP request router, class-filter installer, bulk fetch

    A shallow embedding of
    - [driver/vhci/pnp.cpp]: the PnP minor-function handlers, the dispatch
      table [pnpmn_functions] and the router [vhci_pnp];
    - the installer tool ([split_multi_sz], [read_multi_z], [classfilter]);
    - [fetch_urbr_bulk_or_interrupt].

    Kernel objects are modelled by explicit state: a handler is a computation
    in a state monad over a [world] made of the device extension, the IRP
    being processed, the outcomes of future pool allocations and the trace of
    calls made to the I/O manager and to other modules of the driver. *)

From Stdlib Require Import ZArith NArith List Bool String Ascii Lia.
From ExtLib Require Import Structures.Monad Structures.MonadState.
From ExtLib Require Import Data.Monads.StateMonad.
Import ListNotations.
Import MonadNotation.
Local Open Scope monad_scope.
Local Open Scope Z_scope.

(** ** Wide strings *)

Abbreviation WCHAR := N (only parsing).
Abbreviation wstring := (list N) (only parsing).

(** [L "text"] is the wide literal L"text". *)
Definition L (s : string) : wstring := map N_of_ascii (list_ascii_of_string s).

Definition wstring_eqb (a b : wstring) : bool :=
  if list_eq_dec N.eq_dec a b then true else false.

(** ** NTSTATUS codes (ntstatus.h), written as their 32-bit patterns *)

Definition NTSTATUS := Z.
Definition STATUS_SUCCESS : NTSTATUS := 0.
Definition STATUS_TIMEOUT : NTSTATUS := 0x102.
Definition STATUS_UNSUCCESSFUL : NTSTATUS := 0xC0000001.
Definition STATUS_INVALID_PARAMETER : NTSTATUS := 0xC000000D.
Definition STATUS_NO_SUCH_DEVICE : NTSTATUS := 0xC000000E.
Definition STATUS_INSUFFICIENT_RESOURCES : NTSTATUS := 0xC000009A.
Definition STATUS_NOT_SUPPORTED : NTSTATUS := 0xC00000BB.

(** NT_SUCCESS: the severity bits of the code do not say error or warning,
    that is, the code is not negative as a LONG. *)
Definition NT_SUCCESS (st : NTSTATUS) : bool := st <? 0x80000000.

Module Pnp.

(** *** Data model (dev.h, wdm.h) *)

Inductive vdev_type_t :=
  VDEV_ROOT | VDEV_CPDO | VDEV_VHCI | VDEV_HPDO | VDEV_VHUB | VDEV_VPDO.

Inductive pnp_state :=
  NotStarted | Started | StopPending | Stopped
| RemovePending | SurpriseRemovePending | Removed.

Definition vdev_type_eqb (a b : vdev_type_t) : bool :=
  match a, b with
  | VDEV_ROOT, VDEV_ROOT | VDEV_CPDO, VDEV_CPDO | VDEV_VHCI, VDEV_VHCI
  | VDEV_HPDO, VDEV_HPDO | VDEV_VHUB, VDEV_VHUB | VDEV_VPDO, VDEV_VPDO => true
  | _, _ => false
  end.

Definition pnp_state_eqb (a b : pnp_state) : bool :=
  match a, b with
  | NotStarted, NotStarted | Started, Started | StopPending, StopPending
  | Stopped, Stopped | RemovePending, RemovePending
  | SurpriseRemovePending, SurpriseRemovePending | Removed, Removed => true
  | _, _ => false
  end.

(** A device object is named by a handle. *)
Definition DEVICE_OBJECT := nat.

(** The device extension. [intf_ref_event] is the signalled flag of the
    kernel event that pairs with [intf_ref_cnt]. *)
Record vdev_t := mk_vdev {
  type : vdev_type_t;
  Self : DEVICE_OBJECT;
  devobj_lower : DEVICE_OBJECT;
  PnPState : pnp_state;
  PreviousPnPState : pnp_state;
  intf_ref_cnt : Z;
  intf_ref_event : bool
}.

Record PNP_BUS_INFORMATION := mk_bus_info {
  BusTypeGuid : N;
  LegacyBusType : N;
  BusNumber : N
}.

Definition GUID_BUS_TYPE_USB : N := 0x9d7debbc.  (* Data1 of the GUID *)
Definition PNPBus : N := 15.

(** [IoStatus.Information] is a ULONG_PTR: an integer, or the address of a
    pool block the handler hands over to the caller. *)
Inductive ULONG_PTR :=
| Word (z : Z)
| StrPtr (s : wstring)
| BusInfoPtr (bi : PNP_BUS_INFORMATION).

Definition is_null (p : ULONG_PTR) : bool :=
  match p with Word z => z =? 0 | _ => false end.

Record IO_STATUS_BLOCK := mk_iosb {
  Status : NTSTATUS;
  Information : ULONG_PTR
}.

(** DEVICE_TEXT_TYPE, as the raw value found in the stack location. *)
Definition DeviceTextDescription : Z := 0.
Definition DeviceTextLocationInformation : Z := 1.

Inductive DEVICE_REGISTRY_PROPERTY :=
  DevicePropertyDeviceDescription | DevicePropertyLocationInformation.

(** The IRP with the fields of its current stack location that pnp.cpp
    reads: [MinorFunction] (a UCHAR) and [Parameters.QueryDeviceText]. *)
Record IRP := mk_irp {
  MinorFunction : N;
  IoStatus : IO_STATUS_BLOCK;
  DeviceTextType : Z;
  LocaleId : Z
}.

Definition set_Status (st : NTSTATUS) (i : IRP) : IRP :=
  mk_irp (MinorFunction i) (mk_iosb st (Information (IoStatus i)))
         (DeviceTextType i) (LocaleId i).

Definition set_Information (p : ULONG_PTR) (i : IRP) : IRP :=
  mk_irp (MinorFunction i) (mk_iosb (Status (IoStatus i)) p)
         (DeviceTextType i) (LocaleId i).

(** Calls that leave the handler. *)
Inductive event :=
| PassedDown (lower : DEVICE_OBJECT) (i : IRP)   (* IoCallDriver *)
| Completed (i : IRP)                             (* IoCompleteRequest *)
| Unplugged (vpdo : DEVICE_OBJECT).               (* vhub_unplug_vpdo *)

Definition is_PassedDown (e : event) : bool :=
  match e with PassedDown _ _ => true | _ => false end.

Definition is_Unplugged (e : event) : bool :=
  match e with Unplugged _ => true | _ => false end.

Record world := mk_world {
  vdev : vdev_t;
  irp : IRP;
  pool : list bool;      (* outcomes of the allocations pnp.cpp itself will
                            make: ExAllocatePool2 and libdrv_strdup *)
  trace : list event     (* oldest first *)
}.

Definition M := state world.

Definition get_vdev : M vdev_t := w <- get ;; ret (vdev w).
Definition get_irp : M IRP := w <- get ;; ret (irp w).

Definition put_vdev (v : vdev_t) : M unit :=
  modify (fun w => mk_world v (irp w) (pool w) (trace w)) ;; ret tt.

Definition put_irp (i : IRP) : M unit :=
  modify (fun w => mk_world (vdev w) i (pool w) (trace w)) ;; ret tt.

Definition emit (e : event) : M unit :=
  modify (fun w => mk_world (vdev w) (irp w) (pool w) (trace w ++ [e])) ;; ret tt.

(** One pool allocation: consumes the next scripted outcome; an exhausted
    script means an exhausted pool. *)
Definition ExAllocatePool2 : M bool :=
  w <- get ;;
  match pool w with
  | [] => ret false
  | ok :: rest => put (mk_world (vdev w) (irp w) rest (trace w)) ;; ret ok
  end.

(** What the code of the driver outside pnp.cpp and the layers around it
    contribute. [GetDeviceProperty] yields the property as a string in a pool
    block of its own, or null; the memory it takes for that is its own
    business and is not drawn from [pool]. *)
Record env := mk_env {
  is_fdo : vdev_type_t -> bool;
  IoCallDriver : DEVICE_OBJECT -> IRP -> NTSTATUS;
  GetDeviceProperty : DEVICE_OBJECT -> DEVICE_REGISTRY_PROPERTY -> option wstring;
  get_product : vdev_t -> option wstring;
  pnp_start_device : M NTSTATUS;
  pnp_remove_device : M NTSTATUS;
  pnp_query_device_relations : M NTSTATUS;
  pnp_query_interface : M NTSTATUS;
  pnp_query_capabilities : M NTSTATUS;
  pnp_query_resources : M NTSTATUS;
  pnp_query_resource_requirements : M NTSTATUS;
  pnp_filter_resource_requirements : M NTSTATUS;
  pnp_query_id : M NTSTATUS
}.

(** A field update through the [vdev_t&] the handlers receive. *)
Definition with_states (v : vdev_t) (cur prev : pnp_state) : vdev_t :=
  mk_vdev (type v) (Self v) (devobj_lower v) cur prev
          (intf_ref_cnt v) (intf_ref_event v).

(** *** pnp.cpp *)

Definition vdev_desc (t : vdev_type_t) : wstring :=
  match t with
  | VDEV_ROOT => L "usbip-win ROOT"
  | VDEV_CPDO => L "usbip-win CPDO"
  | VDEV_VHCI => L "usbip-win VHCI"
  | VDEV_HPDO => L "usbip-win HPDO"
  | VDEV_VHUB => L "usbip-win VHUB"
  | VDEV_VPDO => L "usbip-win VPDO"
  end.

Definition set_state (v : vdev_t) (state : pnp_state) : vdev_t :=
  with_states v state (PnPState v).

(** Modelled from the spec: [set_previous_pnp_state] is declared in dev.h,
    which is not part of the sources at hand. Section 4.3 gives its effect for
    CancelStop and CancelRemove as "restore state = previous_state". *)
Definition set_previous_pnp_state (v : vdev_t) : vdev_t :=
  with_states v (PreviousPnPState v) (PreviousPnPState v).

(** Modelled from the spec: [KeWaitForSingleObject] on [intf_ref_event] with
    a zero timeout is the "zero-timeout poll" of section 4.5; it answers at
    once, STATUS_SUCCESS when the event is signalled and STATUS_TIMEOUT
    otherwise, and leaves the event as it is. *)
Definition KeWaitForSingleObject (signalled : bool) : NTSTATUS :=
  if signalled then STATUS_SUCCESS else STATUS_TIMEOUT.

Definition device_can_be_removed (v : vdev_t) : bool :=
  KeWaitForSingleObject (intf_ref_event v) =? 0.

(** Modelled from the spec: [CompleteRequest] and [CompleteRequestAsIs] are
    declared in irp.h, which is not part of the sources at hand. Completing
    "resolves the request locally" with the given status (success when none
    is given); completing as-is resolves it with the status the IRP already
    carries. *)
Definition CompleteRequest (st : NTSTATUS) : M NTSTATUS :=
  i <- get_irp ;;
  put_irp (set_Status st i) ;;
  emit (Completed (set_Status st i)) ;;
  ret st.

Definition CompleteRequestAsIs : M NTSTATUS :=
  i <- get_irp ;;
  emit (Completed i) ;;
  ret (Status (IoStatus i)).

(** Modelled from the spec: [libdrv_strdup] (strutil.h) copies a string into
    a fresh pool block, or yields null when the pool is exhausted. *)
Definition libdrv_strdup (s : wstring) : M (option wstring) :=
  ok <- ExAllocatePool2 ;;
  ret (if ok : bool then Some s else None).

(** Modelled from the spec: [vhub_unplug_vpdo] (vhub.h) is the "unplug"
    collaborator; only the fact that it was called is recorded. *)
Definition vhub_unplug_vpdo : M unit :=
  v <- get_vdev ;; emit (Unplugged (Self v)).

Section Handlers.

Context (E : env).

(** Modelled from the spec: [irp_pass_down] (irp.h) "forwards the request
    unchanged" to the lower device object and returns its status. *)
Definition irp_pass_down (lower : DEVICE_OBJECT) : M NTSTATUS :=
  i <- get_irp ;;
  emit (PassedDown lower i) ;;
  ret (IoCallDriver E lower i).

Definition irp_pass_down_or_complete : M NTSTATUS :=
  v <- get_vdev ;;
  if is_fdo E (type v) then irp_pass_down (devobj_lower v)
  else CompleteRequest STATUS_SUCCESS.

Definition pnp_query_stop_device : M NTSTATUS :=
  v <- get_vdev ;;
  put_vdev (set_state v StopPending) ;;
  irp_pass_down_or_complete.

Definition pnp_cancel_stop_device : M NTSTATUS :=
  v <- get_vdev ;;
  (if pnp_state_eqb (PnPState v) StopPending
   then put_vdev (set_previous_pnp_state v) else ret tt) ;;
  irp_pass_down_or_complete.

Definition pnp_stop_device : M NTSTATUS :=
  v <- get_vdev ;;
  put_vdev (set_state v Stopped) ;;
  irp_pass_down_or_complete.

Definition pnp_query_remove_device : M NTSTATUS :=
  v <- get_vdev ;;
  if device_can_be_removed v then
    put_vdev (set_state v RemovePending) ;;
    irp_pass_down_or_complete
  else
    CompleteRequest STATUS_UNSUCCESSFUL.

Definition pnp_cancel_remove_device : M NTSTATUS :=
  v <- get_vdev ;;
  (if pnp_state_eqb (PnPState v) RemovePending
   then put_vdev (set_previous_pnp_state v) else ret tt) ;;
  irp_pass_down_or_complete.

Definition pnp_surprise_removal : M NTSTATUS :=
  v <- get_vdev ;;
  put_vdev (set_state v SurpriseRemovePending) ;;
  irp_pass_down_or_complete.

Definition pnp_query_bus_information : M NTSTATUS :=
  bi <- ExAllocatePool2 ;;
  i <- get_irp ;;
  put_irp (set_Information
             (if bi : bool
              then BusInfoPtr (mk_bus_info GUID_BUS_TYPE_USB PNPBus 1)
              else Word 0) i) ;;
  CompleteRequest (if bi : bool then STATUS_SUCCESS
                   else STATUS_INSUFFICIENT_RESOURCES).

Definition pnp_0x0E : M NTSTATUS := CompleteRequestAsIs.
Definition pnp_read_config : M NTSTATUS := CompleteRequestAsIs.
Definition pnp_write_config : M NTSTATUS := CompleteRequestAsIs.

Definition pnp_eject : M NTSTATUS :=
  v <- get_vdev ;;
  if vdev_type_eqb (type v) VDEV_VPDO then
    vhub_unplug_vpdo ;;
    CompleteRequest STATUS_SUCCESS
  else
    CompleteRequestAsIs.

Definition pnp_set_lock : M NTSTATUS := CompleteRequestAsIs.

Definition PNP_DEVICE_REMOVED : Z := 0x8.

Definition pnp_query_pnp_device_state : M NTSTATUS :=
  v <- get_vdev ;;
  i <- get_irp ;;
  (if pnp_state_eqb (PnPState v) Removed then
     match Information (IoStatus i) with
     | Word st => put_irp (set_Information (Word (Z.lor st PNP_DEVICE_REMOVED)) i)
     | _ => ret tt
     end
   else ret tt) ;;
  CompleteRequest STATUS_SUCCESS.

Definition pnp_device_usage_notification : M NTSTATUS :=
  irp_pass_down_or_complete.

Definition pnp_query_legacy_bus_information : M NTSTATUS := CompleteRequestAsIs.

Definition pnp_device_enumerated : M NTSTATUS := CompleteRequest STATUS_SUCCESS.

Definition copy_str (s : wstring) : M unit :=
  str <- libdrv_strdup s ;;
  match str with
  | Some str =>
      i <- get_irp ;;
      put_irp (set_Status STATUS_SUCCESS (set_Information (StrPtr str) i))
  | None => ret tt
  end.

(** The part of [pnp_query_device_text] after the switch on the text type. *)
Definition query_device_text_for (prop : DEVICE_REGISTRY_PROPERTY)
    (prop_str : option wstring) : M NTSTATUS :=
  v <- get_vdev ;;
  match GetDeviceProperty E (Self v) prop with
  | Some str =>
      i <- get_irp ;;
      put_irp (set_Status STATUS_SUCCESS (set_Information (StrPtr str) i))
  | None =>
      match type v, prop with
      | VDEV_VPDO, DevicePropertyDeviceDescription =>
          match get_product E v with
          | Some prod => copy_str prod
          | None => ret tt
          end
      | _, _ => ret tt
      end
  end ;;
  i <- get_irp ;;
  match is_null (Information (IoStatus i)), prop_str with
  | true, Some s => copy_str s
  | _, _ => ret tt
  end ;;
  CompleteRequestAsIs.

Definition pnp_query_device_text : M NTSTATUS :=
  v <- get_vdev ;;
  i <- get_irp ;;
  if DeviceTextType i =? DeviceTextDescription then
    query_device_text_for DevicePropertyDeviceDescription
                          (Some (vdev_desc (type v)))
  else if DeviceTextType i =? DeviceTextLocationInformation then
    query_device_text_for DevicePropertyLocationInformation None
  else
    CompleteRequest STATUS_INVALID_PARAMETER.

Definition pnpmn_functions : list (M NTSTATUS) :=
  [ pnp_start_device E;            (* IRP_MN_START_DEVICE *)
    pnp_query_remove_device;
    pnp_remove_device E;
    pnp_cancel_remove_device;
    pnp_stop_device;
    pnp_query_stop_device;
    pnp_cancel_stop_device;

    pnp_query_device_relations E;
    pnp_query_interface E;
    pnp_query_capabilities E;
    pnp_query_resources E;
    pnp_query_resource_requirements E;
    pnp_query_device_text;
    pnp_filter_resource_requirements E;

    pnp_0x0E;                      (* 0x0E, undefined *)

    pnp_read_config;
    pnp_write_config;
    pnp_eject;
    pnp_set_lock;
    pnp_query_id E;
    pnp_query_pnp_device_state;
    pnp_query_bus_information;
    pnp_device_usage_notification;
    pnp_surprise_removal;

    pnp_query_legacy_bus_information;  (* IRP_MN_QUERY_LEGACY_BUS_INFORMATION *)
    pnp_device_enumerated              (* IRP_MN_DEVICE_ENUMERATED *)
  ].

Definition ARRAYSIZE {A} (l : list A) : N := N.of_nat (List.length l).

Definition vhci_pnp : M NTSTATUS :=
  v <- get_vdev ;;
  i <- get_irp ;;
  if pnp_state_eqb (PnPState v) Removed then
    CompleteRequest STATUS_NO_SUCH_DEVICE
  else if (MinorFunction i <? ARRAYSIZE pnpmn_functions)%N then
    nth (N.to_nat (MinorFunction i)) pnpmn_functions CompleteRequestAsIs
  else
    CompleteRequestAsIs.

(** The I/O manager hands the next request [i] to the device. *)
Definition deliver (i : IRP) (w : world) : NTSTATUS * world :=
  runState vhci_pnp (mk_world (vdev w) i (pool w) (trace w)).

End Handlers.

(** *** Observations on a run *)

(** The events a run from [w] to [w'] added to the trace. *)
Definition new_events (w w' : world) : list event :=
  skipn (List.length (trace w)) (trace w').

Definition forwarded (w w' : world) : bool :=
  existsb is_PassedDown (new_events w w').

Definition unplugged (w w' : world) : bool :=
  existsb is_Unplugged (new_events w w').

(** Modelled from the spec: the interface reference gate (pnp_intf.h, not
    part of the sources at hand) pairs the count with the event of the
    "zero-wait/notify primitive": the event is signalled exactly while the
    count is zero. *)
Definition intf_gate_consistent (v : vdev_t) : Prop :=
  intf_ref_event v = (intf_ref_cnt v =? 0).

(** Minor function codes of IRP_MJ_PNP (wdm.h). *)
Definition IRP_MN_START_DEVICE : N := 0x00.
Definition IRP_MN_QUERY_REMOVE_DEVICE : N := 0x01.
Definition IRP_MN_REMOVE_DEVICE : N := 0x02.
Definition IRP_MN_CANCEL_REMOVE_DEVICE : N := 0x03.
Definition IRP_MN_STOP_DEVICE : N := 0x04.
Definition IRP_MN_QUERY_STOP_DEVICE : N := 0x05.
Definition IRP_MN_CANCEL_STOP_DEVICE : N := 0x06.
Definition IRP_MN_QUERY_DEVICE_RELATIONS : N := 0x07.
Definition IRP_MN_QUERY_INTERFACE : N := 0x08.
Definition IRP_MN_QUERY_CAPABILITIES : N := 0x09.
Definition IRP_MN_QUERY_RESOURCES : N := 0x0A.
Definition IRP_MN_QUERY_RESOURCE_REQUIREMENTS : N := 0x0B.
Definition IRP_MN_QUERY_DEVICE_TEXT : N := 0x0C.
Definition IRP_MN_FILTER_RESOURCE_REQUIREMENTS : N := 0x0D.
Definition IRP_MN_EJECT : N := 0x11.
Definition IRP_MN_QUERY_ID : N := 0x13.
Definition IRP_MN_SURPRISE_REMOVAL : N := 0x17.

(** The slots of [pnpmn_functions] whose handler pnp.cpp defines itself; the
    others come from pnp_start.h, pnp_remove.h, pnp_relations.h, pnp_intf.h,
    pnp_cap.h, pnp_resources.h and pnp_id.h. *)
Definition defined_in_pnp_cpp (mf : N) : bool :=
  (mf <? 26)%N &&
  negb (existsb (N.eqb mf)
          [IRP_MN_START_DEVICE; IRP_MN_REMOVE_DEVICE;
           IRP_MN_QUERY_DEVICE_RELATIONS; IRP_MN_QUERY_INTERFACE;
           IRP_MN_QUERY_CAPABILITIES; IRP_MN_QUERY_RESOURCES;
           IRP_MN_QUERY_RESOURCE_REQUIREMENTS;
           IRP_MN_FILTER_RESOURCE_REQUIREMENTS; IRP_MN_QUERY_ID]).

(** The requests whose handler reaches [set_state]. *)
Definition calls_set_state (v : vdev_t) (mf : N) : bool :=
  (mf =? IRP_MN_QUERY_STOP_DEVICE)%N
  || (mf =? IRP_MN_STOP_DEVICE)%N
  || (mf =? IRP_MN_SURPRISE_REMOVAL)%N
  || ((mf =? IRP_MN_QUERY_REMOVE_DEVICE)%N && device_can_be_removed v).

(** *** A sample environment for concrete runs *)

(** Modelled from the spec: [is_fdo] is declared in dev.h, which is not part
    of the sources at hand. Section 3 names the kinds that have a lower
    layer: Controller, VirtualHub and VirtualPort. *)
Definition is_fdo_spec (t : vdev_type_t) : bool :=
  match t with
  | VDEV_VHCI | VDEV_VHUB | VDEV_VPDO => true
  | _ => false
  end.

Definition sample_env (devprop product : option wstring) : env :=
  {| is_fdo := is_fdo_spec;
     IoCallDriver := fun _ _ => STATUS_SUCCESS;
     GetDeviceProperty := fun _ _ => devprop;
     get_product := fun _ => product;
     pnp_start_device := CompleteRequest STATUS_SUCCESS;
     pnp_remove_device := CompleteRequest STATUS_SUCCESS;
     pnp_query_device_relations := CompleteRequestAsIs;
     pnp_query_interface := CompleteRequestAsIs;
     pnp_query_capabilities := CompleteRequestAsIs;
     pnp_query_resources := CompleteRequestAsIs;
     pnp_query_resource_requirements := CompleteRequestAsIs;
     pnp_filter_resource_requirements := CompleteRequestAsIs;
     pnp_query_id := CompleteRequestAsIs |}.

Definition env0 : env := sample_env None None.

Definition sample_irp (mf : N) : IRP :=
  mk_irp mf (mk_iosb STATUS_NOT_SUPPORTED (Word 0)) 0 0x409.

Definition sample_vdev (t : vdev_type_t) (cur prev : pnp_state) : vdev_t :=
  mk_vdev t 1%nat 2%nat cur prev 0 true.

Definition sample_world (t : vdev_type_t) (cur prev : pnp_state) (mf : N)
  : world :=
  mk_world (sample_vdev t cur prev) (sample_irp mf) [true; true] [].

(** A Description query on a device of kind [t], with [n] pool allocations
    that will succeed. *)
Definition text_query (t : vdev_type_t) (n : nat) : world :=
  mk_world (sample_vdev t Started NotStarted)
           (mk_irp IRP_MN_QUERY_DEVICE_TEXT
                   (mk_iosb STATUS_NOT_SUPPORTED (Word 0))
                   DeviceTextDescription 0x409)
           (repeat true n) [].

(** An environment in which the PnP manager knows a description of the
    device and the remote device reports a product string. *)
Definition env_described : env :=
  sample_env (Some (L "Generic USB Hub")) (Some (L "Flash Disk")).

Definition env_product : env := sample_env None (Some (L "Flash Disk")).

(** A port device whose interface two clients hold: the event is not
    signalled. *)
Definition busy_world : world :=
  mk_world (mk_vdev VDEV_VPDO 1%nat 2%nat Started NotStarted 2 false)
           (sample_irp IRP_MN_QUERY_REMOVE_DEVICE) [] [].

(** *** Further observations *)

(** An event that resolves the IRP: it is handed to the lower driver or
    completed. *)
Definition is_resolution (e : event) : bool :=
  match e with
  | PassedDown _ _ | Completed _ => true
  | Unplugged _ => false
  end.

(** How many times a run from [w] to [w'] resolved the IRP. *)
Definition resolutions (w w' : world) : nat :=
  List.length (filter is_resolution (new_events w w')).

Definition IRP_MN_QUERY_PNP_DEVICE_STATE : N := 0x14.
Definition IRP_MN_QUERY_BUS_INFORMATION : N := 0x15.

(** A request with minor function [mf] as the PnP manager sends it: status
    STATUS_NOT_SUPPORTED, text type as given. *)
Definition request (mf : N) (text_type : Z) : IRP :=
  mk_irp mf (mk_iosb STATUS_NOT_SUPPORTED (Word 0)) text_type 0x409.

(** *** Shapes of runs, for the properties of the whole router *)

(** A handler that resolves the IRP by completing it, device extension
    untouched. *)
Definition completes_locally (h : M NTSTATUS) (w : world) : Prop :=
  exists st i' p',
    runState h w =
      (st, mk_world (vdev w) i' p' (trace w ++ [Completed i']))
    /\ st = Status (IoStatus i')
    /\ (List.length p' <= List.length (pool w))%nat.

(** What the handlers of pnp.cpp do to the device extension. *)
Inductive vdev_step (v : vdev_t) : vdev_t -> Prop :=
| step_none : vdev_step v v
| step_set (s : pnp_state) : s <> Removed -> vdev_step v (set_state v s)
| step_restore :
    PnPState v = StopPending \/ PnPState v = RemovePending ->
    vdev_step v (set_previous_pnp_state v).

(** How they resolve the IRP: the final IRP and the events added. *)
Inductive resolved (E : env) (w : world)
  : NTSTATUS -> IRP -> list event -> Prop :=
| res_down :
    is_fdo E (type (vdev w)) = true ->
    resolved E w (IoCallDriver E (devobj_lower (vdev w)) (irp w)) (irp w)
             [PassedDown (devobj_lower (vdev w)) (irp w)]
| res_done i' : resolved E w (Status (IoStatus i')) i' [Completed i']
| res_unplug i' :
    type (vdev w) = VDEV_VPDO ->
    resolved E w (Status (IoStatus i')) i'
             [Unplugged (Self (vdev w)); Completed i'].

Definition run_shape (E : env) (w : world) (r : NTSTATUS * world) : Prop :=
  exists st v' i' p' ev,
    r = (st, mk_world v' i' p' (trace w ++ ev))
    /\ vdev_step (vdev w) v'
    /\ resolved E w st i' ev
    /\ (List.length p' <= List.length (pool w))%nat.

(** The requests that pnp.cpp processes from end to end: any request to a
    removed device, the handlers it defines, and codes outside the table. *)
Definition processed_by_pnp_cpp (w : world) : bool :=
  pnp_state_eqb (PnPState (vdev w)) Removed
  || defined_in_pnp_cpp (MinorFunction (irp w))
  || (26 <=? MinorFunction (irp w))%N.

(** The requests of [l], delivered in order. *)
Definition deliver_all (E : env) (l : list IRP) (w : world) : world :=
  fold_left (fun w i => snd (deliver E i w)) l w.

End Pnp.

(** ** The installer tool: class filters *)

Module Installer.

Local Open Scope N_scope.

Definition GUID := N.
Definition LSTATUS := N.
Definition ERROR_SUCCESS : LSTATUS := 0.
Definition ERROR_FILE_NOT_FOUND : LSTATUS := 2.
Definition ERROR_ACCESS_DENIED : LSTATUS := 5.
Definition ERROR_MORE_DATA : LSTATUS := 234.

(** REGSTR_VAL_UPPERFILTERS and REGSTR_VAL_LOWERFILTERS. *)
Inductive value_name := UpperFilters | LowerFilters.

Definition value_name_eqb (a b : value_name) : bool :=
  match a, b with
  | UpperFilters, UpperFilters | LowerFilters, LowerFilters => true
  | _, _ => false
  end.

Record classfilter_args := mk_args {
  level : string;
  class_name : wstring;
  driver_name : wstring
}.

Definition opt_upper : string := "upper".

(** The answers of the setup API, fixed during a run of the tool. *)
Record setup_api := mk_api {
  (* (success, first GUID, number of GUIDs of that class name) *)
  SetupDiClassGuidsFromName : wstring -> bool * GUID * N;
  SetupDiOpenClassRegKeyEx : GUID -> bool;
  (* the registry refuses to read, or to write, a value of the class key *)
  read_denied : GUID -> value_name -> bool;
  write_denied : GUID -> value_name -> bool
}.

(** The class keys: the raw data of each REG_MULTI_SZ value, and the calls of
    RegSetValueEx that stored something, oldest first. *)
Record registry := mk_registry {
  values : GUID -> value_name -> option (list WCHAR);
  writes : list (GUID * value_name * list WCHAR)
}.

Definition DWORD (n : N) : N := n mod 2 ^ 32.

Definition sizeof_WCHAR : N := 2.

(** RegGetValue with the buffer [val.data()] announced as [val_sz] bytes: the
    data is copied to the front of the buffer when it fits, and the byte count
    of the data comes back in [val_sz] in both cases. An empty vector holds
    no storage: its [data()] is null, and for a null buffer the API answers
    ERROR_SUCCESS with the byte count only. *)
Definition RegGetValue (S : setup_api) (R : registry) (key : GUID)
    (name : value_name) (val : list WCHAR) (val_sz : N)
  : LSTATUS * list WCHAR * N :=
  if read_denied S key name then (ERROR_ACCESS_DENIED, val, val_sz)
  else match values R key name with
       | None => (ERROR_FILE_NOT_FOUND, val, val_sz)
       | Some d =>
           let bytes := sizeof_WCHAR * N.of_nat (List.length d) in
           match val with
           | [] => (ERROR_SUCCESS, val, bytes)
           | _ :: _ =>
               if bytes <=? val_sz
               then (ERROR_SUCCESS, d ++ skipn (List.length d) val, bytes)
               else (ERROR_MORE_DATA, val, bytes)
           end
       end.

(** The class keys after [data] was stored under [name] of [key]. *)
Definition store (R : registry) (key : GUID) (name : value_name)
    (data : list WCHAR) : registry :=
  mk_registry
    (fun k n => if (k =? key) && value_name_eqb n name
                then Some data else values R k n)
    (writes R ++ [(key, name, data)]).

(** RegSetValueEx stores the first [cb] bytes of [data]. *)
Definition RegSetValueEx (S : setup_api) (R : registry) (key : GUID)
    (name : value_name) (data : list WCHAR) (cb : N) : LSTATUS * registry :=
  if write_denied S key name then (ERROR_ACCESS_DENIED, R)
  else (ERROR_SUCCESS,
        store R key name (firstn (N.to_nat (cb / sizeof_WCHAR)) data)).

(** std::vector<WCHAR>::resize *)
Definition resize (val : list WCHAR) (n : nat) : list WCHAR :=
  firstn n val ++ repeat 0 (n - List.length val).

(** [std::wstring_view s(str)]: the characters before the first L'\0'. The
    buffers scanned here are zero past their data, so the end of the buffer
    reads as a terminator. *)
Fixpoint wcs_view (str : list WCHAR) : wstring :=
  match str with
  | [] => []
  | c :: rest => if c =? 0 then [] else c :: wcs_view rest
  end.

(** The loop of [split_multi_sz]; [fuel] bounds the number of rounds. *)
Fixpoint split_loop (fuel : nat) (str : list WCHAR) (exclude : wstring)
    (excluded : bool) (v : list wstring) : list wstring * bool :=
  match fuel with
  | O => (v, excluded)
  | Datatypes.S fuel' =>
      match str with
      | [] => (v, excluded)
      | c :: _ =>
          if c =? 0 then (v, excluded)
          else
            let s := wcs_view str in
            let str' := skipn (List.length s + 1) str in   (* skip L'\0' *)
            if wstring_eqb s exclude
            then split_loop fuel' str' exclude true v
            else split_loop fuel' str' exclude excluded (v ++ [s])
      end
  end.

(** Every round consumes at least one character, so the length of the buffer
    is enough fuel. A null [str] is [None]. *)
Definition split_multi_sz (str : option (list WCHAR)) (exclude : wstring)
    (excluded : bool) : list wstring * bool :=
  match str with
  | None => ([], excluded)
  | Some buf => split_loop (List.length buf) buf exclude excluded []
  end.

Definition make_hwid (hwid : wstring) : wstring := (hwid ++ [0]) ++ [0].

(** Modelled from the spec: [make_multi_sz] is declared in
    libusbip/src/strconv.h, which is not part of the sources at hand. It
    turns the "ordered, string-list value" into REG_MULTI_SZ data: every
    string with its terminator, then the terminator of the list. *)
Fixpoint make_multi_sz (v : list wstring) : wstring :=
  match v with
  | [] => [0]
  | s :: rest => s ++ 0 :: make_multi_sz rest
  end.

(** The loop of [read_multi_z]; [None] when the fuel runs out. *)
Fixpoint read_loop (fuel : nat) (S : setup_api) (R : registry) (key : GUID)
    (val_name : value_name) (val : list WCHAR) (val_sz : N)
  : option (bool * list WCHAR) :=
  match fuel with
  | O => None
  | Datatypes.S fuel' =>
      let '(err, val, val_sz) := RegGetValue S R key val_name val val_sz in
      if err =? ERROR_FILE_NOT_FOUND then Some (true, [])
      else if err =? ERROR_SUCCESS then Some (true, val)
      else if err =? ERROR_MORE_DATA
           then read_loop fuel' S R key val_name
                          (resize val (N.to_nat val_sz)) val_sz
           else Some (false, val)
  end.

(** The second call has room for the data, so two rounds are enough. *)
Definition read_multi_z (S : setup_api) (R : registry) (key : GUID)
    (val_name : value_name) (val : list WCHAR) : option (bool * list WCHAR) :=
  read_loop 2 S R key val_name val (DWORD (N.of_nat (List.length val))).

Definition get_class_guid (S : setup_api) (name : wstring) : bool * GUID :=
  let '(ok, guid, guids_cnt) := SetupDiClassGuidsFromName S name in
  if negb ok then (false, guid)
  else (guids_cnt =? 1, guid).

(** [val_name] in [classfilter]: REGSTR_VAL_UPPERFILTERS for level "upper",
    REGSTR_VAL_LOWERFILTERS otherwise. *)
Definition filters_value (r : classfilter_args) : value_name :=
  if String.eqb (level r) opt_upper then UpperFilters else LowerFilters.

Definition classfilter (S : setup_api) (r : classfilter_args) (add : bool)
    (R : registry) : option (bool * registry) :=
  let '(ok, ClassGUID) := get_class_guid S (class_name r) in
  if negb ok then Some (false, R)
  else if negb (SetupDiOpenClassRegKeyEx S ClassGUID) then Some (false, R)
  else
    let val_name := filters_value r in
    match read_multi_z S R ClassGUID val_name (repeat 0 4096%nat) with
    | None => None
    | Some (false, _) => Some (false, R)
    | Some (true, val) =>
        let modified := add in
        let '(filters, modified) :=
          split_multi_sz (match val with [] => None | _ => Some val end)
                         (driver_name r) modified in
        let filters := if add then filters ++ [driver_name r] else filters in
        if negb modified then Some (true, R)
        else
          let str := make_multi_sz filters in
          let '(err, R') :=
            RegSetValueEx S R ClassGUID val_name str
              (DWORD (N.of_nat (List.length str) * sizeof_WCHAR)) in
          if negb (err =? 0) then Some (false, R') else Some (true, R')
    end.

(** Characters a list of strings takes in a REG_MULTI_SZ, terminators of the
    strings included. *)
Fixpoint footprint (l : list wstring) : nat :=
  match l with
  | [] => 0%nat
  | s :: rest => (List.length s + 1 + footprint rest)%nat
  end.

(** The encoded list can be handed to RegSetValueEx: its byte count is a
    DWORD. *)
Definition fits_dword (l : list wstring) : Prop :=
  N.of_nat (List.length (make_multi_sz l)) * sizeof_WCHAR < 2 ^ 32.

(** The preconditions under which [classfilter] reaches the registry value. *)
Definition reaches_value (S : setup_api) (r : classfilter_args) (key : GUID)
  : Prop :=
  get_class_guid S (class_name r) = (true, key)
  /\ SetupDiOpenClassRegKeyEx S key = true
  /\ read_denied S key (filters_value r) = false.

(** How many times [x] occurs in a list of names. *)
Definition occurrences (x : wstring) (l : list wstring) : nat :=
  count_occ (list_eq_dec N.eq_dec) l x.

(** A name the command line can carry into a REG_MULTI_SZ: not empty and
    without L'\0'. *)
Definition wellformed_name (s : wstring) : Prop := s <> [] /\ ~ In 0 s.

(** A machine with one class, "USB", whose key holds no filter value yet. *)
Definition usb_guid : GUID := 0x36fc9e60.

Definition sample_api : setup_api :=
  {| SetupDiClassGuidsFromName :=
       fun name => if wstring_eqb name (L "USB") then (true, usb_guid, 1)
                   else (true, 0, 0);
     SetupDiOpenClassRegKeyEx := fun _ => true;
     read_denied := fun _ _ => false;
     write_denied := fun _ _ => false |}.

Definition empty_registry : registry := mk_registry (fun _ _ => None) [].

Definition sample_args : classfilter_args :=
  mk_args "upper" (L "USB") (L "usbip2_filter").

(** The registry after [n] runs of [classfilter add]; [None] as soon as a
    run fails. *)
Fixpoint add_times (n : nat) (S : setup_api) (r : classfilter_args)
    (R : registry) : option registry :=
  match n with
  | O => Some R
  | Datatypes.S n' =>
      match classfilter S r true R with
      | Some (true, R') => add_times n' S r R'
      | _ => None
      end
  end.

(** *** Further observations *)

(** [s] is not the name [x]. *)
Definition differs (x s : wstring) : bool := negb (wstring_eqb s x).
(** [x] is among the names of [l]. *)
Definition occurs (x : wstring) (l : list wstring) : bool :=
  existsb (fun s => wstring_eqb s x) l.

(** A USB class key with two upper filters. *)
Definition two_filters : registry :=
  store empty_registry usb_guid UpperFilters
        (make_multi_sz [L "usbip2_filter"; L "winusb"]).

End Installer.

(** ** The installer tool: removal of device nodes *)

Module Devnode.

Import Installer.

Local Open Scope N_scope.

Definition ERROR_INVALID_DATA : N := 13.
Definition ERROR_INSUFFICIENT_BUFFER : N := 122.
Definition ERROR_NO_MORE_ITEMS : N := 259.
Definition ERROR_NOT_FOUND : N := 1168.

Definition REGSTR_VAL_MAX_HCID_LEN : N := 1024.   (* regstr.h *)
Definition MAX_DEVICE_ID_LEN : N := 200.          (* cfgmgr32.h *)

Record devnode_remove_args := mk_remove_args {
  hwid : wstring;
  enumerator : wstring;
  dry_run : bool
}.

Inductive DEVPROPKEY := DEVPKEY_Device_HardwareIds | DEVPKEY_Device_InstanceId.

(** What the system holds for a property of a device: its data, nothing, or
    data it fails to deliver. *)
Inductive property :=
| PropData (d : list WCHAR)
| PropMissing
| PropUnreadable.

(** A device of a device information set, with the answer DiUninstallDevice
    gives for it: [None] for failure, otherwise the NeedReboot flag. *)
Record SP_DEVINFO_DATA := mk_dev {
  DevInst : N;
  HardwareIds : property;
  InstanceId : property;
  DiUninstallDevice : option bool
}.

Definition property_of (dd : SP_DEVINFO_DATA) (key : DEVPROPKEY) : property :=
  match key with
  | DEVPKEY_Device_HardwareIds => HardwareIds dd
  | DEVPKEY_Device_InstanceId => InstanceId dd
  end.

(** A device information set: at each index a device, or the error
    SetupDiEnumDeviceInfo reports there. *)
Definition HDEVINFO := list (SP_DEVINFO_DATA + N).

Definition SetupDiEnumDeviceInfo (di : HDEVINFO) (i : N)
  : SP_DEVINFO_DATA + N :=
  match nth_error di (N.to_nat i) with
  | Some member => member
  | None => inr ERROR_NO_MORE_ITEMS
  end.

(** The properties read here are wide strings. A [std::vector<BYTE>] that
    receives one is modelled by the wchar_t cells it holds; its size in bytes
    is twice their number. *)
Definition bytes_of (prop : list WCHAR) : N :=
  sizeof_WCHAR * N.of_nat (List.length prop).

(** [prop.resize(n)] for a size [n] in bytes *)
Definition resize_bytes (prop : list WCHAR) (n : N) : list WCHAR :=
  resize prop (N.to_nat (n / sizeof_WCHAR)).

(** SetupDiGetDeviceProperty: (success, last error, buffer, actual size) *)
Definition SetupDiGetDeviceProperty (dd : SP_DEVINFO_DATA) (key : DEVPROPKEY)
    (prop : list WCHAR) (size : N) : bool * N * list WCHAR * N :=
  match property_of dd key with
  | PropData d =>
      if bytes_of d <=? size
      then (true, ERROR_SUCCESS, d ++ skipn (List.length d) prop, bytes_of d)
      else (false, ERROR_INSUFFICIENT_BUFFER, prop, bytes_of d)
  | PropMissing => (false, ERROR_NOT_FOUND, prop, 0)
  | PropUnreadable => (false, ERROR_INVALID_DATA, prop, 0)
  end.

(** The loop of [get_device_property]; [None] when the fuel runs out. *)
Fixpoint get_property_loop (fuel : nat) (dd : SP_DEVINFO_DATA)
    (key : DEVPROPKEY) (prop : list WCHAR) : option (N * list WCHAR) :=
  match fuel with
  | O => None
  | Datatypes.S fuel' =>
      let '(ok, err, buf, actual) :=
        SetupDiGetDeviceProperty dd key prop (DWORD (bytes_of prop)) in
      if ok then Some (ERROR_SUCCESS, resize_bytes buf actual)
      else if err =? ERROR_INSUFFICIENT_BUFFER
           then get_property_loop fuel' dd key (resize_bytes prop actual)
           else Some (err, [])
  end.

(** The second call has room for the data, so two rounds are enough. *)
Definition get_device_property (dd : SP_DEVINFO_DATA) (key : DEVPROPKEY)
    (prop : list WCHAR) : option (N * list WCHAR) :=
  get_property_loop 2 dd key prop.

(** What the tool does that can be seen from outside. *)
Record effects := mk_effects {
  printed : list wstring;       (* lines written by wprintf *)
  errors : list string;         (* the API named in each call of errmsg *)
  uninstalled : list N;         (* DevInst of each call of DiUninstallDevice *)
  prompts : nat                 (* calls of prompt_reboot *)
}.

Definition errmsg (api : string) (s : effects) : effects :=
  mk_effects (printed s) (errors s ++ [api]) (uninstalled s) (prompts s).

Definition wprintf (line : wstring) (s : effects) : effects :=
  mk_effects (printed s ++ [line]) (errors s) (uninstalled s) (prompts s).

Definition call_uninstall (dd : SP_DEVINFO_DATA) (s : effects) : effects :=
  mk_effects (printed s) (errors s) (uninstalled s ++ [DevInst dd]) (prompts s).

Definition get_device_property_ex (dd : SP_DEVINFO_DATA) (key : DEVPROPKEY)
    (prop : list WCHAR) (s : effects) : option (bool * list WCHAR * effects) :=
  match get_device_property dd key prop with
  | None => None
  | Some (err, prop') =>
      if err =? 0 then Some (true, prop', s)
      else Some (false, prop', errmsg "SetupDiGetDeviceProperty" s)
  end.

Definition is_empty {A} (l : list A) : bool :=
  match l with [] => true | _ => false end.

(** [uninstall_device]; the state is the [reboot] flag it may raise and the
    effects. [wprintf] of [id.data()] prints up to the terminator. *)
Definition uninstall_device (dd : SP_DEVINFO_DATA) (r : devnode_remove_args)
    (st : bool * effects) : option (bool * (bool * effects)) :=
  let '(reboot, s) := st in
  let prop := repeat 0 (N.to_nat (REGSTR_VAL_MAX_HCID_LEN / sizeof_WCHAR)) in
  match get_device_property_ex dd DEVPKEY_Device_HardwareIds prop s with
  | None => None
  | Some (ok, prop, s) =>
      if negb ok || is_empty prop then Some (false, (reboot, s))
      else if negb (wstring_eqb prop (hwid r)) then Some (false, (reboot, s))
      else if dry_run r then
        let prop := resize_bytes prop MAX_DEVICE_ID_LEN in
        match get_device_property_ex dd DEVPKEY_Device_InstanceId prop s with
        | None => None
        | Some (ok, prop, s) =>
            if ok && negb (is_empty prop)
            then Some (false, (reboot, wprintf (wcs_view prop) s))
            else Some (false, (reboot, s))
        end
      else
        match DiUninstallDevice dd with
        | None =>
            Some (false, (reboot, errmsg "DiUninstallDevice" (call_uninstall dd s)))
        | Some NeedReboot =>
            if NeedReboot then Some (false, (true, call_uninstall dd s))
            else Some (false, (reboot, call_uninstall dd s))
        end
  end.

Section Enumeration.

Variable St : Type.

(** [device_visitor_f], with the state its closure works on. *)
Definition device_visitor_f := SP_DEVINFO_DATA -> St -> option (bool * St).

(** The loop of [enum_device_info] from index [i]. *)
Fixpoint enum_loop (fuel : nat) (di : HDEVINFO) (i : N)
    (func : device_visitor_f) (s : St) : option (N * St) :=
  match fuel with
  | O => None
  | Datatypes.S fuel' =>
      match SetupDiEnumDeviceInfo di i with
      | inl dd =>
          match func dd s with
          | None => None
          | Some (true, s') => Some (ERROR_SUCCESS, s')
          | Some (false, s') => enum_loop fuel' di (DWORD (i + 1)) func s'
          end
      | inr err =>
          if err =? ERROR_NO_MORE_ITEMS then Some (ERROR_SUCCESS, s)
          else Some (err, s)
      end
  end.

(** One round for each member and one for the end of the set. *)
Definition enum_device_info (di : HDEVINFO) (func : device_visitor_f)
    (s : St) : option (N * St) :=
  enum_loop (Datatypes.S (List.length di)) di 0 func s.

(** The walk the loop performs: the members in order, up to the first error
    or the first device for which the visitor returns true. *)
Fixpoint visit (func : device_visitor_f) (members : HDEVINFO) (s : St)
  : option (N * St) :=
  match members with
  | [] => Some (ERROR_SUCCESS, s)
  | inl dd :: rest =>
      match func dd s with
      | None => None
      | Some (true, s') => Some (ERROR_SUCCESS, s')
      | Some (false, s') => visit func rest s'
      end
  | inr err :: _ =>
      if err =? ERROR_NO_MORE_ITEMS then Some (ERROR_SUCCESS, s)
      else Some (err, s)
  end.

End Enumeration.

Definition SPFILEQ_REBOOT_RECOMMENDED : Z := 0x2.   (* setupapi.h *)
Definition SPFILEQ_REBOOT_IN_PROGRESS : Z := 0x4.

(** The devices SetupDiGetClassDevs finds for an enumerator (all devices for
    a null one), [None] when it fails; and the value SetupPromptReboot
    returns (-1 on failure). *)
Record machine := mk_machine {
  SetupDiGetClassDevs : option wstring -> option HDEVINFO;
  SetupPromptReboot : Z
}.

(** [prompt_reboot]; the call is counted in [prompts]. *)
Definition prompt_reboot (M : machine) (s : effects) : effects :=
  let s := mk_effects (printed s) (errors s) (uninstalled s)
                      (Datatypes.S (prompts s)) in
  let ret := SetupPromptReboot M in
  if (ret =? SPFILEQ_REBOOT_IN_PROGRESS)%Z then wprintf (L "Rebooting...") s
  else if (ret =? SPFILEQ_REBOOT_RECOMMENDED)%Z
       then wprintf (L "Reboot is recommended") s
       else errmsg "SetupPromptReboot" s.

Definition remove_devnode (M : machine) (r : devnode_remove_args)
    (s : effects) : option (bool * effects) :=
  let enum := if is_empty (enumerator r) then None else Some (enumerator r) in
  match SetupDiGetClassDevs M enum with
  | None => Some (false, errmsg "SetupDiGetClassDevs" s)
  | Some di =>
      let r := mk_remove_args (make_hwid (hwid r)) (enumerator r) (dry_run r) in
      let reboot := false in
      let f := fun dd st => uninstall_device dd r st in
      match enum_device_info _ di f (reboot, s) with
      | None => None
      | Some (err, (reboot, s)) =>
          let s := if negb (err =? 0) then errmsg "SetupDiEnumDeviceInfo" s
                   else s in
          let s := if reboot : bool then prompt_reboot M s else s in
          Some (true, s)
      end
  end.

(** The devices [uninstall_device] acts on: those whose list of hardware ids
    is exactly the one-element list of [id]. *)
Definition matches (id : wstring) (dd : SP_DEVINFO_DATA) : bool :=
  match HardwareIds dd with
  | PropData d => wstring_eqb d (make_hwid id)
  | _ => false
  end.

(** The line a dry run prints for a device, if any. *)
Definition instance_line (dd : SP_DEVINFO_DATA) : option wstring :=
  match InstanceId dd with
  | PropData [] => None
  | PropData d => Some (wcs_view d)
  | _ => None
  end.

Definition needs_reboot (dd : SP_DEVINFO_DATA) : bool :=
  match DiUninstallDevice dd with Some true => true | _ => false end.

Definition no_effects : effects := mk_effects [] [] [] 0.

(** Three devices: two instances of the UDE device node, one of them asking
    for a reboot when removed, and a USB hub. *)
Definition ude_hwid : wstring := L "ROOT\USBIP_WIN2\UDE".

Definition sample_devices : list SP_DEVINFO_DATA :=
  [ mk_dev 1 (PropData (make_hwid ude_hwid))
           (PropData (L "ROOT\USB\0000" ++ [0])) (Some false);
    mk_dev 2 (PropData (make_multi_sz [L "USB\ROOT_HUB30"; L "USB\ROOT_HUB"]))
           (PropData (L "USB\ROOT_HUB30\4" ++ [0])) (Some false);
    mk_dev 3 (PropData (make_hwid ude_hwid))
           (PropData (L "ROOT\USB\0001" ++ [0])) (Some true) ].

Definition sample_machine : machine :=
  mk_machine (fun _ => Some (map inl sample_devices))
             SPFILEQ_REBOOT_RECOMMENDED.

Definition broken_machine : machine := mk_machine (fun _ => None) (-1).

(** *** Observations on a run of the tool *)

(** A device whose properties have sizes that fit the DWORD of the API. *)
Definition sane (dd : SP_DEVINFO_DATA) : Prop :=
  forall key d, property_of dd key = PropData d -> bytes_of d < 2 ^ 32.

(** What [uninstall_device] does to the reboot flag and the effects, for a
    device whose properties can be fetched. *)
Definition device_step (r : devnode_remove_args) (st : bool * effects)
    (dd : SP_DEVINFO_DATA) : bool * effects :=
  match HardwareIds dd with
  | PropData d =>
      if is_empty d || negb (wstring_eqb d (hwid r)) then st
      else if dry_run r then
        match InstanceId dd with
        | PropData i =>
            if is_empty i then st
            else (fst st, wprintf (wcs_view i) (snd st))
        | _ => (fst st, errmsg "SetupDiGetDeviceProperty" (snd st))
        end
      else
        match DiUninstallDevice dd with
        | None =>
            (fst st, errmsg "DiUninstallDevice" (call_uninstall dd (snd st)))
        | Some NeedReboot =>
            (NeedReboot || fst st, call_uninstall dd (snd st))
        end
  | _ => (fst st, errmsg "SetupDiGetDeviceProperty" (snd st))
  end.

(** The lines a dry run prints for the devices of [devs]. *)
Definition dry_lines (id : wstring) (devs : list SP_DEVINFO_DATA)
  : list wstring :=
  flat_map (fun dd => if matches id dd
                      then match instance_line dd with
                           | Some line => [line]
                           | None => []
                           end
                      else []) devs.

(** The end of a device information set: nothing, or an index where
    SetupDiEnumDeviceInfo fails, with whatever follows. *)
Definition set_end (tail : HDEVINFO) : Prop :=
  tail = [] \/ exists err rest, tail = inr err :: rest.

(** The enumerator handed to SetupDiGetClassDevs. *)
Definition enumerator_arg (r : devnode_remove_args) : option wstring :=
  if is_empty (enumerator r) then None else Some (enumerator r).

(** The error [enum_device_info] returns at the end of the set. *)
Definition end_code (tail : HDEVINFO) : N :=
  match tail with
  | inr err :: _ => if err =? ERROR_NO_MORE_ITEMS then ERROR_SUCCESS else err
  | _ => ERROR_SUCCESS
  end.

End Devnode.

(** ** Fetching the payload of a bulk or interrupt transfer *)

Module UrbFetch.

Local Open Scope Z_scope.

(** Conversion to ULONG, as an assignment to a ULONG field performs it. *)
Definition to_ULONG (z : Z) : Z := z mod 2 ^ 32.

Definition USBD_TRANSFER_DIRECTION_IN : Z := 0x1.   (* usb.h *)

(** Modelled from the spec: [IS_TRANSFER_FLAGS_IN] is a macro of a header
    that is not part of the sources at hand; it singles out the
    "receive-direction transfers" of section 6 by the direction bit of the
    transfer flags. *)
Definition IS_TRANSFER_FLAGS_IN (flags : Z) : bool :=
  negb (Z.land flags USBD_TRANSFER_DIRECTION_IN =? 0).

(** struct _URB_BULK_OR_INTERRUPT_TRANSFER (usb.h); addresses are numbers,
    zero for a null pointer. *)
Record URB_BULK_OR_INTERRUPT_TRANSFER := mk_urb_bi {
  TransferFlags : Z;
  TransferBufferLength : Z;
  TransferBuffer : Z;
  TransferBufferMDL : Z
}.

(** The fields of [struct usbip_header] the function reads, with the payload
    that follows the header ([hdr + 1]). *)
Record usbip_header := mk_hdr {
  actual_length : Z;            (* u.ret_submit.actual_length *)
  payload : list Byte.byte
}.

Definition set_TransferBufferLength (n : Z)
    (u : URB_BULK_OR_INTERRUPT_TRANSFER) : URB_BULK_OR_INTERRUPT_TRANSFER :=
  mk_urb_bi (TransferFlags u) n (TransferBuffer u) (TransferBufferMDL u).

Section Fetch.

(** The transfer buffers live in [memory]; [copy_to_transfer_buffer]
    (vhci_urbr_fetch.h) receives the buffer address, the MDL, the length of
    the buffer, the source bytes and their count, and may write to memory. *)
Variable memory : Type.
Variable copy_to_transfer_buffer :
  memory -> Z -> Z -> Z -> list Byte.byte -> Z -> NTSTATUS * memory.

Definition fetch_urbr_bulk_or_interrupt (urb_bi : URB_BULK_OR_INTERRUPT_TRANSFER)
    (hdr : usbip_header) (m : memory)
  : NTSTATUS * URB_BULK_OR_INTERRUPT_TRANSFER * memory :=
  if IS_TRANSFER_FLAGS_IN (TransferFlags urb_bi) then
    let '(status, m') :=
      copy_to_transfer_buffer m (TransferBuffer urb_bi)
        (TransferBufferMDL urb_bi) (TransferBufferLength urb_bi)
        (payload hdr) (actual_length hdr) in
    if status =? STATUS_SUCCESS
    then (status,
          set_TransferBufferLength (to_ULONG (actual_length hdr)) urb_bi, m')
    else (status, urb_bi, m')
  else (STATUS_SUCCESS, urb_bi, m).

End Fetch.

(** A copy routine for concrete runs: the memory is the one transfer buffer;
    more bytes than the buffer holds are refused. *)
Definition sample_copy (m : list Byte.byte) (buf mdl buflen : Z)
    (src : list Byte.byte) (len : Z) : NTSTATUS * list Byte.byte :=
  if (0 <=? len) && (len <=? buflen)
  then (STATUS_SUCCESS,
        firstn (Z.to_nat len) src ++ skipn (Z.to_nat len) m)
  else (STATUS_INVALID_PARAMETER, m).

Definition sample_urb (flags : Z) : URB_BULK_OR_INTERRUPT_TRANSFER :=
  mk_urb_bi flags 4 0x1000 0.

Definition sample_hdr (n : Z) : usbip_header :=
  mk_hdr n [Byte.x01; Byte.x02; Byte.x03; Byte.x04; Byte.x05].

Definition sample_mem : list Byte.byte :=
  [Byte.x00; Byte.x00; Byte.x00; Byte.x00].

End UrbFetch.

(** * Proofs *)

(** ** Wide strings *)

Lemma wstring_eqb_eq a b : wstring_eqb a b = true <-> a = b.
Proof.
  unfold wstring_eqb. destruct (list_eq_dec N.eq_dec a b); split; congruence.
Qed.

Lemma wstring_eqb_refl a : wstring_eqb a a = true.
Proof. now apply wstring_eqb_eq. Qed.

Lemma wstring_eqb_neq a b : wstring_eqb a b = false <-> a <> b.
Proof.
  unfold wstring_eqb. destruct (list_eq_dec N.eq_dec a b); split; congruence.
Qed.

(** ** The PnP router *)

Module PnpProofs.
Import Pnp.

Lemma vdev_type_eqb_spec a b : reflect (a = b) (vdev_type_eqb a b).
Proof. destruct a, b; constructor; congruence. Qed.

Lemma pnp_state_eqb_spec a b : reflect (a = b) (pnp_state_eqb a b).
Proof. destruct a, b; constructor; congruence. Qed.

(** *** Facts shared by the theorems below *)

Lemma new_events_app (w w' : world) (l : list event) :
  trace w' = trace w ++ l -> new_events w w' = l.
Proof.
  intros H. unfold new_events. rewrite H, skipn_app, skipn_all.
  now rewrite Nat.sub_diag.
Qed.

Lemma pass_down_or_complete_fdo E w :
  is_fdo E (type (vdev w)) = true ->
  runState (irp_pass_down_or_complete E) w =
  (IoCallDriver E (devobj_lower (vdev w)) (irp w),
   mk_world (vdev w) (irp w) (pool w)
            (trace w ++ [PassedDown (devobj_lower (vdev w)) (irp w)])).
Proof. intros H. unfold irp_pass_down_or_complete. cbn. now rewrite H. Qed.

Lemma pass_down_or_complete_pdo E w :
  is_fdo E (type (vdev w)) = false ->
  runState (irp_pass_down_or_complete E) w =
  (STATUS_SUCCESS,
   mk_world (vdev w) (set_Status STATUS_SUCCESS (irp w)) (pool w)
            (trace w ++ [Completed (set_Status STATUS_SUCCESS (irp w))])).
Proof. intros H. unfold irp_pass_down_or_complete. cbn. now rewrite H. Qed.

Lemma pass_down_or_complete_vdev E w :
  vdev (snd (runState (irp_pass_down_or_complete E) w)) = vdev w.
Proof.
  destruct (is_fdo E (type (vdev w))) eqn:F.
  - now rewrite pass_down_or_complete_fdo.
  - now rewrite pass_down_or_complete_pdo.
Qed.

Lemma can_be_removed_iff v :
  device_can_be_removed v = intf_ref_event v.
Proof. unfold device_can_be_removed. now destruct (intf_ref_event v). Qed.

Lemma new_events_one w l st :
  new_events w (mk_world (vdev w) st (pool w) (trace w ++ l)) = l.
Proof. now apply new_events_app. Qed.

(** *** The router *)

(** C1. Once the device is in state Removed, the router completes any
    request at once with STATUS_NO_SUCH_DEVICE: the run is the same in every
    environment (no handler of the table and no lower driver takes part),
    nothing is passed down, and the device extension (state, previous state,
    reference count and the rest) is left as it was. *)
Theorem removed_resolves_no_such_device (E : env) (w : world) :
  PnPState (vdev w) = Removed ->
  runState (vhci_pnp E) w =
    (STATUS_NO_SUCH_DEVICE,
     mk_world (vdev w) (set_Status STATUS_NO_SUCH_DEVICE (irp w)) (pool w)
       (trace w ++ [Completed (set_Status STATUS_NO_SUCH_DEVICE (irp w))]))
  /\ vdev (snd (runState (vhci_pnp E) w)) = vdev w
  /\ forwarded w (snd (runState (vhci_pnp E) w)) = false
  /\ forall E', runState (vhci_pnp E') w = runState (vhci_pnp E) w.
Proof.
  intros H.
  assert (R : forall E0, runState (vhci_pnp E0) w =
    (STATUS_NO_SUCH_DEVICE,
     mk_world (vdev w) (set_Status STATUS_NO_SUCH_DEVICE (irp w)) (pool w)
       (trace w ++ [Completed (set_Status STATUS_NO_SUCH_DEVICE (irp w))]))).
  { intros E0. unfold vhci_pnp. cbn. rewrite H. reflexivity. }
  repeat split.
  - apply R.
  - now rewrite R.
  - rewrite R. unfold forwarded. cbn [snd]. now rewrite new_events_one.
  - intros E'. now rewrite !R.
Qed.

Lemma removed_resolves_no_such_device_witness :
  runState (vhci_pnp env0)
           (sample_world VDEV_VHUB Removed Started IRP_MN_STOP_DEVICE) =
    (STATUS_NO_SUCH_DEVICE,
     mk_world (sample_vdev VDEV_VHUB Removed Started)
       (set_Status STATUS_NO_SUCH_DEVICE (sample_irp IRP_MN_STOP_DEVICE))
       [true; true]
       [Completed (set_Status STATUS_NO_SUCH_DEVICE
                     (sample_irp IRP_MN_STOP_DEVICE))]).
Proof.
  exact (proj1 (removed_resolves_no_such_device env0
                  (sample_world VDEV_VHUB Removed Started IRP_MN_STOP_DEVICE)
                  eq_refl)).
Defined.

(** A minor function code past the end of [pnpmn_functions], on a device
    that is not Removed, is completed as the IRP stands. *)
Lemma unknown_minor_run (E : env) (w : world) :
  PnPState (vdev w) <> Removed ->
  (ARRAYSIZE (pnpmn_functions E) <= MinorFunction (irp w))%N ->
  runState (vhci_pnp E) w =
    (Status (IoStatus (irp w)),
     mk_world (vdev w) (irp w) (pool w) (trace w ++ [Completed (irp w)])).
Proof.
  intros Hs Hmf. unfold vhci_pnp. cbn.
  destruct (pnp_state_eqb_spec (PnPState (vdev w)) Removed); [contradiction|].
  unfold ARRAYSIZE in Hmf. cbn in Hmf.
  destruct (N.ltb_spec (MinorFunction (irp w)) 26); [lia|reflexivity].
Qed.

(** C2, as the code has it. For every kind of device that is not in state
    Removed and every minor function code at or past the size of the dispatch
    table, the router completes the request locally with the status and
    information the IRP already carries; it never passes the request down,
    whether or not the device has a lower layer, and it leaves the device
    extension unchanged. *)
Theorem unknown_minor_completes_as_is (E : env) (w : world) :
  PnPState (vdev w) <> Removed ->
  (ARRAYSIZE (pnpmn_functions E) <= MinorFunction (irp w))%N ->
  runState (vhci_pnp E) w =
    (Status (IoStatus (irp w)),
     mk_world (vdev w) (irp w) (pool w) (trace w ++ [Completed (irp w)]))
  /\ vdev (snd (runState (vhci_pnp E) w)) = vdev w
  /\ forwarded w (snd (runState (vhci_pnp E) w)) = false.
Proof.
  intros Hs Hmf. rewrite (unknown_minor_run E w Hs Hmf). repeat split.
  unfold forwarded. cbn [snd]. now rewrite new_events_one.
Qed.

Lemma unknown_minor_completes_as_is_witness :
  fst (runState (vhci_pnp env0) (sample_world VDEV_VHCI Started NotStarted 26))
    = STATUS_NOT_SUPPORTED
  /\ forwarded (sample_world VDEV_VHCI Started NotStarted 26)
       (snd (runState (vhci_pnp env0)
               (sample_world VDEV_VHCI Started NotStarted 26))) = false.
Proof.
  destruct (unknown_minor_completes_as_is env0
              (sample_world VDEV_VHCI Started NotStarted 26)) as (R & _ & F).
  - cbn. discriminate.
  - vm_compute. discriminate.
  - split; [now rewrite R | exact F].
Defined.

(** C2 as stated fails: a Controller (VHCI) device has a lower layer, so the
    default rule would pass the request down, yet an IRP with minor function
    26 is completed locally with the STATUS_NOT_SUPPORTED it came with. *)
Lemma unknown_minor_not_passed_down :
  let w := sample_world VDEV_VHCI Started NotStarted 26 in
  is_fdo env0 (type (vdev w)) = true
  /\ (ARRAYSIZE (pnpmn_functions env0) <= MinorFunction (irp w))%N
  /\ forwarded w (snd (runState (irp_pass_down_or_complete env0) w)) = true
  /\ forwarded w (snd (runState (vhci_pnp env0) w)) = false
  /\ runState (vhci_pnp env0) w <> runState (irp_pass_down_or_complete env0) w.
Proof.
  cbv zeta. split; [reflexivity|]. split; [vm_compute; discriminate|].
  split; [reflexivity|]. split; [reflexivity|].
  vm_compute. discriminate.
Qed.

(** *** The lifecycle handlers *)

Ltac split_run :=
  cbn;
  repeat match goal with
         | |- context [match ?x with _ => _ end] =>
             lazymatch x with
             | context [match _ with _ => _ end] => fail
             | _ => destruct x eqn:?; cbn
             end
         end;
  try reflexivity.

Lemma query_stop_run E w :
  runState (pnp_query_stop_device E) w =
  runState (irp_pass_down_or_complete E)
    (mk_world (set_state (vdev w) StopPending) (irp w) (pool w) (trace w)).
Proof. reflexivity. Qed.

Lemma stop_run E w :
  runState (pnp_stop_device E) w =
  runState (irp_pass_down_or_complete E)
    (mk_world (set_state (vdev w) Stopped) (irp w) (pool w) (trace w)).
Proof. reflexivity. Qed.

Lemma surprise_removal_run E w :
  runState (pnp_surprise_removal E) w =
  runState (irp_pass_down_or_complete E)
    (mk_world (set_state (vdev w) SurpriseRemovePending)
              (irp w) (pool w) (trace w)).
Proof. reflexivity. Qed.

Lemma query_remove_run_ok E w :
  device_can_be_removed (vdev w) = true ->
  runState (pnp_query_remove_device E) w =
  runState (irp_pass_down_or_complete E)
    (mk_world (set_state (vdev w) RemovePending) (irp w) (pool w) (trace w)).
Proof. intros H. unfold pnp_query_remove_device. cbn. now rewrite H. Qed.

Lemma query_remove_run_busy E w :
  device_can_be_removed (vdev w) = false ->
  runState (pnp_query_remove_device E) w =
  (STATUS_UNSUCCESSFUL,
   mk_world (vdev w) (set_Status STATUS_UNSUCCESSFUL (irp w)) (pool w)
     (trace w ++ [Completed (set_Status STATUS_UNSUCCESSFUL (irp w))])).
Proof. intros H. unfold pnp_query_remove_device. cbn. now rewrite H. Qed.

Lemma cancel_stop_run_pending E w :
  PnPState (vdev w) = StopPending ->
  runState (pnp_cancel_stop_device E) w =
  runState (irp_pass_down_or_complete E)
    (mk_world (set_previous_pnp_state (vdev w)) (irp w) (pool w) (trace w)).
Proof. intros H. unfold pnp_cancel_stop_device. cbn. now rewrite H. Qed.

Lemma cancel_stop_run_other E w :
  PnPState (vdev w) <> StopPending ->
  runState (pnp_cancel_stop_device E) w =
  runState (irp_pass_down_or_complete E) w.
Proof.
  intros H. unfold pnp_cancel_stop_device. cbn.
  destruct (pnp_state_eqb_spec (PnPState (vdev w)) StopPending);
    [contradiction | reflexivity].
Qed.

Lemma cancel_remove_run_pending E w :
  PnPState (vdev w) = RemovePending ->
  runState (pnp_cancel_remove_device E) w =
  runState (irp_pass_down_or_complete E)
    (mk_world (set_previous_pnp_state (vdev w)) (irp w) (pool w) (trace w)).
Proof. intros H. unfold pnp_cancel_remove_device. cbn. now rewrite H. Qed.

Lemma cancel_remove_run_other E w :
  PnPState (vdev w) <> RemovePending ->
  runState (pnp_cancel_remove_device E) w =
  runState (irp_pass_down_or_complete E) w.
Proof.
  intros H. unfold pnp_cancel_remove_device. cbn.
  destruct (pnp_state_eqb_spec (PnPState (vdev w)) RemovePending);
    [contradiction | reflexivity].
Qed.

(** Handlers that never touch the device extension. *)
Lemma complete_vdev st w :
  vdev (snd (runState (CompleteRequest st) w)) = vdev w.
Proof. reflexivity. Qed.

Lemma complete_as_is_vdev w :
  vdev (snd (runState CompleteRequestAsIs w)) = vdev w.
Proof. reflexivity. Qed.

Lemma eject_vdev w : vdev (snd (runState pnp_eject w)) = vdev w.
Proof. unfold pnp_eject. split_run. Qed.

Lemma query_pnp_device_state_vdev w :
  vdev (snd (runState pnp_query_pnp_device_state w)) = vdev w.
Proof. unfold pnp_query_pnp_device_state. split_run. Qed.

Lemma query_bus_information_vdev w :
  vdev (snd (runState pnp_query_bus_information w)) = vdev w.
Proof. unfold pnp_query_bus_information, ExAllocatePool2. split_run. Qed.

Lemma query_device_text_vdev E w :
  vdev (snd (runState (pnp_query_device_text E) w)) = vdev w.
Proof.
  unfold pnp_query_device_text, query_device_text_for, copy_str,
    libdrv_strdup, ExAllocatePool2.
  split_run.
Qed.

(** Case analysis on the first [k] values of the table index [n]. *)
Ltac by_slot n k tac :=
  lazymatch k with
  | O => idtac
  | S ?k' => destruct n as [|n]; [ tac | by_slot n k' tac ]
  end.

(** What the router runs for an IRP whose code is inside the table. *)
Lemma known_minor_run (E : env) (w : world) :
  PnPState (vdev w) <> Removed ->
  (MinorFunction (irp w) < 26)%N ->
  runState (vhci_pnp E) w =
  runState (nth (N.to_nat (MinorFunction (irp w))) (pnpmn_functions E)
                CompleteRequestAsIs) w.
Proof.
  intros Hs Hmf. unfold vhci_pnp. cbn.
  destruct (pnp_state_eqb_spec (PnPState (vdev w)) Removed); [contradiction|].
  destruct (N.ltb_spec (MinorFunction (irp w)) 26); [reflexivity|lia].
Qed.

Lemma previous_after_set_state E v st i p t :
  PreviousPnPState
    (vdev (snd (runState (irp_pass_down_or_complete E)
                  (mk_world (set_state v st) i p t)))) = PnPState v.
Proof. now rewrite pass_down_or_complete_vdev. Qed.

(** C3, as the code has it. [set_state] saves the current state in
    [PreviousPnPState] whenever it is called, whatever the new state: among
    the handlers pnp.cpp defines, QueryStop, Stop, SurpriseRemoval and a
    QueryRemove whose poll succeeds leave [PreviousPnPState] equal to the
    state held before the request; every other one leaves it unchanged. *)
Theorem previous_state_written_by_set_state (E : env) (w : world) :
  PnPState (vdev w) <> Removed ->
  defined_in_pnp_cpp (MinorFunction (irp w)) = true ->
  PreviousPnPState (vdev (snd (runState (vhci_pnp E) w))) =
    if calls_set_state (vdev w) (MinorFunction (irp w))
    then PnPState (vdev w)
    else PreviousPnPState (vdev w).
Proof.
  intros Hs Hd.
  assert (Hlt : (MinorFunction (irp w) < 26)%N).
  { unfold defined_in_pnp_cpp in Hd. apply andb_prop in Hd as [Hd _].
    now apply N.ltb_lt. }
  rewrite (known_minor_run E w Hs Hlt).
  assert (Hn : MinorFunction (irp w) = N.of_nat (N.to_nat (MinorFunction (irp w))))
    by now rewrite N2Nat.id.
  assert (Hb : (N.to_nat (MinorFunction (irp w)) < 26)%nat) by lia.
  revert Hn Hb. generalize (N.to_nat (MinorFunction (irp w))) as n.
  intros n Hn Hb. rewrite Hn in Hd. rewrite Hn. clear Hn Hlt.
  by_slot n 26%nat
    ltac:(try discriminate Hd; clear Hd Hb;
          cbn [nth pnpmn_functions N.of_nat Pos.of_succ_nat Pos.succ]);
    [ .. | lia].
  - (* QueryRemove *)
    unfold calls_set_state. cbn [N.eqb Pos.eqb orb andb].
    destruct (device_can_be_removed (vdev w)) eqn:C.
    + rewrite (query_remove_run_ok E w C). apply previous_after_set_state.
    + now rewrite (query_remove_run_busy E w C).
  - (* CancelRemove *)
    destruct (pnp_state_eqb_spec (PnPState (vdev w)) RemovePending) as [P|P].
    + rewrite (cancel_remove_run_pending E w P).
      now rewrite pass_down_or_complete_vdev.
    + rewrite (cancel_remove_run_other E w P).
      now rewrite pass_down_or_complete_vdev.
  - (* Stop *)
    rewrite stop_run. apply previous_after_set_state.
  - (* QueryStop *)
    rewrite query_stop_run. apply previous_after_set_state.
  - (* CancelStop *)
    destruct (pnp_state_eqb_spec (PnPState (vdev w)) StopPending) as [P|P].
    + rewrite (cancel_stop_run_pending E w P).
      now rewrite pass_down_or_complete_vdev.
    + rewrite (cancel_stop_run_other E w P).
      now rewrite pass_down_or_complete_vdev.
  - now rewrite query_device_text_vdev.
  - reflexivity.
  - reflexivity.
  - reflexivity.
  - now rewrite eject_vdev.
  - reflexivity.
  - now rewrite query_pnp_device_state_vdev.
  - now rewrite query_bus_information_vdev.
  - unfold pnp_device_usage_notification.
    now rewrite pass_down_or_complete_vdev.
  - rewrite surprise_removal_run. apply previous_after_set_state.
  - reflexivity.
  - reflexivity.
Qed.

Lemma previous_state_written_by_set_state_witness :
  PreviousPnPState
    (vdev (snd (runState (vhci_pnp env0)
                  (sample_world VDEV_VHUB Started NotStarted
                                IRP_MN_QUERY_STOP_DEVICE)))) = Started
  /\ PreviousPnPState
       (vdev (snd (runState (vhci_pnp env0)
                     (sample_world VDEV_VHUB Started NotStarted
                                   IRP_MN_EJECT)))) = NotStarted.
Proof.
  split.
  - apply (previous_state_written_by_set_state env0
             (sample_world VDEV_VHUB Started NotStarted
                           IRP_MN_QUERY_STOP_DEVICE)).
    + cbn. discriminate.
    + reflexivity.
  - apply (previous_state_written_by_set_state env0
             (sample_world VDEV_VHUB Started NotStarted IRP_MN_EJECT)).
    + cbn. discriminate.
    + reflexivity.
Defined.

(** C3 as stated fails: Stop moves a started device to Stopped, which is no
    pending state, and overwrites the saved slot (NotStarted) with Started. *)
Lemma stop_overwrites_previous_state :
  let w := sample_world VDEV_VPDO Started NotStarted IRP_MN_STOP_DEVICE in
  let w' := snd (runState (vhci_pnp env0) w) in
  PreviousPnPState (vdev w) = NotStarted
  /\ PnPState (vdev w') = Stopped
  /\ PreviousPnPState (vdev w') = Started
  /\ PreviousPnPState (vdev w') <> PreviousPnPState (vdev w).
Proof.
  cbv zeta. split; [reflexivity|]. split; [reflexivity|].
  split; [reflexivity|]. cbn. discriminate.
Qed.

(** The run of [irp_pass_down_or_complete], written out. *)
Lemma pass_down_or_complete_run E w :
  runState (irp_pass_down_or_complete E) w =
  if is_fdo E (type (vdev w))
  then (IoCallDriver E (devobj_lower (vdev w)) (irp w),
        mk_world (vdev w) (irp w) (pool w)
                 (trace w ++ [PassedDown (devobj_lower (vdev w)) (irp w)]))
  else (STATUS_SUCCESS,
        mk_world (vdev w) (set_Status STATUS_SUCCESS (irp w)) (pool w)
                 (trace w ++ [Completed (set_Status STATUS_SUCCESS (irp w))])).
Proof.
  destruct (is_fdo E (type (vdev w))) eqn:F.
  - now apply pass_down_or_complete_fdo.
  - now apply pass_down_or_complete_pdo.
Qed.

(** C4. With the reference gate consistent (the event is signalled exactly
    when the count is zero): QueryRemove on a device whose interface is
    referenced fails the zero-timeout poll, completes the request with
    STATUS_UNSUCCESSFUL without passing it down and leaves the device
    extension, and so its state, unchanged. When the count is zero the poll
    succeeds, the current state is saved in [PreviousPnPState], the state
    becomes RemovePending and the request is forwarded or completed: a device
    with a lower layer passes the IRP, unchanged, to [devobj_lower] and
    returns the lower driver's status; any other device completes it with
    STATUS_SUCCESS. In both cases the IRP is resolved exactly once. *)
Theorem query_remove_gate (E : env) (w : world) :
  intf_gate_consistent (vdev w) ->
  let r := runState (pnp_query_remove_device E) w in
  (0 < intf_ref_cnt (vdev w) ->
     device_can_be_removed (vdev w) = false
     /\ r = (STATUS_UNSUCCESSFUL,
             mk_world (vdev w) (set_Status STATUS_UNSUCCESSFUL (irp w)) (pool w)
               (trace w ++ [Completed (set_Status STATUS_UNSUCCESSFUL (irp w))]))
     /\ PnPState (vdev (snd r)) = PnPState (vdev w)
     /\ forwarded w (snd r) = false
     /\ resolutions w (snd r) = 1%nat)
  /\ (intf_ref_cnt (vdev w) = 0 ->
     device_can_be_removed (vdev w) = true
     /\ r = (if is_fdo E (type (vdev w))
             then (IoCallDriver E (devobj_lower (vdev w)) (irp w),
                   mk_world (set_state (vdev w) RemovePending) (irp w) (pool w)
                     (trace w ++
                        [PassedDown (devobj_lower (vdev w)) (irp w)]))
             else (STATUS_SUCCESS,
                   mk_world (set_state (vdev w) RemovePending)
                     (set_Status STATUS_SUCCESS (irp w)) (pool w)
                     (trace w ++
                        [Completed (set_Status STATUS_SUCCESS (irp w))])))
     /\ r = runState (irp_pass_down_or_complete E)
              (mk_world (set_state (vdev w) RemovePending)
                        (irp w) (pool w) (trace w))
     /\ PnPState (vdev (snd r)) = RemovePending
     /\ PreviousPnPState (vdev (snd r)) = PnPState (vdev w)
     /\ forwarded w (snd r) = is_fdo E (type (vdev w))
     /\ resolutions w (snd r) = 1%nat).
Proof.
  intros G. cbv zeta. unfold intf_gate_consistent in G. split; intros C.
  - assert (B : device_can_be_removed (vdev w) = false).
    { rewrite can_be_removed_iff, G. apply Z.eqb_neq. lia. }
    rewrite (query_remove_run_busy E w B). repeat split; auto.
    + unfold forwarded. cbn [snd]. now rewrite new_events_one.
    + unfold resolutions. cbn [snd]. now rewrite new_events_one.
  - assert (B : device_can_be_removed (vdev w) = true).
    { rewrite can_be_removed_iff, G. now apply Z.eqb_eq. }
    rewrite (query_remove_run_ok E w B).
    split; [exact B|]. split; [|split; [reflexivity|]].
    + rewrite pass_down_or_complete_run. reflexivity.
    + rewrite pass_down_or_complete_run. cbn [vdev irp pool trace].
      change (type (set_state (vdev w) RemovePending)) with (type (vdev w)).
      unfold forwarded, resolutions.
      destruct (is_fdo E (type (vdev w))); cbn [snd vdev];
        erewrite new_events_app by reflexivity; repeat split.
Qed.

Lemma query_remove_gate_witness :
  runState (pnp_query_remove_device env0) busy_world
    = (STATUS_UNSUCCESSFUL,
       mk_world (vdev busy_world)
         (set_Status STATUS_UNSUCCESSFUL (irp busy_world)) []
         [Completed (set_Status STATUS_UNSUCCESSFUL (irp busy_world))])
  /\ runState (pnp_query_remove_device env0)
       (sample_world VDEV_VPDO Started NotStarted IRP_MN_QUERY_REMOVE_DEVICE)
     = (STATUS_SUCCESS,
        mk_world (sample_vdev VDEV_VPDO RemovePending Started)
          (sample_irp IRP_MN_QUERY_REMOVE_DEVICE) [true; true]
          [PassedDown 2%nat (sample_irp IRP_MN_QUERY_REMOVE_DEVICE)])
  /\ runState (pnp_query_remove_device env0)
       (sample_world VDEV_CPDO Started NotStarted IRP_MN_QUERY_REMOVE_DEVICE)
     = (STATUS_SUCCESS,
        mk_world (sample_vdev VDEV_CPDO RemovePending Started)
          (set_Status STATUS_SUCCESS (sample_irp IRP_MN_QUERY_REMOVE_DEVICE))
          [true; true]
          [Completed (set_Status STATUS_SUCCESS
                        (sample_irp IRP_MN_QUERY_REMOVE_DEVICE))]).
Proof.
  split; [|split].
  - destruct (proj1 (query_remove_gate env0 busy_world eq_refl))
      as (_ & R & _); [reflexivity|]. exact R.
  - destruct (proj2 (query_remove_gate env0
                       (sample_world VDEV_VPDO Started NotStarted
                          IRP_MN_QUERY_REMOVE_DEVICE) eq_refl))
      as (_ & R & _); [reflexivity|]. exact R.
  - destruct (proj2 (query_remove_gate env0
                       (sample_world VDEV_CPDO Started NotStarted
                          IRP_MN_QUERY_REMOVE_DEVICE) eq_refl))
      as (_ & R & _); [reflexivity|]. exact R.
Defined.

(** C5. CancelStop on a device that is not in StopPending, and CancelRemove
    on a device that is not in RemovePending, leave the device extension
    (state and previous state included) unchanged and resolve the request
    by the default rule, exactly once: a device with a lower layer passes the
    IRP, unchanged, to [devobj_lower] and returns the lower driver's status;
    any other device completes it with STATUS_SUCCESS. The handler produces
    no error of its own: it never completes the IRP with a failing status,
    and the status it returns is a success unless it is the lower driver's. *)
Theorem cancel_outside_pending_is_noop (E : env) (w : world) :
  let default_rule :=
    if is_fdo E (type (vdev w))
    then (IoCallDriver E (devobj_lower (vdev w)) (irp w),
          mk_world (vdev w) (irp w) (pool w)
            (trace w ++ [PassedDown (devobj_lower (vdev w)) (irp w)]))
    else (STATUS_SUCCESS,
          mk_world (vdev w) (set_Status STATUS_SUCCESS (irp w)) (pool w)
            (trace w ++ [Completed (set_Status STATUS_SUCCESS (irp w))])) in
  let no_error_of_its_own (r : NTSTATUS * world) :=
    (forall i, In (Completed i) (new_events w (snd r)) ->
               NT_SUCCESS (Status (IoStatus i)) = true)
    /\ (NT_SUCCESS (fst r) = true
        \/ (is_fdo E (type (vdev w)) = true
            /\ fst r = IoCallDriver E (devobj_lower (vdev w)) (irp w))) in
  (PnPState (vdev w) <> StopPending ->
     let r := runState (pnp_cancel_stop_device E) w in
     r = default_rule
     /\ r = runState (irp_pass_down_or_complete E) w
     /\ vdev (snd r) = vdev w
     /\ fst r = (if is_fdo E (type (vdev w))
                 then IoCallDriver E (devobj_lower (vdev w)) (irp w)
                 else STATUS_SUCCESS)
     /\ resolutions w (snd r) = 1%nat
     /\ no_error_of_its_own r)
  /\ (PnPState (vdev w) <> RemovePending ->
     let r := runState (pnp_cancel_remove_device E) w in
     r = default_rule
     /\ r = runState (irp_pass_down_or_complete E) w
     /\ vdev (snd r) = vdev w
     /\ fst r = (if is_fdo E (type (vdev w))
                 then IoCallDriver E (devobj_lower (vdev w)) (irp w)
                 else STATUS_SUCCESS)
     /\ resolutions w (snd r) = 1%nat
     /\ no_error_of_its_own r).
Proof.
  cbv zeta.
  assert (D : let r := runState (irp_pass_down_or_complete E) w in
    r = (if is_fdo E (type (vdev w))
         then (IoCallDriver E (devobj_lower (vdev w)) (irp w),
               mk_world (vdev w) (irp w) (pool w)
                 (trace w ++ [PassedDown (devobj_lower (vdev w)) (irp w)]))
         else (STATUS_SUCCESS,
               mk_world (vdev w) (set_Status STATUS_SUCCESS (irp w)) (pool w)
                 (trace w ++ [Completed (set_Status STATUS_SUCCESS (irp w))])))
    /\ r = runState (irp_pass_down_or_complete E) w
    /\ vdev (snd r) = vdev w
    /\ fst r = (if is_fdo E (type (vdev w))
                then IoCallDriver E (devobj_lower (vdev w)) (irp w)
                else STATUS_SUCCESS)
    /\ resolutions w (snd r) = 1%nat
    /\ (forall i, In (Completed i) (new_events w (snd r)) ->
                  NT_SUCCESS (Status (IoStatus i)) = true)
    /\ (NT_SUCCESS (fst r) = true
        \/ (is_fdo E (type (vdev w)) = true
            /\ fst r = IoCallDriver E (devobj_lower (vdev w)) (irp w)))).
  { cbv zeta. rewrite pass_down_or_complete_run. unfold resolutions.
    destruct (is_fdo E (type (vdev w))); cbn [fst snd vdev];
      erewrite new_events_app by reflexivity; repeat split; auto.
    - intros i [H|[]]. discriminate H.
    - intros i [H|[]]. injection H as <-. reflexivity. }
  cbv zeta in D. split; intros H.
  - rewrite (cancel_stop_run_other E w H). exact D.
  - rewrite (cancel_remove_run_other E w H). exact D.
Qed.

Lemma cancel_outside_pending_is_noop_witness :
  runState (pnp_cancel_stop_device env0)
    (sample_world VDEV_CPDO Started NotStarted IRP_MN_CANCEL_STOP_DEVICE)
    = (STATUS_SUCCESS,
       mk_world (sample_vdev VDEV_CPDO Started NotStarted)
         (set_Status STATUS_SUCCESS (sample_irp IRP_MN_CANCEL_STOP_DEVICE))
         [true; true]
         [Completed (set_Status STATUS_SUCCESS
                       (sample_irp IRP_MN_CANCEL_STOP_DEVICE))])
  /\ runState (pnp_cancel_remove_device env0)
       (sample_world VDEV_VHUB StopPending Started IRP_MN_CANCEL_REMOVE_DEVICE)
     = (STATUS_SUCCESS,
        mk_world (sample_vdev VDEV_VHUB StopPending Started)
          (sample_irp IRP_MN_CANCEL_REMOVE_DEVICE) [true; true]
          [PassedDown 2%nat (sample_irp IRP_MN_CANCEL_REMOVE_DEVICE)]).
Proof.
  split.
  - destruct (proj1 (cancel_outside_pending_is_noop env0
                       (sample_world VDEV_CPDO Started NotStarted
                          IRP_MN_CANCEL_STOP_DEVICE))) as (R & _).
    + cbn. discriminate.
    + exact R.
  - destruct (proj2 (cancel_outside_pending_is_noop env0
                       (sample_world VDEV_VHUB StopPending Started
                          IRP_MN_CANCEL_REMOVE_DEVICE))) as (R & _).
    + cbn. discriminate.
    + exact R.
Defined.

(** C6. From a started device, QueryStop followed by CancelStop, each
    delivered through the router, ends in state Started again; in between
    the device is in StopPending with Started in the saved slot. *)
Theorem query_stop_cancel_stop_roundtrip (E : env) (w : world) (i1 i2 : IRP) :
  PnPState (vdev w) = Started ->
  MinorFunction i1 = IRP_MN_QUERY_STOP_DEVICE ->
  MinorFunction i2 = IRP_MN_CANCEL_STOP_DEVICE ->
  let w1 := snd (deliver E i1 w) in
  let w2 := snd (deliver E i2 w1) in
  PnPState (vdev w1) = StopPending
  /\ PreviousPnPState (vdev w1) = Started
  /\ PnPState (vdev w2) = Started.
Proof.
  intros Hs H1 H2. cbv zeta.
  assert (R1 : vdev (snd (deliver E i1 w)) = set_state (vdev w) StopPending).
  { unfold deliver. rewrite known_minor_run; cbn [vdev irp].
    - rewrite H1. change (N.to_nat IRP_MN_QUERY_STOP_DEVICE) with 5%nat.
      cbn [nth pnpmn_functions]. rewrite query_stop_run. now rewrite pass_down_or_complete_vdev.
    - rewrite Hs. discriminate.
    - rewrite H1. reflexivity. }
  rewrite R1. split; [reflexivity|]. split; [cbn; exact Hs|].
  unfold deliver at 1. rewrite known_minor_run; cbn [vdev irp].
  - rewrite H2. change (N.to_nat IRP_MN_CANCEL_STOP_DEVICE) with 6%nat.
    cbn [nth pnpmn_functions]. rewrite cancel_stop_run_pending; cbn [vdev irp pool trace].
    + rewrite pass_down_or_complete_vdev. rewrite R1. cbn. exact Hs.
    + now rewrite R1.
  - rewrite R1. cbn. discriminate.
  - rewrite H2. reflexivity.
Qed.

Lemma query_stop_cancel_stop_roundtrip_witness :
  PnPState
    (vdev (snd (deliver env0 (sample_irp IRP_MN_CANCEL_STOP_DEVICE)
             (snd (deliver env0 (sample_irp IRP_MN_QUERY_STOP_DEVICE)
                     (sample_world VDEV_VHCI Started NotStarted
                        IRP_MN_START_DEVICE)))))) = Started.
Proof.
  exact (proj2 (proj2 (query_stop_cancel_stop_roundtrip env0
           (sample_world VDEV_VHCI Started NotStarted IRP_MN_START_DEVICE)
           (sample_irp IRP_MN_QUERY_STOP_DEVICE)
           (sample_irp IRP_MN_CANCEL_STOP_DEVICE)
           eq_refl eq_refl eq_refl))).
Defined.

(** *** Descriptive queries *)

(** C7, as the code has it. For a Description query whose IRP carries no
    information yet: a description the PnP manager holds for the device
    object ([GetDeviceProperty]) is returned first, for every kind; without
    one, a VPDO with a product string returns that string, and any other
    kind, or a VPDO without a product string, returns the canned description
    of its kind, provided the pool allocation for the copy succeeds. A text
    type that is neither Description nor LocationInformation completes with
    STATUS_INVALID_PARAMETER and no information. *)
Theorem query_device_text_description (E : env) (w : world) :
  is_null (Information (IoStatus (irp w))) = true ->
  let r := runState (pnp_query_device_text E) w in
  (DeviceTextType (irp w) = DeviceTextDescription ->
     (forall s,
        GetDeviceProperty E (Self (vdev w)) DevicePropertyDeviceDescription
          = Some s ->
        fst r = STATUS_SUCCESS
        /\ Information (IoStatus (irp (snd r))) = StrPtr s)
     /\ (forall p rest,
        GetDeviceProperty E (Self (vdev w)) DevicePropertyDeviceDescription
          = None ->
        type (vdev w) = VDEV_VPDO ->
        get_product E (vdev w) = Some p ->
        pool w = true :: rest ->
        fst r = STATUS_SUCCESS
        /\ Information (IoStatus (irp (snd r))) = StrPtr p)
     /\ (forall rest,
        GetDeviceProperty E (Self (vdev w)) DevicePropertyDeviceDescription
          = None ->
        type (vdev w) <> VDEV_VPDO \/ get_product E (vdev w) = None ->
        pool w = true :: rest ->
        fst r = STATUS_SUCCESS
        /\ Information (IoStatus (irp (snd r)))
           = StrPtr (vdev_desc (type (vdev w)))))
  /\ (DeviceTextType (irp w) <> DeviceTextDescription ->
      DeviceTextType (irp w) <> DeviceTextLocationInformation ->
      r = (STATUS_INVALID_PARAMETER,
           mk_world (vdev w) (set_Status STATUS_INVALID_PARAMETER (irp w))
             (pool w)
             (trace w ++
                [Completed (set_Status STATUS_INVALID_PARAMETER (irp w))]))).
Proof.
  intros Hnull. cbv zeta. split.
  - intros Hty. split; [|split].
    + intros s Hp.
      unfold pnp_query_device_text, query_device_text_for. cbn.
      rewrite Hty. cbn. rewrite Hp. cbn. split; reflexivity.
    + intros p rest Hp Hv Hprod Hpool.
      unfold pnp_query_device_text, query_device_text_for, copy_str,
        libdrv_strdup, ExAllocatePool2. cbn.
      rewrite Hty. cbn. rewrite Hp. cbn. rewrite Hv, Hprod. cbn.
      rewrite Hpool. cbn. split; reflexivity.
    + intros rest Hp Hv Hpool.
      unfold pnp_query_device_text, query_device_text_for, copy_str,
        libdrv_strdup, ExAllocatePool2. cbn.
      rewrite Hty. cbn. rewrite Hp. cbn.
      destruct Hv as [Hv|Hv].
      * destruct (type (vdev w)) eqn:T; try congruence; cbn;
          rewrite Hnull; cbn; rewrite Hpool; cbn; split; reflexivity.
      * destruct (type (vdev w)) eqn:T; cbn; try rewrite Hv; cbn;
          rewrite Hnull; cbn; rewrite Hpool; cbn; split; reflexivity.
  - intros H0 H1. unfold pnp_query_device_text. cbn.
    destruct (Z.eqb_spec (DeviceTextType (irp w)) DeviceTextDescription);
      [contradiction|].
    destruct (Z.eqb_spec (DeviceTextType (irp w)) DeviceTextLocationInformation);
      [contradiction|].
    reflexivity.
Qed.

Lemma query_device_text_description_witness :
  Information (IoStatus (irp (snd (runState (pnp_query_device_text env_described)
                                      (text_query VDEV_VHUB 1)))))
    = StrPtr (L "Generic USB Hub")
  /\ Information (IoStatus (irp (snd (runState (pnp_query_device_text env_product)
                                         (text_query VDEV_VPDO 1)))))
     = StrPtr (L "Flash Disk")
  /\ Information (IoStatus (irp (snd (runState (pnp_query_device_text env_product)
                                         (text_query VDEV_VHCI 1)))))
     = StrPtr (L "usbip-win VHCI").
Proof.
  split; [|split].
  - destruct (query_device_text_description env_described
                (text_query VDEV_VHUB 1) eq_refl) as [D _].
    destruct (D eq_refl) as (A & _ & _).
    exact (proj2 (A (L "Generic USB Hub") eq_refl)).
  - destruct (query_device_text_description env_product
                (text_query VDEV_VPDO 1) eq_refl) as [D _].
    destruct (D eq_refl) as (_ & B & _).
    exact (proj2 (B (L "Flash Disk") [] eq_refl eq_refl eq_refl eq_refl)).
  - destruct (query_device_text_description env_product
                (text_query VDEV_VHCI 1) eq_refl) as [D _].
    destruct (D eq_refl) as (_ & _ & C).
    refine (proj2 (C [] eq_refl _ eq_refl)).
    left. discriminate.
Defined.

(** C7 as stated fails when the PnP manager holds a description: on a VPDO
    the product string does not win, and on a hub the canned description is
    not what comes back. *)
Lemma device_property_shadows_product :
  let port := runState (pnp_query_device_text env_described)
                       (text_query VDEV_VPDO 2) in
  let hub := runState (pnp_query_device_text env_described)
                      (text_query VDEV_VHUB 2) in
  get_product env_described (vdev (text_query VDEV_VPDO 2))
    = Some (L "Flash Disk")
  /\ Information (IoStatus (irp (snd port))) = StrPtr (L "Generic USB Hub")
  /\ Information (IoStatus (irp (snd port))) <> StrPtr (L "Flash Disk")
  /\ Information (IoStatus (irp (snd hub))) = StrPtr (L "Generic USB Hub")
  /\ Information (IoStatus (irp (snd hub))) <> StrPtr (vdev_desc VDEV_VHUB).
Proof.
  cbv zeta. split; [reflexivity|]. split; [reflexivity|].
  split; [vm_compute; discriminate|]. split; [reflexivity|].
  vm_compute; discriminate.
Qed.

(** C9, as the code has it. Eject on a VPDO calls [vhub_unplug_vpdo] and then
    completes the request with STATUS_SUCCESS. On every other kind the
    request is completed locally with the status the IRP already carries: it
    is never passed down, whether or not the device has a lower layer, and
    nothing is unplugged. *)
Theorem eject_unplugs_vpdo_only (w : world) :
  (type (vdev w) = VDEV_VPDO ->
     runState pnp_eject w =
       (STATUS_SUCCESS,
        mk_world (vdev w) (set_Status STATUS_SUCCESS (irp w)) (pool w)
          ((trace w ++ [Unplugged (Self (vdev w))]) ++
           [Completed (set_Status STATUS_SUCCESS (irp w))])))
  /\ (type (vdev w) <> VDEV_VPDO ->
     runState pnp_eject w =
       (Status (IoStatus (irp w)),
        mk_world (vdev w) (irp w) (pool w) (trace w ++ [Completed (irp w)]))
     /\ forwarded w (snd (runState pnp_eject w)) = false
     /\ unplugged w (snd (runState pnp_eject w)) = false).
Proof.
  split; intros H.
  - unfold pnp_eject. cbn. rewrite H. reflexivity.
  - assert (R : runState pnp_eject w =
       (Status (IoStatus (irp w)),
        mk_world (vdev w) (irp w) (pool w) (trace w ++ [Completed (irp w)]))).
    { unfold pnp_eject. cbn.
      destruct (vdev_type_eqb_spec (type (vdev w)) VDEV_VPDO);
        [contradiction | reflexivity]. }
    rewrite R. split; [reflexivity|].
    unfold forwarded, unplugged. cbn [snd]. rewrite new_events_one.
    split; reflexivity.
Qed.

Lemma eject_unplugs_vpdo_only_witness :
  unplugged (sample_world VDEV_VPDO Started NotStarted IRP_MN_EJECT)
    (snd (runState pnp_eject
            (sample_world VDEV_VPDO Started NotStarted IRP_MN_EJECT))) = true
  /\ fst (runState pnp_eject
            (sample_world VDEV_VHUB Started NotStarted IRP_MN_EJECT))
     = STATUS_NOT_SUPPORTED.
Proof.
  split.
  - rewrite (proj1 (eject_unplugs_vpdo_only
                      (sample_world VDEV_VPDO Started NotStarted IRP_MN_EJECT))
                   eq_refl).
    reflexivity.
  - destruct (proj2 (eject_unplugs_vpdo_only
                       (sample_world VDEV_VHUB Started NotStarted IRP_MN_EJECT)))
      as (R & _).
    + discriminate.
    + now rewrite R.
Defined.

(** C9 as stated fails: a hub (VHUB) has a lower layer, so the default rule
    would pass Eject down; the handler, reached through the router, completes
    it locally instead, with the STATUS_NOT_SUPPORTED it came with. *)
Lemma eject_not_passed_down :
  let w := sample_world VDEV_VHUB Started NotStarted IRP_MN_EJECT in
  is_fdo env0 (type (vdev w)) = true
  /\ forwarded w (snd (runState (irp_pass_down_or_complete env0) w)) = true
  /\ forwarded w (snd (runState (vhci_pnp env0) w)) = false
  /\ fst (runState (vhci_pnp env0) w) = STATUS_NOT_SUPPORTED
  /\ runState (vhci_pnp env0) w <> runState (irp_pass_down_or_complete env0) w.
Proof.
  cbv zeta. split; [reflexivity|]. split; [reflexivity|].
  split; [reflexivity|]. split; [reflexivity|].
  vm_compute. discriminate.
Qed.

(** *** The shape of a run *)

Lemma new_events_run w v i p l :
  new_events w (mk_world v i p (trace w ++ l)) = l.
Proof. now apply new_events_app. Qed.

Ltac local_run :=
  cbn;
  repeat match goal with
         | |- context [match ?x with _ => _ end] =>
             lazymatch x with
             | context [match _ with _ => _ end] => fail
             | _ => destruct x eqn:?; cbn
             end
         end;
  do 3 eexists; (split; [reflexivity|]); (split; [reflexivity|]);
  repeat match goal with
         | H : pool ?x = _ |- context [pool ?x] => rewrite H
         end;
  cbn [List.length]; first [lia | congruence].

Lemma complete_locally st w : completes_locally (CompleteRequest st) w.
Proof. unfold completes_locally. local_run. Qed.

Lemma complete_as_is_locally w : completes_locally CompleteRequestAsIs w.
Proof. unfold completes_locally. local_run. Qed.

Lemma query_pnp_device_state_locally w :
  completes_locally pnp_query_pnp_device_state w.
Proof. unfold completes_locally, pnp_query_pnp_device_state. local_run. Qed.

Lemma query_bus_information_locally w :
  completes_locally pnp_query_bus_information w.
Proof.
  unfold completes_locally, pnp_query_bus_information, ExAllocatePool2.
  local_run.
Qed.

Lemma query_device_text_locally E w :
  completes_locally (pnp_query_device_text E) w.
Proof.
  unfold completes_locally, pnp_query_device_text, query_device_text_for,
    copy_str, libdrv_strdup, ExAllocatePool2.
  local_run.
Qed.

Lemma world_eta (w : world) :
  mk_world (vdev w) (irp w) (pool w) (trace w) = w.
Proof. now destruct w. Qed.

Lemma pass_down_or_complete_shape E w v' :
  type v' = type (vdev w) ->
  devobj_lower v' = devobj_lower (vdev w) ->
  vdev_step (vdev w) v' ->
  run_shape E w (runState (irp_pass_down_or_complete E)
                          (mk_world v' (irp w) (pool w) (trace w))).
Proof.
  intros Ht Hl Hs. unfold run_shape.
  destruct (is_fdo E (type (vdev w))) eqn:F.
  - rewrite pass_down_or_complete_fdo by (cbn; now rewrite Ht).
    cbn [vdev irp pool trace]. rewrite Hl.
    exists (IoCallDriver E (devobj_lower (vdev w)) (irp w)), v', (irp w),
      (pool w), [PassedDown (devobj_lower (vdev w)) (irp w)].
    repeat split; auto. now constructor.
  - rewrite pass_down_or_complete_pdo by (cbn; now rewrite Ht).
    cbn [vdev irp pool trace].
    exists STATUS_SUCCESS, v', (set_Status STATUS_SUCCESS (irp w)), (pool w),
      [Completed (set_Status STATUS_SUCCESS (irp w))].
    repeat split; auto.
    exact (res_done E w (set_Status STATUS_SUCCESS (irp w))).
Qed.

Lemma locally_shape E h w :
  completes_locally h w -> run_shape E w (runState h w).
Proof.
  intros (st & i' & p' & R & -> & P). unfold run_shape. rewrite R.
  exists (Status (IoStatus i')), (vdev w), i', p', [Completed i'].
  repeat split; auto; constructor.
Qed.

Lemma eject_shape E w : run_shape E w (runState pnp_eject w).
Proof.
  destruct (vdev_type_eqb_spec (type (vdev w)) VDEV_VPDO) as [T|T].
  - unfold run_shape, pnp_eject. cbn. rewrite T. cbn.
    exists STATUS_SUCCESS, (vdev w), (set_Status STATUS_SUCCESS (irp w)),
      (pool w), [Unplugged (Self (vdev w));
                 Completed (set_Status STATUS_SUCCESS (irp w))].
    rewrite <- app_assoc. repeat split; auto; [constructor|].
    exact (res_unplug E w (set_Status STATUS_SUCCESS (irp w)) T).
  - apply locally_shape. unfold completes_locally, pnp_eject. cbn.
    destruct (vdev_type_eqb_spec (type (vdev w)) VDEV_VPDO); [contradiction|].
    do 3 eexists. repeat split; auto.
Qed.

(** Every handler pnp.cpp defines, reached through the router. *)
Lemma known_run_shape (E : env) (w : world) :
  PnPState (vdev w) <> Removed ->
  defined_in_pnp_cpp (MinorFunction (irp w)) = true ->
  run_shape E w (runState (vhci_pnp E) w).
Proof.
  intros Hs Hd.
  assert (Hlt : (MinorFunction (irp w) < 26)%N).
  { unfold defined_in_pnp_cpp in Hd. apply andb_prop in Hd as [Hd _].
    now apply N.ltb_lt. }
  rewrite (known_minor_run E w Hs Hlt).
  assert (Hn : MinorFunction (irp w) = N.of_nat (N.to_nat (MinorFunction (irp w))))
    by now rewrite N2Nat.id.
  assert (Hb : (N.to_nat (MinorFunction (irp w)) < 26)%nat) by lia.
  revert Hn Hb. generalize (N.to_nat (MinorFunction (irp w))) as n.
  intros n Hn Hb. rewrite Hn in Hd. clear Hn Hlt.
  by_slot n 26%nat
    ltac:(try discriminate Hd; clear Hd Hb; cbn [nth pnpmn_functions]);
    [ .. | lia].
  - destruct (device_can_be_removed (vdev w)) eqn:C.
    + rewrite (query_remove_run_ok E w C).
      apply pass_down_or_complete_shape; auto. constructor. discriminate.
    + apply locally_shape. unfold completes_locally.
      rewrite (query_remove_run_busy E w C). do 3 eexists. repeat split; auto.
  - destruct (pnp_state_eqb_spec (PnPState (vdev w)) RemovePending) as [P|P].
    + rewrite (cancel_remove_run_pending E w P).
      apply pass_down_or_complete_shape; auto. constructor. now right.
    + rewrite (cancel_remove_run_other E w P). rewrite <- (world_eta w) at 2.
      apply pass_down_or_complete_shape; auto. constructor.
  - rewrite stop_run.
    apply pass_down_or_complete_shape; auto. constructor. discriminate.
  - rewrite query_stop_run.
    apply pass_down_or_complete_shape; auto. constructor. discriminate.
  - destruct (pnp_state_eqb_spec (PnPState (vdev w)) StopPending) as [P|P].
    + rewrite (cancel_stop_run_pending E w P).
      apply pass_down_or_complete_shape; auto. constructor. now left.
    + rewrite (cancel_stop_run_other E w P). rewrite <- (world_eta w) at 2.
      apply pass_down_or_complete_shape; auto. constructor.
  - apply locally_shape, query_device_text_locally.
  - apply locally_shape, complete_as_is_locally.
  - apply locally_shape, complete_as_is_locally.
  - apply locally_shape, complete_as_is_locally.
  - apply eject_shape.
  - apply locally_shape, complete_as_is_locally.
  - apply locally_shape, query_pnp_device_state_locally.
  - apply locally_shape, query_bus_information_locally.
  - unfold pnp_device_usage_notification. rewrite <- (world_eta w) at 2.
    apply pass_down_or_complete_shape; auto. constructor.
  - rewrite surprise_removal_run.
    apply pass_down_or_complete_shape; auto. constructor. discriminate.
  - apply locally_shape, complete_as_is_locally.
  - apply locally_shape, complete_locally.
Qed.

Lemma removed_run (E : env) (w : world) :
  PnPState (vdev w) = Removed ->
  runState (vhci_pnp E) w =
  runState (CompleteRequest STATUS_NO_SUCH_DEVICE) w.
Proof. intros H. unfold vhci_pnp. cbn. now rewrite H. Qed.

Lemma router_run_shape (E : env) (w : world) :
  processed_by_pnp_cpp w = true ->
  run_shape E w (runState (vhci_pnp E) w).
Proof.
  unfold processed_by_pnp_cpp. intros H.
  destruct (pnp_state_eqb_spec (PnPState (vdev w)) Removed) as [R|R].
  - rewrite (removed_run E w R). apply locally_shape, complete_locally.
  - cbn [orb] in H. apply orb_prop in H as [H|H].
    + now apply known_run_shape.
    + apply N.leb_le in H. rewrite (unknown_minor_run E w R) by exact H.
      change (run_shape E w (runState CompleteRequestAsIs w)).
      apply locally_shape, complete_as_is_locally.
Qed.

Lemma vdev_step_frame v v' :
  vdev_step v v' ->
  type v' = type v /\ Self v' = Self v /\ devobj_lower v' = devobj_lower v
  /\ intf_ref_cnt v' = intf_ref_cnt v /\ intf_ref_event v' = intf_ref_event v.
Proof. intros []; cbn; auto. Qed.

(** X1. No request that pnp.cpp processes from end to end changes the kind of
    the device, its device objects, the interface reference count or the
    event paired with it. *)
Theorem router_keeps_identity_and_gate (E : env) (w : world) :
  processed_by_pnp_cpp w = true ->
  let v' := vdev (snd (runState (vhci_pnp E) w)) in
  type v' = type (vdev w)
  /\ Self v' = Self (vdev w)
  /\ devobj_lower v' = devobj_lower (vdev w)
  /\ intf_ref_cnt v' = intf_ref_cnt (vdev w)
  /\ intf_ref_event v' = intf_ref_event (vdev w).
Proof.
  intros H. cbv zeta.
  destruct (router_run_shape E w H) as (st & v' & i' & p' & ev & R & S & _).
  rewrite R. cbn [snd vdev]. now apply vdev_step_frame.
Qed.

Lemma router_keeps_identity_and_gate_witness :
  intf_ref_cnt
    (vdev (snd (runState (vhci_pnp env0)
                  (mk_world (mk_vdev VDEV_VPDO 1%nat 2%nat Started NotStarted
                                     2 false)
                            (request IRP_MN_SURPRISE_REMOVAL 0) [] [])))) = 2.
Proof.
  exact (proj1 (proj2 (proj2 (proj2
    (router_keeps_identity_and_gate env0
       (mk_world (mk_vdev VDEV_VPDO 1%nat 2%nat Started NotStarted 2 false)
                 (request IRP_MN_SURPRISE_REMOVAL 0) [] [])
       eq_refl))))).
Defined.

(** X2. Every request that pnp.cpp processes from end to end is resolved
    exactly once: the IRP is either completed or passed down, never both and
    never twice; and the status the router returns is the one stored in the
    completed IRP, or the one the lower driver returned. *)
Theorem router_resolves_exactly_once (E : env) (w : world) :
  processed_by_pnp_cpp w = true ->
  let r := runState (vhci_pnp E) w in
  resolutions w (snd r) = 1%nat
  /\ (forwarded w (snd r) = true ->
      fst r = IoCallDriver E (devobj_lower (vdev w)) (irp w))
  /\ (forwarded w (snd r) = false ->
      fst r = Status (IoStatus (irp (snd r)))
      /\ In (Completed (irp (snd r))) (new_events w (snd r))).
Proof.
  intros H. cbv zeta.
  destruct (router_run_shape E w H) as (st & v' & i' & p' & ev & R & _ & S & _).
  rewrite R. cbn [fst snd]. unfold resolutions, forwarded.
  rewrite new_events_run.
  destruct S; cbn; repeat split; auto; discriminate.
Qed.

Lemma router_resolves_exactly_once_witness :
  resolutions (sample_world VDEV_VPDO Started NotStarted IRP_MN_EJECT)
    (snd (runState (vhci_pnp env0)
            (sample_world VDEV_VPDO Started NotStarted IRP_MN_EJECT))) = 1%nat.
Proof.
  exact (proj1 (router_resolves_exactly_once env0
           (sample_world VDEV_VPDO Started NotStarted IRP_MN_EJECT) eq_refl)).
Defined.

(** X3. A request is passed down only by a device that [is_fdo] accepts, to
    [devobj_lower], and with the IRP exactly as it arrived; the unplug
    collaborator is called only for a VPDO. *)
Theorem router_forwards_unchanged (E : env) (w : world) :
  processed_by_pnp_cpp w = true ->
  let w' := snd (runState (vhci_pnp E) w) in
  (forwarded w w' = true ->
     is_fdo E (type (vdev w)) = true
     /\ new_events w w' = [PassedDown (devobj_lower (vdev w)) (irp w)]
     /\ irp w' = irp w)
  /\ (unplugged w w' = true -> type (vdev w) = VDEV_VPDO).
Proof.
  intros H. cbv zeta.
  destruct (router_run_shape E w H) as (st & v' & i' & p' & ev & R & _ & S & _).
  rewrite R. cbn [fst snd]. unfold forwarded, unplugged.
  rewrite new_events_run.
  destruct S; cbn; repeat split; auto; discriminate.
Qed.

Lemma router_forwards_unchanged_witness :
  new_events (sample_world VDEV_VHUB Started NotStarted IRP_MN_STOP_DEVICE)
    (snd (runState (vhci_pnp env0)
            (sample_world VDEV_VHUB Started NotStarted IRP_MN_STOP_DEVICE)))
  = [PassedDown 2%nat (sample_irp IRP_MN_STOP_DEVICE)].
Proof.
  destruct (router_forwards_unchanged env0
              (sample_world VDEV_VHUB Started NotStarted IRP_MN_STOP_DEVICE)
              eq_refl) as [F _].
  exact (proj1 (proj2 (F eq_refl))).
Defined.

(** X4. No request that pnp.cpp processes from end to end brings a device to
    Removed: when neither the state nor the saved state is Removed before the
    request, neither is afterwards. *)
Theorem router_never_enters_removed (E : env) (w : world) :
  processed_by_pnp_cpp w = true ->
  PnPState (vdev w) <> Removed ->
  PreviousPnPState (vdev w) <> Removed ->
  let v' := vdev (snd (runState (vhci_pnp E) w)) in
  PnPState v' <> Removed /\ PreviousPnPState v' <> Removed.
Proof.
  intros H Hs Hp. cbv zeta.
  destruct (router_run_shape E w H) as (st & v' & i' & p' & ev & R & S & _).
  rewrite R. cbn [snd vdev]. destruct S; cbn; auto.
Qed.

Lemma router_never_enters_removed_witness :
  PnPState
    (vdev (snd (runState (vhci_pnp env0)
                  (sample_world VDEV_VHCI StopPending Started
                                IRP_MN_CANCEL_STOP_DEVICE)))) <> Removed.
Proof.
  refine (proj1 (router_never_enters_removed env0
            (sample_world VDEV_VHCI StopPending Started
                          IRP_MN_CANCEL_STOP_DEVICE) eq_refl _ _));
    discriminate.
Defined.

(** *** Single handlers *)

(** X5. QueryBusInformation never passes the request down. When the pool
    allocation succeeds it completes with STATUS_SUCCESS and a bus
    description (USB bus type, PNPBus, bus number 1); when it fails it
    completes with STATUS_INSUFFICIENT_RESOURCES and null information. *)
Theorem query_bus_information_result (w : world) :
  let r := runState pnp_query_bus_information w in
  (forall rest, pool w = true :: rest ->
     r = (STATUS_SUCCESS,
          let i' := set_Status STATUS_SUCCESS
                      (set_Information
                         (BusInfoPtr (mk_bus_info GUID_BUS_TYPE_USB PNPBus 1))
                         (irp w)) in
          mk_world (vdev w) i' rest (trace w ++ [Completed i'])))
  /\ (pool w = [] \/ (exists rest, pool w = false :: rest) ->
      fst r = STATUS_INSUFFICIENT_RESOURCES
      /\ IoStatus (irp (snd r))
         = mk_iosb STATUS_INSUFFICIENT_RESOURCES (Word 0)
      /\ vdev (snd r) = vdev w
      /\ forwarded w (snd r) = false).
Proof.
  cbv zeta. unfold pnp_query_bus_information, ExAllocatePool2. split.
  - intros rest Hp. cbn. rewrite Hp. reflexivity.
  - intros [Hp | [rest Hp]]; cbn; rewrite Hp; cbn; unfold forwarded;
      rewrite new_events_run; repeat split.
Qed.

Lemma query_bus_information_result_witness :
  fst (runState pnp_query_bus_information
         (mk_world (sample_vdev VDEV_VHCI Started NotStarted)
                   (request IRP_MN_QUERY_BUS_INFORMATION 0) [] []))
  = STATUS_INSUFFICIENT_RESOURCES
  /\ Information
       (IoStatus (irp (snd (runState pnp_query_bus_information
                              (sample_world VDEV_VHCI Started NotStarted
                                 IRP_MN_QUERY_BUS_INFORMATION)))))
     = BusInfoPtr (mk_bus_info GUID_BUS_TYPE_USB PNPBus 1).
Proof.
  split.
  - exact (proj1 (proj2 (query_bus_information_result
             (mk_world (sample_vdev VDEV_VHCI Started NotStarted)
                       (request IRP_MN_QUERY_BUS_INFORMATION 0) [] []))
             (or_introl eq_refl))).
  - rewrite (proj1 (query_bus_information_result
               (sample_world VDEV_VHCI Started NotStarted
                             IRP_MN_QUERY_BUS_INFORMATION)) [true] eq_refl).
    reflexivity.
Defined.

(** X6. The handler of QueryPnpDeviceState completes with STATUS_SUCCESS and
    adds PNP_DEVICE_REMOVED (bit 3) to the flags in [Information] exactly
    when the device is Removed; every other bit is kept. *)
Theorem query_pnp_device_state_flags (w : world) (flags : Z) :
  Information (IoStatus (irp w)) = Word flags ->
  let r := runState pnp_query_pnp_device_state w in
  fst r = STATUS_SUCCESS
  /\ exists flags',
       Information (IoStatus (irp (snd r))) = Word flags'
       /\ forall n, 0 <= n ->
            Z.testbit flags' n =
            Z.testbit flags n
            || ((n =? 3) && pnp_state_eqb (PnPState (vdev w)) Removed).
Proof.
  intros Hi. cbv zeta. unfold pnp_query_pnp_device_state. cbn.
  destruct (pnp_state_eqb (PnPState (vdev w)) Removed); cbn.
  - rewrite Hi. cbn. split; [reflexivity|].
    exists (Z.lor flags PNP_DEVICE_REMOVED). split; [reflexivity|].
    intros n Hn. rewrite Z.lor_spec, andb_true_r. f_equal.
    change PNP_DEVICE_REMOVED with (2 ^ 3). rewrite Z.pow2_bits_eqb by lia.
    apply Z.eqb_sym.
  - split; [reflexivity|]. exists flags. split; [exact Hi|].
    intros n _. now rewrite andb_false_r, orb_false_r.
Qed.

Lemma query_pnp_device_state_flags_witness :
  exists flags',
    Information
      (IoStatus (irp (snd (runState pnp_query_pnp_device_state
                             (sample_world VDEV_VPDO Removed Started
                                IRP_MN_QUERY_PNP_DEVICE_STATE)))))
    = Word flags'
    /\ Z.testbit flags' 3 = true.
Proof.
  destruct (query_pnp_device_state_flags
              (sample_world VDEV_VPDO Removed Started
                            IRP_MN_QUERY_PNP_DEVICE_STATE) 0 eq_refl)
    as (_ & f & Hf & Hb).
  exists f. split; [exact Hf|]. rewrite (Hb 3); [reflexivity | lia].
Defined.

(** X7. Through the router, QueryPnpDeviceState never reports the removal: a
    removed device is answered with STATUS_NO_SUCH_DEVICE before the handler
    runs, and otherwise the handler finds the device not Removed; in both
    cases [Information] is left as it arrived. *)
Theorem removed_flag_unreachable (E : env) (w : world) :
  MinorFunction (irp w) = IRP_MN_QUERY_PNP_DEVICE_STATE ->
  let r := runState (vhci_pnp E) w in
  Information (IoStatus (irp (snd r))) = Information (IoStatus (irp w))
  /\ fst r = if pnp_state_eqb (PnPState (vdev w)) Removed
             then STATUS_NO_SUCH_DEVICE else STATUS_SUCCESS.
Proof.
  intros Hm. cbv zeta.
  destruct (pnp_state_eqb_spec (PnPState (vdev w)) Removed) as [R|R].
  - rewrite (removed_run E w R). split; reflexivity.
  - rewrite known_minor_run; [| exact R | now rewrite Hm].
    rewrite Hm. change (N.to_nat IRP_MN_QUERY_PNP_DEVICE_STATE) with 20%nat.
    cbn [nth pnpmn_functions]. unfold pnp_query_pnp_device_state. cbn.
    destruct (pnp_state_eqb_spec (PnPState (vdev w)) Removed);
      [contradiction|]. split; reflexivity.
Qed.

Lemma removed_flag_unreachable_witness :
  Information
    (IoStatus (irp (snd (runState (vhci_pnp env0)
                           (sample_world VDEV_VPDO Removed Started
                              IRP_MN_QUERY_PNP_DEVICE_STATE)))))
  = Word 0.
Proof.
  exact (proj1 (removed_flag_unreachable env0
           (sample_world VDEV_VPDO Removed Started
                         IRP_MN_QUERY_PNP_DEVICE_STATE) eq_refl)).
Defined.



Lemma deliver_vdev (E : env) (i : IRP) (w : world) (h : M NTSTATUS) :
  PnPState (vdev w) <> Removed ->
  (MinorFunction i < 26)%N ->
  nth (N.to_nat (MinorFunction i)) (pnpmn_functions E) CompleteRequestAsIs = h ->
  deliver E i w = runState h (mk_world (vdev w) i (pool w) (trace w)).
Proof.
  intros R Hlt Hh. unfold deliver.
  rewrite known_minor_run by assumption. cbn [irp]. now rewrite Hh.
Qed.

Lemma deliver_query_stop E i w :
  PnPState (vdev w) <> Removed ->
  MinorFunction i = IRP_MN_QUERY_STOP_DEVICE ->
  vdev (snd (deliver E i w)) = set_state (vdev w) StopPending.
Proof.
  intros R Hm.
  rewrite (deliver_vdev E i w (pnp_query_stop_device E) R);
    [| now rewrite Hm | now rewrite Hm].
  rewrite query_stop_run. now rewrite pass_down_or_complete_vdev.
Qed.

Lemma deliver_cancel_stop E i w :
  PnPState (vdev w) = StopPending ->
  MinorFunction i = IRP_MN_CANCEL_STOP_DEVICE ->
  vdev (snd (deliver E i w)) = set_previous_pnp_state (vdev w).
Proof.
  intros P Hm.
  rewrite (deliver_vdev E i w (pnp_cancel_stop_device E));
    [| rewrite P; discriminate | now rewrite Hm | now rewrite Hm].
  rewrite cancel_stop_run_pending by exact P.
  now rewrite pass_down_or_complete_vdev.
Qed.

Lemma deliver_query_remove E i w :
  PnPState (vdev w) <> Removed ->
  intf_ref_event (vdev w) = true ->
  MinorFunction i = IRP_MN_QUERY_REMOVE_DEVICE ->
  vdev (snd (deliver E i w)) = set_state (vdev w) RemovePending.
Proof.
  intros R G Hm.
  rewrite (deliver_vdev E i w (pnp_query_remove_device E) R);
    [| now rewrite Hm | now rewrite Hm].
  rewrite query_remove_run_ok by (cbn; now rewrite can_be_removed_iff).
  now rewrite pass_down_or_complete_vdev.
Qed.

Lemma deliver_cancel_remove E i w :
  PnPState (vdev w) = RemovePending ->
  MinorFunction i = IRP_MN_CANCEL_REMOVE_DEVICE ->
  vdev (snd (deliver E i w)) = set_previous_pnp_state (vdev w).
Proof.
  intros P Hm.
  rewrite (deliver_vdev E i w (pnp_cancel_remove_device E));
    [| rewrite P; discriminate | now rewrite Hm | now rewrite Hm].
  rewrite cancel_remove_run_pending by exact P.
  now rewrite pass_down_or_complete_vdev.
Qed.

(** X9. The one-level rollback works from every state: on a device that is
    not Removed, QueryStop followed by CancelStop, and QueryRemove (with the
    reference event signalled) followed by CancelRemove, bring the device
    back to the state it had, whatever that state was. *)
Theorem pending_rollback_restores (E : env) (w : world) (q c : IRP) :
  PnPState (vdev w) <> Removed ->
  (MinorFunction q = IRP_MN_QUERY_STOP_DEVICE
   /\ MinorFunction c = IRP_MN_CANCEL_STOP_DEVICE)
  \/ (MinorFunction q = IRP_MN_QUERY_REMOVE_DEVICE
      /\ MinorFunction c = IRP_MN_CANCEL_REMOVE_DEVICE
      /\ intf_ref_event (vdev w) = true) ->
  PnPState (vdev (deliver_all E [q; c] w)) = PnPState (vdev w).
Proof.
  intros R [[Hq Hc] | (Hq & Hc & G)]; cbn [deliver_all fold_left].
  - rewrite deliver_cancel_stop; [| | exact Hc];
      now rewrite deliver_query_stop.
  - rewrite deliver_cancel_remove; [| | exact Hc];
      now rewrite deliver_query_remove.
Qed.

Lemma pending_rollback_restores_witness :
  PnPState
    (vdev (deliver_all env0
             [request IRP_MN_QUERY_REMOVE_DEVICE 0;
              request IRP_MN_CANCEL_REMOVE_DEVICE 0]
             (sample_world VDEV_VPDO Stopped Started IRP_MN_START_DEVICE)))
  = Stopped.
Proof.
  apply (pending_rollback_restores env0
           (sample_world VDEV_VPDO Stopped Started IRP_MN_START_DEVICE)).
  - discriminate.
  - right. repeat split.
Defined.

(** X10. The rollback is one level deep. After two QueryStop requests in a row
    the saved state is StopPending itself, so CancelStop leaves the device in
    StopPending: the state it had before the first QueryStop is lost. *)
Theorem nested_query_stop_loses_state (E : env) (w : world) (q1 q2 c : IRP) :
  PnPState (vdev w) <> Removed ->
  MinorFunction q1 = IRP_MN_QUERY_STOP_DEVICE ->
  MinorFunction q2 = IRP_MN_QUERY_STOP_DEVICE ->
  MinorFunction c = IRP_MN_CANCEL_STOP_DEVICE ->
  PreviousPnPState (vdev (deliver_all E [q1; q2] w)) = StopPending
  /\ PnPState (vdev (deliver_all E [q1; q2; c] w)) = StopPending.
Proof.
  intros R H1 H2 Hc. cbn [deliver_all fold_left].
  assert (I : vdev (snd (deliver E q2 (snd (deliver E q1 w))))
              = set_state (set_state (vdev w) StopPending) StopPending).
  { rewrite deliver_query_stop; [| | exact H2];
      rewrite deliver_query_stop by assumption; [reflexivity | discriminate]. }
  split; [now rewrite I|].
  rewrite deliver_cancel_stop; [| | exact Hc]; now rewrite I.
Qed.

Lemma nested_query_stop_loses_state_witness :
  PnPState
    (vdev (deliver_all env0
             [request IRP_MN_QUERY_STOP_DEVICE 0;
              request IRP_MN_QUERY_STOP_DEVICE 0;
              request IRP_MN_CANCEL_STOP_DEVICE 0]
             (sample_world VDEV_VHUB Started NotStarted IRP_MN_START_DEVICE)))
  = StopPending.
Proof.
  refine (proj2 (nested_query_stop_loses_state env0
            (sample_world VDEV_VHUB Started NotStarted IRP_MN_START_DEVICE)
            (request IRP_MN_QUERY_STOP_DEVICE 0)
            (request IRP_MN_QUERY_STOP_DEVICE 0)
            (request IRP_MN_CANCEL_STOP_DEVICE 0)
            _ eq_refl eq_refl eq_refl)).
  discriminate.
Defined.

(** *** Device text *)

Ltac text_run :=
  unfold pnp_query_device_text, query_device_text_for, copy_str,
    libdrv_strdup, ExAllocatePool2; cbn.

(** X11. For LocationInformation there is no fallback text. A location the PnP
    manager holds is handed back in the request with STATUS_SUCCESS; without
    one the request is completed exactly as it arrived, also on a VPDO that
    has a product string. In both cases the request is completed once and
    the device is left as it was. *)
Theorem query_device_text_location (E : env) (w : world) :
  DeviceTextType (irp w) = DeviceTextLocationInformation ->
  let r := runState (pnp_query_device_text E) w in
  (forall s,
     GetDeviceProperty E (Self (vdev w)) DevicePropertyLocationInformation
       = Some s ->
     let i' := set_Status STATUS_SUCCESS
                 (set_Information (StrPtr s) (irp w)) in
     fst r = STATUS_SUCCESS
     /\ irp (snd r) = i'
     /\ vdev (snd r) = vdev w
     /\ new_events w (snd r) = [Completed i'])
  /\ (GetDeviceProperty E (Self (vdev w)) DevicePropertyLocationInformation
        = None ->
      fst r = Status (IoStatus (irp w))
      /\ irp (snd r) = irp w
      /\ vdev (snd r) = vdev w
      /\ new_events w (snd r) = [Completed (irp w)]).
Proof.
  intros Hty. cbv zeta. split.
  - intros s Hp. text_run. rewrite Hty. cbn. rewrite Hp. cbn.
    destruct (is_null (Information (IoStatus (irp w)))); cbn;
      repeat split; now apply new_events_app.
  - intros Hp. text_run. rewrite Hty. cbn. rewrite Hp. cbn.
    destruct (type (vdev w)); cbn;
      destruct (is_null (Information (IoStatus (irp w)))); cbn;
      repeat split; now apply new_events_app.
Qed.

Lemma query_device_text_location_witness :
  let w := mk_world (sample_vdev VDEV_VPDO Started NotStarted)
                    (request IRP_MN_QUERY_DEVICE_TEXT
                             DeviceTextLocationInformation) [true] [] in
  let r := runState (pnp_query_device_text env_product) w in
  fst r = STATUS_NOT_SUPPORTED
  /\ irp (snd r) = irp w
  /\ new_events w (snd r) = [Completed (irp w)].
Proof.
  cbv zeta.
  destruct (proj2 (query_device_text_location env_product
             (mk_world (sample_vdev VDEV_VPDO Started NotStarted)
                       (request IRP_MN_QUERY_DEVICE_TEXT
                                DeviceTextLocationInformation) [true] [])
             eq_refl) eq_refl) as (A & B & _ & D).
  split; [exact A | split; [exact B | exact D]].
Defined.

(** X12. A failed pool allocation is never reported. For a Description query
    without a description from the PnP manager: when the copy of the product
    string of a VPDO cannot be allocated, the canned description is tried
    with a second allocation; when no allocation succeeds, the request is
    completed with the status it arrived with and null information, not with
    STATUS_INSUFFICIENT_RESOURCES. *)
Theorem query_device_text_allocation_failure (E : env) (w : world) :
  DeviceTextType (irp w) = DeviceTextDescription ->
  is_null (Information (IoStatus (irp w))) = true ->
  GetDeviceProperty E (Self (vdev w)) DevicePropertyDeviceDescription = None ->
  let r := runState (pnp_query_device_text E) w in
  (forall p rest,
     type (vdev w) = VDEV_VPDO -> get_product E (vdev w) = Some p ->
     pool w = false :: true :: rest ->
     fst r = STATUS_SUCCESS
     /\ Information (IoStatus (irp (snd r))) = StrPtr (vdev_desc VDEV_VPDO)
     /\ pool (snd r) = rest)
  /\ (Forall (fun ok => ok = false) (pool w) ->
      fst r = Status (IoStatus (irp w))
      /\ irp (snd r) = irp w
      /\ new_events w (snd r) = [Completed (irp w)]).
Proof.
  intros Hty Hnull Hp. cbv zeta. split.
  - intros p rest Hv Hprod Hpool. text_run.
    rewrite Hty. cbn. rewrite Hp. cbn. rewrite Hv, Hprod. cbn.
    rewrite Hpool. cbn. rewrite Hnull. cbn. repeat split.
  - intros Hall.
    assert (P : pool w = [] \/ pool w = [false]
                \/ exists rest, pool w = false :: false :: rest).
    { destruct (pool w) as [|b1 [|b2 rest]]; auto; right.
      - inversion Hall as [|? ? -> _]. now left.
      - inversion Hall as [|? ? -> H2]. inversion H2 as [|? ? -> _].
        right. now exists rest. }
    text_run. rewrite Hty. cbn. rewrite Hp. cbn.
    destruct P as [P | [P | [rest P]]];
      destruct (type (vdev w)); cbn;
      try (destruct (get_product E (vdev w)); cbn);
      rewrite ?Hnull; cbn; rewrite ?P; cbn; rewrite ?Hnull; cbn;
      rewrite ?P; cbn;
      (split; [reflexivity|]); (split; [reflexivity|]);
      now apply new_events_app.
Qed.

Lemma query_device_text_allocation_failure_witness :
  Information
    (IoStatus (irp (snd (runState (pnp_query_device_text env_product)
                           (mk_world (sample_vdev VDEV_VPDO Started NotStarted)
                                     (request IRP_MN_QUERY_DEVICE_TEXT
                                              DeviceTextDescription)
                                     [false; true] [])))))
  = StrPtr (L "usbip-win VPDO")
  /\ fst (runState (pnp_query_device_text env_product)
            (text_query VDEV_VPDO 0)) = STATUS_NOT_SUPPORTED.
Proof.
  split.
  - destruct (query_device_text_allocation_failure env_product
                (mk_world (sample_vdev VDEV_VPDO Started NotStarted)
                          (request IRP_MN_QUERY_DEVICE_TEXT
                                   DeviceTextDescription)
                          [false; true] [])
                eq_refl eq_refl eq_refl) as [A _].
    exact (proj1 (proj2 (A (L "Flash Disk") [] eq_refl eq_refl eq_refl))).
  - destruct (query_device_text_allocation_failure env_product
                (text_query VDEV_VPDO 0) eq_refl eq_refl eq_refl) as [_ B].
    exact (proj1 (B (Forall_nil _))).
Defined.

(** X13. Status and information agree. A Description or LocationInformation
    query that arrives with null information is completed either with
    STATUS_SUCCESS and a string, or exactly as it arrived (same status, null
    information). *)
Theorem query_device_text_status_agrees (E : env) (w : world) :
  is_null (Information (IoStatus (irp w))) = true ->
  DeviceTextType (irp w) = DeviceTextDescription
  \/ DeviceTextType (irp w) = DeviceTextLocationInformation ->
  let r := runState (pnp_query_device_text E) w in
  (exists s, IoStatus (irp (snd r)) = mk_iosb STATUS_SUCCESS (StrPtr s)
             /\ fst r = STATUS_SUCCESS)
  \/ (irp (snd r) = irp w /\ fst r = Status (IoStatus (irp w))).
Proof.
  intros Hnull Hty. cbv zeta. text_run.
  destruct Hty as [Hty|Hty]; rewrite Hty; cbn.
  - destruct (GetDeviceProperty E (Self (vdev w))
                DevicePropertyDeviceDescription) as [s|] eqn:Hp; cbn.
    + left; eexists; split; reflexivity.
    + destruct (type (vdev w)); cbn;
        try (destruct (get_product E (vdev w)); cbn);
        rewrite ?Hnull; cbn;
        destruct (pool w) as [|[] [|[] rest]] eqn:P; cbn;
        rewrite ?Hnull; cbn; rewrite ?P; cbn;
        first [ left; eexists; split; reflexivity
              | right; split; reflexivity ].
  - destruct (GetDeviceProperty E (Self (vdev w))
                DevicePropertyLocationInformation) as [s|] eqn:Hp; cbn.
    + rewrite ?Hnull. cbn. left; eexists; split; reflexivity.
    + destruct (type (vdev w)); cbn; rewrite ?Hnull; cbn;
        right; split; reflexivity.
Qed.

Lemma query_device_text_status_agrees_witness :
  let r := runState (pnp_query_device_text env_product)
                    (text_query VDEV_VPDO 2) in
  (exists s, IoStatus (irp (snd r)) = mk_iosb STATUS_SUCCESS (StrPtr s)
             /\ fst r = STATUS_SUCCESS)
  \/ (irp (snd r) = irp (text_query VDEV_VPDO 2)
      /\ fst r = Status (IoStatus (irp (text_query VDEV_VPDO 2)))).
Proof.
  exact (query_device_text_status_agrees env_product
           (text_query VDEV_VPDO 2) eq_refl (or_introl eq_refl)).
Defined.

End PnpProofs.

(** ** The class-filter tool *)

Module InstallerProofs.
Import Installer.

Lemma footprint_app l1 l2 :
  footprint (l1 ++ l2) = (footprint l1 + footprint l2)%nat.
Proof. induction l1 as [|s l1 IH]; cbn; [reflexivity | rewrite IH; lia]. Qed.

Lemma make_multi_sz_length l :
  List.length (make_multi_sz l) = (footprint l + 1)%nat.
Proof.
  induction l as [|s l IH]; cbn; [reflexivity|].
  rewrite length_app. cbn. rewrite IH. lia.
Qed.

Lemma wcs_view_no_nul str : ~ In 0%N (wcs_view str).
Proof.
  induction str as [|c rest IH]; cbn; [tauto|].
  destruct (N.eqb_spec c 0); cbn; [tauto|]. intros [H|H]; auto.
Qed.

Lemma wcs_view_length str : (List.length (wcs_view str) <= List.length str)%nat.
Proof.
  induction str as [|c rest IH]; cbn; [lia|].
  destruct (c =? 0)%N; cbn; lia.
Qed.

Lemma wcs_view_terminated s rest :
  ~ In 0%N s -> wcs_view (s ++ 0%N :: rest) = s.
Proof.
  induction s as [|c s IH]; cbn; [reflexivity|]. intros H.
  destruct (N.eqb_spec c 0) as [->|]; [tauto|].
  rewrite IH; [reflexivity | tauto].
Qed.

Lemma skipn_past s rest :
  skipn (List.length s + 1) (s ++ 0%N :: rest) = rest.
Proof.
  rewrite skipn_app, skipn_all2 by lia.
  replace (List.length s + 1 - List.length s)%nat with 1%nat by lia.
  reflexivity.
Qed.

(** One round of the loop on a buffer that starts with a proper string. *)
Lemma split_loop_step fuel s rest x e v :
  wellformed_name s ->
  split_loop (Datatypes.S fuel) (s ++ 0%N :: rest) x e v =
  if wstring_eqb s x then split_loop fuel rest x true v
  else split_loop fuel rest x e (v ++ [s]).
Proof.
  intros [Hne Hnul].
  pose proof (wcs_view_terminated s rest Hnul) as Hv.
  pose proof (skipn_past s rest) as Hk.
  destruct s as [|c s]; [congruence|].
  assert (Hc : c <> 0%N) by (intros ->; apply Hnul; now left).
  change (split_loop (Datatypes.S fuel) ((c :: s) ++ 0%N :: rest) x e v)
    with (if (c =? 0)%N then (v, e)
          else if wstring_eqb (wcs_view ((c :: s) ++ 0%N :: rest)) x
               then split_loop fuel
                      (skipn (List.length (wcs_view ((c :: s) ++ 0%N :: rest)) + 1)
                             ((c :: s) ++ 0%N :: rest)) x true v
               else split_loop fuel
                      (skipn (List.length (wcs_view ((c :: s) ++ 0%N :: rest)) + 1)
                             ((c :: s) ++ 0%N :: rest)) x e
                      (v ++ [wcs_view ((c :: s) ++ 0%N :: rest)])).
  destruct (N.eqb_spec c 0); [contradiction|].
  now rewrite Hv, Hk.
Qed.

(** Scanning an encoded list gives the list back, less the excluded name. *)
Lemma split_loop_make_multi_sz l : forall fuel pad x e v,
  Forall wellformed_name l ->
  (List.length l < fuel)%nat ->
  split_loop fuel (make_multi_sz l ++ pad) x e v =
  (v ++ filter (fun s => negb (wstring_eqb s x)) l,
   e || existsb (fun s => wstring_eqb s x) l).
Proof.
  induction l as [|s l IH]; intros fuel pad x e v Hwf Hf.
  - destruct fuel; [lia|]. cbn. now rewrite app_nil_r, orb_false_r.
  - destruct fuel as [|fuel]; [cbn in Hf; lia|].
    inversion Hwf as [|? ? Hs Hwf']; subst.
    cbn [make_multi_sz]. rewrite <- app_assoc, <- app_comm_cons.
    rewrite split_loop_step by exact Hs.
    cbn [filter existsb List.length] in *.
    destruct (wstring_eqb s x) eqn:Heq; cbn [negb].
    + rewrite IH by (auto; lia). now rewrite orb_true_r.
    + rewrite IH by (auto; lia). now rewrite <- app_assoc.
Qed.

(** Whatever the buffer holds, the strings found are well formed, none is the
    excluded name, and together they are no longer than the buffer. *)
Lemma split_loop_sound fuel : forall str x e v,
  exists fs,
    fst (split_loop fuel str x e v) = v ++ fs
    /\ Forall wellformed_name fs
    /\ ~ In x fs
    /\ (footprint fs <= List.length str + 1)%nat
    /\ (str = [] -> fs = []).
Proof.
  induction fuel as [|fuel IH]; intros str x e v.
  - exists []. cbn. rewrite app_nil_r. repeat split; auto; lia.
  - destruct str as [|c rest].
    + exists []. cbn. rewrite app_nil_r. repeat split; auto; lia.
    + cbn [split_loop]. destruct (N.eqb_spec c 0) as [->|Hc].
      * exists []. cbn. rewrite app_nil_r. repeat split; auto; lia.
      * set (s := wcs_view (c :: rest)).
        assert (Hs : wellformed_name s).
        { split; [|apply wcs_view_no_nul].
          subst s. cbn. destruct (N.eqb_spec c 0); [contradiction|discriminate]. }
        assert (Hl : (List.length s <= List.length (c :: rest))%nat)
          by apply wcs_view_length.
        set (str' := skipn (List.length s + 1) (c :: rest)).
        assert (Hk : List.length str' =
                     (List.length (c :: rest) - (List.length s + 1))%nat)
          by apply length_skipn.
        assert (Hb : forall fs : list wstring,
                   (footprint fs <= List.length str' + 1)%nat ->
                   (str' = [] -> fs = []) ->
                   (List.length s + 1 + footprint fs
                    <= List.length (c :: rest) + 1)%nat).
        { intros fs B Z. destruct str' as [|c' r'] eqn:Es.
          - rewrite (Z eq_refl). cbn [footprint]. lia.
          - cbn [List.length] in *. lia. }
        destruct (wstring_eqb s x) eqn:Heq.
        -- destruct (IH str' x true v) as (fs & E1 & W & NI & B & Z).
           exists fs. repeat split; auto; [|discriminate].
           specialize (Hb fs B Z). lia.
        -- destruct (IH str' x e (v ++ [s])) as (fs & E1 & W & NI & B & Z).
           exists (s :: fs). rewrite E1, <- app_assoc.
           repeat split; auto; [| |discriminate].
           ++ intros [H|H]; [|contradiction].
              apply wstring_eqb_neq in Heq. congruence.
           ++ cbn [footprint]. exact (Hb fs B Z).
Qed.

Lemma skipn_repeat {A} (a : A) n m :
  skipn n (repeat a m) = repeat a (m - n).
Proof.
  revert m. induction n as [|n IH]; intros [|m]; cbn; auto.
Qed.

Lemma firstn_repeat_all {A} (a : A) n m :
  (m <= n)%nat -> firstn n (repeat a m) = repeat a m.
Proof. intros H. apply firstn_all2. now rewrite repeat_length. Qed.

Lemma initial_buffer_size :
  DWORD (N.of_nat (List.length (repeat 0%N 4096))) = 4096%N.
Proof. rewrite repeat_length. reflexivity. Qed.

(** RegGetValue on a value that exists, with a buffer that is not null. *)
Lemma RegGetValue_buffer S R key name d val val_sz :
  read_denied S key name = false ->
  values R key name = Some d ->
  (0 < List.length val)%nat ->
  RegGetValue S R key name val val_sz
  = let bytes := (sizeof_WCHAR * N.of_nat (List.length d))%N in
    if (bytes <=? val_sz)%N
    then (ERROR_SUCCESS, d ++ skipn (List.length d) val, bytes)
    else (ERROR_MORE_DATA, val, bytes).
Proof.
  intros Hr Hv Hl. unfold RegGetValue. rewrite Hr, Hv.
  destruct val; [cbn in Hl; lia | reflexivity].
Qed.

Lemma resize_length val n : List.length (resize val n) = n.
Proof.
  unfold resize. rewrite length_app, repeat_length, length_firstn. lia.
Qed.

(** [read_multi_z] on a value that exists: the data, followed by zeros up to
    the size of the buffer. *)
Lemma read_multi_z_found S R key name d :
  read_denied S key name = false ->
  values R key name = Some d ->
  exists k,
    read_multi_z S R key name (repeat 0%N 4096)
      = Some (true, d ++ repeat 0%N (Datatypes.S k))
    /\ (N.of_nat (List.length d + Datatypes.S k)
        <= N.max 4096 (2 * N.of_nat (List.length d)))%N.
Proof.
  intros Hr Hv. unfold read_multi_z. rewrite initial_buffer_size.
  cbn [read_loop].
  rewrite (RegGetValue_buffer S R key name d _ _ Hr Hv)
    by (rewrite repeat_length; lia).
  cbv zeta. unfold sizeof_WCHAR.
  destruct (N.leb_spec (2 * N.of_nat (List.length d)) 4096) as [Hfit|Hbig].
  - cbn [N.eqb ERROR_SUCCESS ERROR_FILE_NOT_FOUND Pos.eqb].
    exists (4095 - List.length d)%nat. rewrite skipn_repeat.
    replace (4096 - List.length d)%nat
      with (Datatypes.S (4095 - List.length d)) by lia.
    split; [reflexivity | lia].
  - cbn [N.eqb ERROR_SUCCESS ERROR_FILE_NOT_FOUND ERROR_MORE_DATA Pos.eqb].
    rewrite (RegGetValue_buffer S R key name d _ _ Hr Hv)
      by (rewrite resize_length; lia).
    cbv zeta. unfold sizeof_WCHAR.
    rewrite N.leb_refl.
    cbn [N.eqb ERROR_SUCCESS ERROR_FILE_NOT_FOUND Pos.eqb].
    unfold resize. rewrite repeat_length.
    rewrite firstn_repeat_all by lia. rewrite <- repeat_app.
    rewrite skipn_repeat.
    exists (List.length d - 1)%nat.
    replace (4096 + (N.to_nat (2 * N.of_nat (List.length d)) - 4096)
             - List.length d)%nat
      with (Datatypes.S (List.length d - 1)) by lia.
    split; [reflexivity | lia].
Qed.

Lemma read_multi_z_missing S R key name :
  read_denied S key name = false ->
  values R key name = None ->
  read_multi_z S R key name (repeat 0%N 4096) = Some (true, []).
Proof.
  intros Hr Hv. unfold read_multi_z. cbn [read_loop].
  unfold RegGetValue. now rewrite Hr, Hv.
Qed.

Lemma read_multi_z_denied S R key name :
  read_denied S key name = true ->
  exists val, read_multi_z S R key name (repeat 0%N 4096) = Some (false, val).
Proof.
  intros Hr. unfold read_multi_z. cbn [read_loop].
  unfold RegGetValue. rewrite Hr. eexists. reflexivity.
Qed.

(** The loop of [read_multi_z] ends within its two rounds. *)
Lemma read_multi_z_total S R key name :
  read_multi_z S R key name (repeat 0%N 4096) <> None.
Proof.
  destruct (read_denied S key name) eqn:Hr.
  - destruct (read_multi_z_denied S R key name Hr) as [val ->]. discriminate.
  - destruct (values R key name) as [d|] eqn:Hv.
    + destruct (read_multi_z_found S R key name d Hr Hv) as (k & -> & _).
      discriminate.
    + rewrite (read_multi_z_missing S R key name Hr Hv). discriminate.
Qed.

(** Writing an encoded list that fits stores all of it. *)
Lemma RegSetValueEx_fits S R key name l :
  write_denied S key name = false ->
  fits_dword l ->
  RegSetValueEx S R key name (make_multi_sz l)
    (DWORD (N.of_nat (List.length (make_multi_sz l)) * sizeof_WCHAR))
  = (ERROR_SUCCESS, store R key name (make_multi_sz l)).
Proof.
  intros Hw Hf. unfold RegSetValueEx, store. rewrite Hw.
  unfold fits_dword in Hf. unfold DWORD. rewrite N.mod_small by exact Hf.
  unfold sizeof_WCHAR. rewrite N.div_mul by discriminate.
  rewrite Nat2N.id, firstn_all. reflexivity.
Qed.

(** The fuel given by [split_multi_sz] never runs out: any amount of fuel
    that covers the buffer gives the same result. *)
Lemma split_loop_fuel f1 : forall f2 str x e v,
  (List.length str <= f1)%nat -> (List.length str <= f2)%nat ->
  split_loop f1 str x e v = split_loop f2 str x e v.
Proof.
  induction f1 as [|f1 IH]; intros f2 str x e v H1 H2.
  - destruct str; [|cbn in H1; lia]. now destruct f2.
  - destruct str as [|c rest]; [now destruct f2|].
    destruct f2 as [|f2]; [cbn in H2; lia|].
    cbn [split_loop]. destruct (c =? 0)%N; [reflexivity|].
    assert (Hk : (List.length
                    (skipn (List.length (wcs_view (c :: rest)) + 1) (c :: rest))
                  <= List.length rest)%nat).
    { rewrite length_skipn. cbn [List.length]. lia. }
    cbn [List.length] in H1, H2.
    destruct (wstring_eqb _ _); apply IH; lia.
Qed.

(** A flag that is already set stays set. *)
Lemma split_loop_keeps_flag fuel : forall str x v,
  snd (split_loop fuel str x true v) = true.
Proof.
  induction fuel as [|fuel IH]; intros str x v; cbn [split_loop];
    [reflexivity|].
  destruct str as [|c rest]; [reflexivity|].
  destruct (c =? 0)%N; [reflexivity|].
  destruct (wstring_eqb _ _); apply IH.
Qed.

(** A successful [classfilter add]: the strings found in the old value, the
    driver name apart, are written back with the driver name at the end. *)
Lemma classfilter_add_inv S r R R' :
  wellformed_name (driver_name r) ->
  classfilter S r true R = Some (true, R') ->
  exists key fs,
    reaches_value S r key
    /\ write_denied S key (filters_value r) = false
    /\ Forall wellformed_name fs
    /\ ~ In (driver_name r) fs
    /\ (forall d, values R key (filters_value r) = Some d ->
          (N.of_nat (footprint fs)
           <= N.max 4096 (2 * N.of_nat (List.length d)) + 1)%N)
    /\ (values R key (filters_value r) = None -> fs = [])
    /\ (fits_dword (fs ++ [driver_name r]) ->
        R' = store R key (filters_value r)
                   (make_multi_sz (fs ++ [driver_name r]))).
Proof.
  intros Hx. unfold classfilter.
  destruct (get_class_guid S (class_name r)) as [ok key] eqn:Hg.
  destruct ok; cbn [negb]; [|discriminate].
  destruct (SetupDiOpenClassRegKeyEx S key) eqn:Ho; cbn [negb]; [|discriminate].
  fold (filters_value r).
  destruct (read_denied S key (filters_value r)) eqn:Hr.
  { destruct (read_multi_z_denied S R key _ Hr) as [val ->]. discriminate. }
  assert (Hreach : reaches_value S r key) by (repeat split; assumption).
  destruct (values R key (filters_value r)) as [d|] eqn:Hv.
  - destruct (read_multi_z_found S R key _ d Hr Hv) as (k & -> & Hsz).
    set (buf := d ++ repeat 0%N (Datatypes.S k)).
    assert (Hbuf : match buf with [] => None | _ => Some buf end = Some buf).
    { subst buf. destruct d; reflexivity. }
    rewrite Hbuf. cbn [split_multi_sz].
    destruct (split_loop_sound (List.length buf) buf (driver_name r) true [])
      as (fs & E1 & W & NI & B & _).
    destruct (split_loop (List.length buf) buf (driver_name r) true [])
      as [filters modified] eqn:Hsp.
    cbn [fst app] in E1. subst filters.
    assert (Hm : modified = true).
    { pose proof (split_loop_keeps_flag (List.length buf) buf
                    (driver_name r) []) as K.
      now rewrite Hsp in K. }
    subst modified. cbn [negb].
    destruct (write_denied S key (filters_value r)) eqn:Hw.
    { unfold RegSetValueEx. rewrite Hw. cbn. discriminate. }
    intros Hres. exists key, fs. repeat split; auto.
    + intros d' Hd'. rewrite Hv in Hd'. injection Hd' as <-.
      assert (List.length buf = (List.length d + Datatypes.S k)%nat).
      { subst buf. now rewrite length_app, repeat_length. }
      lia.
    + congruence.
    + intros Hfit. rewrite (RegSetValueEx_fits S R key _ _ Hw Hfit) in Hres.
      cbn in Hres. congruence.
  - rewrite (read_multi_z_missing S R key _ Hr Hv). cbn [split_multi_sz app].
    cbn [negb].
    destruct (write_denied S key (filters_value r)) eqn:Hw.
    { unfold RegSetValueEx. rewrite Hw. cbn. discriminate. }
    intros Hres. exists key, []. repeat split; auto.
    + congruence.
    + intros Hfit. rewrite (RegSetValueEx_fits S R key _ [driver_name r] Hw Hfit)
        in Hres.
      cbn [negb N.eqb ERROR_SUCCESS] in Hres. now injection Hres as <-.
Qed.

(** [classfilter add] on a value that already ends with the driver name
    writes the same data once more. *)
Lemma classfilter_add_again S r R key fs :
  wellformed_name (driver_name r) ->
  reaches_value S r key ->
  write_denied S key (filters_value r) = false ->
  Forall wellformed_name fs ->
  ~ In (driver_name r) fs ->
  fits_dword (fs ++ [driver_name r]) ->
  values R key (filters_value r)
    = Some (make_multi_sz (fs ++ [driver_name r])) ->
  classfilter S r true R
    = Some (true, store R key (filters_value r)
                        (make_multi_sz (fs ++ [driver_name r]))).
Proof.
  intros Hx (Hg & Ho & Hr) Hw Hwf Hni Hfit Hv. unfold classfilter.
  rewrite Hg. cbn [negb]. rewrite Ho. cbn [negb]. fold (filters_value r).
  destruct (read_multi_z_found S R key _ _ Hr Hv) as (k & -> & _).
  set (l := fs ++ [driver_name r]) in *.
  assert (Hbuf : forall pad,
            match make_multi_sz l ++ pad with
            | [] => None
            | _ => Some (make_multi_sz l ++ pad)
            end = Some (make_multi_sz l ++ pad)).
  { intros pad. destruct (make_multi_sz l ++ pad) eqn:Eb; [|reflexivity].
    apply (f_equal (@List.length N)) in Eb.
    rewrite length_app, make_multi_sz_length in Eb. cbn in Eb. lia. }
  rewrite Hbuf. cbn [split_multi_sz].
  assert (Hl : Forall wellformed_name l).
  { subst l. apply Forall_app. split; [assumption|]. now constructor. }
  rewrite split_loop_make_multi_sz.
  2: exact Hl.
  2: { rewrite length_app, make_multi_sz_length.
       assert (List.length l <= footprint l)%nat.
       { clear. induction l; cbn; lia. }
       lia. }
  cbn [app orb negb].
  assert (Hf : filter (fun s => negb (wstring_eqb s (driver_name r))) l = fs).
  { subst l. rewrite filter_app. cbn [filter].
    rewrite wstring_eqb_refl. cbn [negb]. rewrite app_nil_r.
    clear - Hni. induction fs as [|s fs IH]; cbn; [reflexivity|].
    destruct (wstring_eqb s (driver_name r)) eqn:E; cbn [negb].
    - apply wstring_eqb_eq in E. exfalso. apply Hni. now left.
    - f_equal. apply IH. intros H. apply Hni. now right. }
  rewrite Hf. fold l.
  rewrite (RegSetValueEx_fits S R key _ l Hw Hfit). reflexivity.
Qed.

Lemma values_store R key name data :
  values (store R key name data) key name = Some data.
Proof.
  cbn. rewrite N.eqb_refl. now destruct name.
Qed.

Lemma store_again R key name data :
  values R key name = Some data ->
  forall k n, values (store R key name data) k n = values R k n.
Proof.
  intros H k n. cbn.
  destruct (N.eqb_spec k key) as [->|]; [|reflexivity].
  destruct n, name; cbn; congruence.
Qed.

Lemma occurrences_last x fs :
  ~ In x fs -> occurrences x (fs ++ [x]) = 1%nat.
Proof.
  intros H. unfold occurrences. rewrite count_occ_app.
  rewrite (proj1 (count_occ_not_In _ fs x) H). cbn.
  now destruct (list_eq_dec N.eq_dec x x).
Qed.

(** C8 as stated fails in its second part: on a machine whose USB class key
    has no upper filters, the first [classfilter add] stores the list with
    the one name, and the second stores it again. *)
Lemma second_add_writes_again :
  let stored := (usb_guid, UpperFilters, make_multi_sz [L "usbip2_filter"]) in
  option_map writes (add_times 1 sample_api sample_args empty_registry)
    = Some [stored]
  /\ option_map writes (add_times 2 sample_api sample_args empty_registry)
     = Some [stored; stored]
  /\ option_map writes (add_times 2 sample_api sample_args empty_registry)
     <> option_map writes (add_times 1 sample_api sample_args empty_registry).
Proof.
  cbv zeta. split; [vm_compute; reflexivity|].
  split; [vm_compute; reflexivity|]. vm_compute. discriminate.
Qed.

(** *** More on the class-filter tool *)

Lemma make_multi_sz_not_nil l pad :
  match make_multi_sz l ++ pad with
  | [] => None
  | _ => Some (make_multi_sz l ++ pad)
  end = Some (make_multi_sz l ++ pad).
Proof.
  destruct (make_multi_sz l ++ pad) eqn:Eb; [|reflexivity].
  apply (f_equal (@List.length N)) in Eb.
  rewrite length_app, make_multi_sz_length in Eb. cbn in Eb. lia.
Qed.

Lemma names_le_footprint l : (List.length l <= footprint l)%nat.
Proof. induction l; cbn; lia. Qed.

(** [classfilter] on a value that is the encoding of a list of names. *)
Lemma classfilter_encoded S r (add : bool) R key l :
  reaches_value S r key ->
  Forall wellformed_name l ->
  values R key (filters_value r) = Some (make_multi_sz l) ->
  let kept := filter (differs (driver_name r)) l in
  let out := if add then kept ++ [driver_name r] else kept in
  (add || occurs (driver_name r) l = true ->
   write_denied S key (filters_value r) = false /\ fits_dword out) ->
  classfilter S r add R =
    if add || occurs (driver_name r) l
    then Some (true, store R key (filters_value r) (make_multi_sz out))
    else Some (true, R).
Proof.
  intros (Hg & Ho & Hr) Hwf Hv kept out Hfit. unfold classfilter.
  rewrite Hg. cbn [negb]. rewrite Ho. cbn [negb].
  destruct (read_multi_z_found S R key _ _ Hr Hv) as (k & -> & _).
  rewrite make_multi_sz_not_nil. cbn [split_multi_sz].
  rewrite split_loop_make_multi_sz.
  2: exact Hwf.
  2: { rewrite length_app, make_multi_sz_length.
       pose proof (names_le_footprint l). lia. }
  cbn [app]. fold (differs (driver_name r)). fold (occurs (driver_name r) l).
  fold kept. change (if add then kept ++ [driver_name r] else kept) with out.
  destruct (add || occurs (driver_name r) l) eqn:M; cbn [negb].
  - destruct (Hfit eq_refl) as [Hw Hf].
    rewrite (RegSetValueEx_fits S R key _ out Hw Hf). reflexivity.
  - reflexivity.
Qed.

Lemma footprint_filter (f : wstring -> bool) l :
  (footprint (filter f l) <= footprint l)%nat.
Proof.
  induction l as [|s l IH]; cbn; [lia|]. destruct (f s); cbn; lia.
Qed.

Lemma fits_dword_smaller l l' :
  (footprint l' <= footprint l)%nat -> fits_dword l -> fits_dword l'.
Proof.
  unfold fits_dword. rewrite !make_multi_sz_length. unfold sizeof_WCHAR. lia.
Qed.

Lemma filter_differs_absent x l :
  ~ In x l -> filter (differs x) l = l.
Proof.
  induction l as [|s l IH]; cbn; [reflexivity|]. intros H.
  unfold differs at 1. destruct (wstring_eqb s x) eqn:E; cbn [negb].
  - apply wstring_eqb_eq in E. exfalso. apply H. now left.
  - f_equal. apply IH. tauto.
Qed.

Lemma not_in_filter_differs x l : ~ In x (filter (differs x) l).
Proof.
  intros H. apply filter_In in H as [_ H]. unfold differs in H.
  now rewrite wstring_eqb_refl in H.
Qed.

Lemma occurs_iff x l : occurs x l = true <-> In x l.
Proof.
  unfold occurs. rewrite existsb_exists. split.
  - intros (s & Hs & E). apply wstring_eqb_eq in E. now subst.
  - intros H. exists x. split; [exact H | apply wstring_eqb_refl].
Qed.

Lemma occurs_false x l : ~ In x l -> occurs x l = false.
Proof.
  intros H. destruct (occurs x l) eqn:E; [|reflexivity].
  apply occurs_iff in E. contradiction.
Qed.

(** The encoding of a list of well-formed names determines the list. *)
Lemma make_multi_sz_inj l l' :
  Forall wellformed_name l -> Forall wellformed_name l' ->
  make_multi_sz l = make_multi_sz l' -> l = l'.
Proof.
  intros Hl Hl' E.
  assert (K : forall m, Forall wellformed_name m ->
                filter (differs []) m = m).
  { intros m Hm. induction Hm as [|s m [Hs _] _ IH]; cbn; [reflexivity|].
    unfold differs at 1. destruct (wstring_eqb s []) eqn:Q.
    - apply wstring_eqb_eq in Q. contradiction.
    - cbn. now rewrite IH. }
  pose proof (split_loop_make_multi_sz l
                (Datatypes.S (List.length l + List.length l')) [] [] false []
                Hl ltac:(lia)) as A.
  pose proof (split_loop_make_multi_sz l'
                (Datatypes.S (List.length l + List.length l')) [] [] false []
                Hl' ltac:(lia)) as B.
  rewrite E in A. rewrite A in B. injection B as B _.
  cbn [app] in B. fold (differs []) in B. now rewrite !K in B.
Qed.

(** C8, as the code has it. Let a first [classfilter add] succeed, for a
    driver name that is not empty and has no L'\0', on a value of moderate
    size. Then the stored value is the encoding of a list of names that ends
    with the driver name and does not hold it anywhere else: the name occurs
    exactly once, at the end, after the names the old value held (none when
    there was no value; the old list without the name when the old value
    was the encoding of a list). A second [classfilter add] with the same
    arguments succeeds, leaves every stored value as it was, and calls
    RegSetValueEx again with the same data: [modified] starts as [add], so
    the tool never finds that nothing changed. *)
Theorem classfilter_add_twice (S : setup_api) (r : classfilter_args)
    (R0 R1 : registry) :
  wellformed_name (driver_name r) ->
  (N.of_nat (List.length (driver_name r)) < 2 ^ 28)%N ->
  (forall key d, values R0 key (filters_value r) = Some d ->
                 (N.of_nat (List.length d) < 2 ^ 28)%N) ->
  classfilter S r true R0 = Some (true, R1) ->
  exists key before R2,
    get_class_guid S (class_name r) = (true, key)
    /\ values R1 key (filters_value r)
       = Some (make_multi_sz (before ++ [driver_name r]))
    /\ Forall wellformed_name (before ++ [driver_name r])
    /\ ~ In (driver_name r) before
    /\ occurrences (driver_name r) (before ++ [driver_name r]) = 1%nat
    /\ last (before ++ [driver_name r]) [] = driver_name r
    /\ (values R0 key (filters_value r) = None -> before = [])
    /\ (forall old,
          values R0 key (filters_value r) = Some (make_multi_sz old) ->
          Forall wellformed_name old ->
          before = filter (differs (driver_name r)) old)
    /\ writes R1
       = writes R0 ++ [(key, filters_value r,
                        make_multi_sz (before ++ [driver_name r]))]
    /\ classfilter S r true R1 = Some (true, R2)
    /\ (forall k n, values R2 k n = values R1 k n)
    /\ writes R2
       = writes R1 ++ [(key, filters_value r,
                        make_multi_sz (before ++ [driver_name r]))].
Proof.
  intros Hx Hxs Hds Hrun.
  destruct (classfilter_add_inv S r R0 R1 Hx Hrun)
    as (key & fs & Hreach & Hw & Hwf & Hni & Hfoot & Hnone & Hst).
  assert (Hfit : fits_dword (fs ++ [driver_name r])).
  { unfold fits_dword, sizeof_WCHAR.
    rewrite make_multi_sz_length, footprint_app. cbn [footprint].
    assert (N.of_nat (footprint fs) <= 2 ^ 29 + 1)%N.
    { destruct (values R0 key (filters_value r)) as [d|] eqn:Hv.
      - specialize (Hfoot d eq_refl). specialize (Hds key d Hv).
        change (2 ^ 28)%N with 268435456%N in Hds.
        change (2 ^ 29)%N with 536870912%N. lia.
      - rewrite (Hnone eq_refl). cbn. lia. }
    change (2 ^ 28)%N with 268435456%N in Hxs.
    change (2 ^ 29)%N with 536870912%N in *.
    change (2 ^ 32)%N with 4294967296%N. lia. }
  specialize (Hst Hfit). subst R1.
  set (l := fs ++ [driver_name r]) in *.
  set (R1 := store R0 key (filters_value r) (make_multi_sz l)) in *.
  assert (Hl : Forall wellformed_name l).
  { subst l. apply Forall_app. split; [assumption|]. now constructor. }
  assert (Hv1 : values R1 key (filters_value r) = Some (make_multi_sz l))
    by apply values_store.
  exists key, fs, (store R1 key (filters_value r) (make_multi_sz l)).
  split; [exact (proj1 Hreach)|].
  split; [exact Hv1|]. split; [exact Hl|]. split; [exact Hni|].
  split; [now apply occurrences_last|].
  split; [apply last_last|].
  split; [exact Hnone|].
  split.
  { intros old Hv0 Hwf0.
    set (kept := filter (differs (driver_name r)) old).
    assert (Hfit0 : fits_dword (kept ++ [driver_name r])).
    { unfold fits_dword, sizeof_WCHAR.
      rewrite make_multi_sz_length, footprint_app. cbn [footprint].
      pose proof (footprint_filter (differs (driver_name r)) old) as Hk.
      fold kept in Hk.
      pose proof (Hds key _ Hv0) as Hd. rewrite make_multi_sz_length in Hd.
      change (2 ^ 28)%N with 268435456%N in Hxs, Hd.
      change (2 ^ 32)%N with 4294967296%N. lia. }
    pose proof (classfilter_encoded S r true R0 key old Hreach Hwf0 Hv0
                  (fun _ => conj Hw Hfit0)) as Hc.
    cbn [orb] in Hc. fold kept in Hc. rewrite Hrun in Hc.
    assert (Hs : R1 = store R0 key (filters_value r)
                        (make_multi_sz (kept ++ [driver_name r])))
      by congruence.
    apply (f_equal (fun R => values R key (filters_value r))) in Hs.
    rewrite Hv1, values_store in Hs.
    assert (Hc' : make_multi_sz l = make_multi_sz (kept ++ [driver_name r]))
      by congruence.
    clear Hc Hs. rename Hc' into Hc.
    apply make_multi_sz_inj in Hc; [| exact Hl |].
    - subst l. now apply app_inj_tail in Hc as [Hc _].
    - apply Forall_app. split; [|now constructor].
      apply Forall_forall. intros n Hn. apply filter_In in Hn as [Hn _].
      revert n Hn. now apply Forall_forall. }
  split; [reflexivity|].
  split; [now apply classfilter_add_again|].
  split; [now apply store_again | reflexivity].
Qed.

Lemma classfilter_add_twice_witness :
  exists key before R2,
    values (store two_filters usb_guid UpperFilters
                  (make_multi_sz [L "winusb"; L "usbip2_filter"]))
           key (filters_value sample_args)
      = Some (make_multi_sz (before ++ [L "usbip2_filter"]))
    /\ before = [L "winusb"]
    /\ classfilter sample_api sample_args true
         (store two_filters usb_guid UpperFilters
                (make_multi_sz [L "winusb"; L "usbip2_filter"]))
       = Some (true, R2)
    /\ writes R2
       = [(usb_guid, UpperFilters,
           make_multi_sz [L "usbip2_filter"; L "winusb"]);
          (usb_guid, UpperFilters,
           make_multi_sz [L "winusb"; L "usbip2_filter"]);
          (usb_guid, UpperFilters,
           make_multi_sz [L "winusb"; L "usbip2_filter"])].
Proof.
  destruct (classfilter_add_twice sample_api sample_args two_filters
              (store two_filters usb_guid UpperFilters
                     (make_multi_sz [L "winusb"; L "usbip2_filter"])))
    as (key & before & R2 & G & A & _ & _ & _ & _ & _ & B & _ & C & _ & D).
  - split; [discriminate|]. vm_compute. intuition discriminate.
  - vm_compute. reflexivity.
  - intros key d H. destruct (N.eqb_spec key usb_guid) as [->|Hne].
    + vm_compute in H. injection H as <-. vm_compute. reflexivity.
    + apply N.eqb_neq in Hne. unfold two_filters in H.
      cbn [values store] in H. rewrite Hne in H. discriminate H.
  - vm_compute. reflexivity.
  - assert (K : usb_guid = key) by (vm_compute in G; injection G as G; exact G).
    subst key.
    assert (Hb : before = [L "winusb"]).
    { apply (B [L "usbip2_filter"; L "winusb"]); [reflexivity|].
      repeat constructor; try discriminate; vm_compute; intuition discriminate. }
    exists usb_guid, before, R2. split; [exact A|]. split; [exact Hb|].
    split; [exact C|]. rewrite D, Hb. reflexivity.
Defined.

(** X14. [split_multi_sz] inverts [make_multi_sz]. Scanning the encoding of a
    list of well-formed names, followed by any number of zeros, returns the
    names in order without the excluded one, and raises the flag exactly
    when the excluded name was in the list. *)
Theorem split_multi_sz_inverts_make_multi_sz (l : list wstring)
    (x : wstring) (e : bool) (zeros : nat) :
  Forall wellformed_name l ->
  split_multi_sz (Some (make_multi_sz l ++ repeat 0%N zeros)) x e
  = (filter (differs x) l, e || occurs x l).
Proof.
  intros Hwf. cbn [split_multi_sz].
  rewrite split_loop_make_multi_sz; [reflexivity | exact Hwf |].
  rewrite length_app, make_multi_sz_length.
  pose proof (names_le_footprint l). lia.
Qed.

Lemma split_multi_sz_inverts_make_multi_sz_witness :
  split_multi_sz
    (Some (make_multi_sz [L "usbip2_filter"; L "winusb"] ++ repeat 0%N 3))
    (L "usbip2_filter") false
  = ([L "winusb"], true).
Proof.
  apply (split_multi_sz_inverts_make_multi_sz
           [L "usbip2_filter"; L "winusb"] (L "usbip2_filter") false 3).
  repeat constructor; try discriminate; vm_compute; intuition discriminate.
Defined.

Lemma split_loop_flag fuel : forall str x e v,
  snd (split_loop fuel str x e v) = true -> e = true \/ wellformed_name x.
Proof.
  induction fuel as [|fuel IH]; intros str x e v; cbn [split_loop].
  - now left.
  - destruct str as [|c rest]; [now left|].
    destruct (N.eqb_spec c 0) as [->|Hc]; [now left|].
    destruct (wstring_eqb (wcs_view (c :: rest)) x) eqn:E.
    + intros _. right. apply wstring_eqb_eq in E. subst x.
      split; [|apply wcs_view_no_nul].
      cbn. destruct (N.eqb_spec c 0); [contradiction|discriminate].
    + apply IH.
Qed.

(** X15. Whatever the buffer holds, [split_multi_sz] returns only strings that
    are not empty, contain no L'\0' and differ from the excluded name, and
    together (terminators included) they are no longer than the buffer plus
    one. A flag that was set stays set, and the flag is never raised for an
    excluded name that is empty or contains L'\0'. A null buffer, an empty
    one and one that starts with L'\0' give no string and leave the flag. *)
Theorem split_multi_sz_sound (str : option (list WCHAR)) (x : wstring)
    (e : bool) :
  let r := split_multi_sz str x e in
  Forall wellformed_name (fst r)
  /\ ~ In x (fst r)
  /\ (forall buf, str = Some buf ->
        (footprint (fst r) <= List.length buf + 1)%nat)
  /\ (e = true -> snd r = true)
  /\ (snd r = true -> e = true \/ wellformed_name x)
  /\ (str = None \/ str = Some [] \/ (exists t, str = Some (0%N :: t)) ->
      r = ([], e)).
Proof.
  cbv zeta. destruct str as [buf|]; cbn [split_multi_sz].
  - destruct (split_loop_sound (List.length buf) buf x e [])
      as (fs & E1 & W & NI & B & _).
    cbn [app] in E1. rewrite E1.
    split; [exact W|]. split; [exact NI|].
    split; [intros b Hb; injection Hb as <-; exact B|].
    split; [intros ->; apply split_loop_keeps_flag|].
    split; [apply split_loop_flag|].
    intros [H | [H | [t H]]]; try discriminate; injection H as ->.
    + reflexivity.
    + reflexivity.
  - cbn. repeat split; auto. intros b Hb. discriminate.
Qed.

(** X16. [make_hwid] builds a one-element REG_MULTI_SZ: the hardware id, its
    terminator and the terminator of the list; [split_multi_sz] reads the
    hardware id back from it. *)
Theorem make_hwid_is_single_entry (hwid x : wstring) (e : bool) :
  wellformed_name hwid ->
  hwid <> x ->
  List.length (make_hwid hwid) = (List.length hwid + 2)%nat
  /\ wcs_view (make_hwid hwid) = hwid
  /\ split_multi_sz (Some (make_hwid hwid)) x e = ([hwid], e).
Proof.
  intros Hwf Hx.
  assert (H : make_hwid hwid = make_multi_sz [hwid])
    by (unfold make_hwid; cbn; now rewrite <- app_assoc).
  rewrite H. split; [rewrite make_multi_sz_length; cbn; lia|].
  split; [cbn; apply wcs_view_terminated, Hwf|].
  cbn [split_multi_sz].
  rewrite <- (app_nil_r (make_multi_sz [hwid])) at 2.
  rewrite split_loop_make_multi_sz.
  - cbn. destruct (wstring_eqb hwid x) eqn:E.
    + apply wstring_eqb_eq in E. contradiction.
    + cbn. now rewrite orb_false_r.
  - now constructor.
  - rewrite make_multi_sz_length. cbn. lia.
Qed.

Lemma make_hwid_is_single_entry_witness :
  split_multi_sz (Some (make_hwid (L "ROOT\USBIP_WIN2\UDE"))) [] false
  = ([L "ROOT\USBIP_WIN2\UDE"], false).
Proof.
  refine (proj2 (proj2 (make_hwid_is_single_entry
            (L "ROOT\USBIP_WIN2\UDE") [] false _ _))).
  - split; [discriminate|]. vm_compute. intuition discriminate.
  - discriminate.
Defined.

Lemma split_multi_sz_sound_witness :
  split_multi_sz (Some [0%N; 65%N; 0%N]) (L "A") false = ([], false).
Proof.
  apply (proj2 (proj2 (proj2 (proj2 (proj2
    (split_multi_sz_sound (Some [0%N; 65%N; 0%N]) (L "A") false)))))).
  right. right. now exists [65%N; 0%N].
Defined.

(** X17. [read_multi_z] ends within two calls of RegGetValue, whatever buffer
    it is given. A value that cannot be read gives failure and leaves the
    buffer; a value that does not exist gives success and an empty buffer. A
    value that exists gives success; a buffer that is not empty then starts
    with the data of the value, while an empty one, which hands the API a
    null pointer, stays empty: only the size is asked for, and the data is
    not read. *)
Theorem read_multi_z_outcomes (S : setup_api) (R : registry) (key : GUID)
    (name : value_name) (val : list WCHAR) :
  (read_denied S key name = true ->
     read_multi_z S R key name val = Some (false, val))
  /\ (read_denied S key name = false ->
      values R key name = None ->
      read_multi_z S R key name val = Some (true, []))
  /\ (forall d, read_denied S key name = false ->
      values R key name = Some d ->
      val <> [] ->
      exists rest, read_multi_z S R key name val = Some (true, d ++ rest))
  /\ (forall d, read_denied S key name = false ->
      values R key name = Some d ->
      read_multi_z S R key name [] = Some (true, [])).
Proof.
  unfold read_multi_z. cbn [read_loop].
  split; [|split; [|split]].
  - unfold RegGetValue. intros ->. reflexivity.
  - unfold RegGetValue. intros -> ->. reflexivity.
  - intros d Hr Hv Hne.
    assert (Hl : (0 < List.length val)%nat).
    { destruct val; [congruence | cbn; lia]. }
    rewrite (RegGetValue_buffer S R key name d _ _ Hr Hv Hl). cbv zeta.
    destruct (sizeof_WCHAR * N.of_nat (List.length d)
              <=? DWORD (N.of_nat (List.length val)))%N eqn:Hfit.
    + eexists. reflexivity.
    + cbn [N.eqb ERROR_MORE_DATA ERROR_FILE_NOT_FOUND ERROR_SUCCESS Pos.eqb].
      rewrite (RegGetValue_buffer S R key name d _ _ Hr Hv).
      * cbv zeta. rewrite N.leb_refl. eexists. reflexivity.
      * rewrite resize_length. apply N.leb_gt in Hfit.
        assert (0 <= DWORD (N.of_nat (List.length val)))%N by apply N.le_0_l.
        lia.
  - unfold RegGetValue. intros d -> ->. reflexivity.
Qed.

Lemma read_multi_z_outcomes_witness :
  exists rest,
    read_multi_z sample_api
      (store empty_registry usb_guid UpperFilters (make_multi_sz [L "winusb"]))
      usb_guid UpperFilters [0%N; 0%N]
    = Some (true, make_multi_sz [L "winusb"] ++ rest).
Proof.
  apply (proj1 (proj2 (proj2 (read_multi_z_outcomes sample_api
           (store empty_registry usb_guid UpperFilters
                  (make_multi_sz [L "winusb"]))
           usb_guid UpperFilters [0%N; 0%N]))));
    [reflexivity | reflexivity | discriminate].
Defined.

(** X18. [classfilter remove] of a name that is not among the filters writes
    nothing: when the value does not exist, or holds a list of names without
    the driver name, the tool returns success and the registry, its record of
    writes included, is as it was; a write-protected value is no obstacle. *)
Theorem classfilter_remove_absent (S : setup_api) (r : classfilter_args)
    (R : registry) (key : GUID) :
  reaches_value S r key ->
  values R key (filters_value r) = None
  \/ (exists l, values R key (filters_value r) = Some (make_multi_sz l)
                /\ Forall wellformed_name l
                /\ ~ In (driver_name r) l) ->
  classfilter S r false R = Some (true, R).
Proof.
  intros Hreach [Hv | (l & Hv & Hwf & Hni)].
  - destruct Hreach as (Hg & Ho & Hr). unfold classfilter.
    rewrite Hg. cbn [negb]. rewrite Ho. cbn [negb].
    rewrite (read_multi_z_missing S R key _ Hr Hv). reflexivity.
  - rewrite (classfilter_encoded S r false R key l Hreach Hwf Hv).
    + cbn [orb]. now rewrite occurs_false.
    + cbn [orb]. rewrite occurs_false by exact Hni. discriminate.
Qed.

Lemma classfilter_remove_absent_witness :
  classfilter sample_api sample_args false empty_registry
  = Some (true, empty_registry).
Proof.
  apply (classfilter_remove_absent sample_api sample_args empty_registry
           usb_guid).
  - repeat split.
  - now left.
Defined.

(** X19. [classfilter remove] of a name that is among the filters stores the
    list without every occurrence of the name, the other names in their
    order, with one call of RegSetValueEx. *)
Theorem classfilter_remove_present (S : setup_api) (r : classfilter_args)
    (R : registry) (key : GUID) (l : list wstring) :
  reaches_value S r key ->
  write_denied S key (filters_value r) = false ->
  values R key (filters_value r) = Some (make_multi_sz l) ->
  Forall wellformed_name l ->
  fits_dword l ->
  In (driver_name r) l ->
  classfilter S r false R
  = Some (true, store R key (filters_value r)
                      (make_multi_sz (filter (differs (driver_name r)) l)))
  /\ occurrences (driver_name r) (filter (differs (driver_name r)) l) = 0%nat.
Proof.
  intros Hreach Hw Hv Hwf Hfit Hin. split.
  - rewrite (classfilter_encoded S r false R key l Hreach Hwf Hv).
    + cbn [orb]. now rewrite (proj2 (occurs_iff _ _) Hin).
    + intros _. split; [exact Hw|].
      apply (fits_dword_smaller l); [apply footprint_filter | exact Hfit].
  - unfold occurrences. apply count_occ_not_In, not_in_filter_differs.
Qed.

Lemma classfilter_remove_present_witness :
  classfilter sample_api sample_args false two_filters
  = Some (true, store two_filters usb_guid UpperFilters
                      (make_multi_sz [L "winusb"])).
Proof.
  refine (proj1 (classfilter_remove_present sample_api sample_args two_filters
            usb_guid [L "usbip2_filter"; L "winusb"] _ _ _ _ _ _)).
  - repeat split.
  - reflexivity.
  - reflexivity.
  - repeat constructor; try discriminate; vm_compute; intuition discriminate.
  - vm_compute. reflexivity.
  - now left.
Defined.

(** X20. [classfilter add] moves the name to the end. On a value that holds a
    list of names, the stored list is the old one without the driver name,
    followed by the driver name: a name that was already present, wherever it
    stood, ends up last and occurs once. *)
Theorem classfilter_add_moves_to_end (S : setup_api) (r : classfilter_args)
    (R : registry) (key : GUID) (l : list wstring) :
  reaches_value S r key ->
  write_denied S key (filters_value r) = false ->
  values R key (filters_value r) = Some (make_multi_sz l) ->
  Forall wellformed_name l ->
  fits_dword (l ++ [driver_name r]) ->
  classfilter S r true R
  = Some (true, store R key (filters_value r)
                      (make_multi_sz (filter (differs (driver_name r)) l
                                      ++ [driver_name r])))
  /\ occurrences (driver_name r)
       (filter (differs (driver_name r)) l ++ [driver_name r]) = 1%nat.
Proof.
  intros Hreach Hw Hv Hwf Hfit. split.
  - rewrite (classfilter_encoded S r true R key l Hreach Hwf Hv).
    + reflexivity.
    + intros _. split; [exact Hw|].
      apply (fits_dword_smaller (l ++ [driver_name r])); [|exact Hfit].
      rewrite !footprint_app. pose proof (footprint_filter
        (differs (driver_name r)) l). lia.
  - apply occurrences_last, not_in_filter_differs.
Qed.

Lemma classfilter_add_moves_to_end_witness :
  classfilter sample_api sample_args true two_filters
  = Some (true, store two_filters usb_guid UpperFilters
                      (make_multi_sz [L "winusb"; L "usbip2_filter"])).
Proof.
  refine (proj1 (classfilter_add_moves_to_end sample_api sample_args
            two_filters usb_guid [L "usbip2_filter"; L "winusb"] _ _ _ _ _)).
  - repeat split.
  - reflexivity.
  - reflexivity.
  - repeat constructor; try discriminate; vm_compute; intuition discriminate.
  - vm_compute. reflexivity.
Defined.

(** X21. [classfilter remove] undoes [classfilter add]. On a value that holds
    a list of names, adding the driver name and then removing it succeeds
    twice, with one write each, and leaves the old list without the driver
    name: exactly the old list when the name was not in it. *)
Theorem classfilter_add_then_remove (S : setup_api) (r : classfilter_args)
    (R : registry) (key : GUID) (l : list wstring) :
  reaches_value S r key ->
  write_denied S key (filters_value r) = false ->
  values R key (filters_value r) = Some (make_multi_sz l) ->
  Forall wellformed_name l ->
  wellformed_name (driver_name r) ->
  fits_dword (l ++ [driver_name r]) ->
  exists R1 R2,
    classfilter S r true R = Some (true, R1)
    /\ classfilter S r false R1 = Some (true, R2)
    /\ values R2 key (filters_value r)
       = Some (make_multi_sz (filter (differs (driver_name r)) l))
    /\ (~ In (driver_name r) l ->
        values R2 key (filters_value r) = values R key (filters_value r))
    /\ List.length (writes R2) = (List.length (writes R) + 2)%nat.
Proof.
  intros Hreach Hw Hv Hwf Hx Hfit.
  set (x := driver_name r) in *. set (kept := filter (differs x) l).
  assert (Hk : (footprint kept <= footprint l)%nat) by apply footprint_filter.
  assert (Hfit1 : fits_dword (kept ++ [x])).
  { apply (fits_dword_smaller (l ++ [x])); [|exact Hfit].
    rewrite !footprint_app. lia. }
  assert (Hwfk : Forall wellformed_name kept).
  { apply Forall_forall. intros s Hs. apply filter_In in Hs as [Hs _].
    revert s Hs. now apply Forall_forall. }
  set (R1 := store R key (filters_value r) (make_multi_sz (kept ++ [x]))).
  assert (Hkx : filter (differs x) (kept ++ [x]) = kept).
  { rewrite filter_app. cbn [filter]. unfold differs at 2.
    rewrite wstring_eqb_refl. cbn [negb]. rewrite app_nil_r.
    apply filter_differs_absent, not_in_filter_differs. }
  exists R1, (store R1 key (filters_value r) (make_multi_sz kept)).
  split; [|split; [|split; [|split]]].
  - rewrite (classfilter_encoded S r true R key l Hreach Hwf Hv);
      [reflexivity | now intros _].
  - rewrite (classfilter_encoded S r false R1 key (kept ++ [x]) Hreach).
    + fold x. rewrite Hkx. cbn [orb].
      assert (O : occurs x (kept ++ [x]) = true)
        by (apply occurs_iff, in_or_app; right; now left).
      now rewrite O.
    + apply Forall_app. split; [exact Hwfk | now constructor].
    + apply values_store.
    + intros _. fold x. rewrite Hkx. split; [exact Hw|].
      apply (fits_dword_smaller (kept ++ [x])); [|exact Hfit1].
      rewrite footprint_app. lia.
  - apply values_store.
  - intros Hni. rewrite values_store, Hv. unfold kept.
    now rewrite filter_differs_absent.
  - cbn. rewrite !length_app. cbn. lia.
Qed.

Lemma classfilter_add_then_remove_witness :
  exists R1 R2,
    classfilter sample_api sample_args true
      (store empty_registry usb_guid UpperFilters (make_multi_sz [L "winusb"]))
      = Some (true, R1)
    /\ classfilter sample_api sample_args false R1 = Some (true, R2)
    /\ values R2 usb_guid UpperFilters = Some (make_multi_sz [L "winusb"]).
Proof.
  destruct (classfilter_add_then_remove sample_api sample_args
              (store empty_registry usb_guid UpperFilters
                     (make_multi_sz [L "winusb"]))
              usb_guid [L "winusb"])
    as (R1 & R2 & A & B & C & _).
  - repeat split.
  - reflexivity.
  - reflexivity.
  - repeat constructor; try discriminate; vm_compute; intuition discriminate.
  - split; [discriminate|]. vm_compute. intuition discriminate.
  - vm_compute. reflexivity.
  - exists R1, R2. repeat split; assumption.
Defined.

(** X22. [classfilter] always returns; a run that fails leaves the registry as
    it was, and a run that succeeds either leaves it as it was or stores one
    value, the one named by the level, in the key of the class. *)
Theorem classfilter_touches_one_value (S : setup_api) (r : classfilter_args)
    (add : bool) (R : registry) :
  exists ok R',
    classfilter S r add R = Some (ok, R')
    /\ (ok = false -> R' = R)
    /\ (R' = R
        \/ exists data,
             R' = store R (snd (get_class_guid S (class_name r)))
                        (filters_value r) data).
Proof.
  unfold classfilter.
  destruct (get_class_guid S (class_name r)) as [ok key] eqn:Hg.
  cbn [snd].
  destruct ok; cbn [negb]; [|exists false, R; auto].
  destruct (SetupDiOpenClassRegKeyEx S key); cbn [negb];
    [|exists false, R; auto].
  pose proof (read_multi_z_total S R key (filters_value r)) as T.
  destruct (read_multi_z S R key (filters_value r) (repeat 0%N 4096))
    as [[[] val]|]; [ | exists false, R; auto | contradiction ].
  destruct (split_multi_sz _ (driver_name r) add) as [filters modified].
  destruct modified; cbn [negb]; [|exists true, R; repeat split; auto;
                                   discriminate].
  unfold RegSetValueEx.
  destruct (write_denied S key (filters_value r)); cbn.
  - exists false, R. auto.
  - eexists true, _. split; [reflexivity|]. split; [discriminate|].
    right. eexists. reflexivity.
Qed.

Lemma add_flag_stays (val : list WCHAR) (x : wstring) :
  snd (split_multi_sz match val with [] => None | _ :: _ => Some val end
                      x true) = true.
Proof.
  destruct val; cbn [split_multi_sz snd]; [reflexivity|].
  apply split_loop_keeps_flag.
Qed.

(** X23. [classfilter add] succeeds exactly when the class name has one GUID,
    the class key opens, and the value can be read and written; what the
    value holds (nothing, a proper list, or data that is no list at all) and
    what the driver name is play no part. *)
Theorem classfilter_add_succeeds_iff (S : setup_api) (r : classfilter_args)
    (R : registry) :
  (exists R', classfilter S r true R = Some (true, R'))
  <-> (exists key, reaches_value S r key
                   /\ write_denied S key (filters_value r) = false).
Proof.
  split.
  - intros [R' H]. unfold classfilter in H.
    destruct (get_class_guid S (class_name r)) as [ok key] eqn:Hg.
    destruct ok; cbn [negb] in H; [|discriminate].
    destruct (SetupDiOpenClassRegKeyEx S key) eqn:Ho; cbn [negb] in H;
      [|discriminate].
    destruct (read_denied S key (filters_value r)) eqn:Hr.
    { destruct (read_multi_z_denied S R key _ Hr) as [val Hd].
      rewrite Hd in H. discriminate. }
    exists key. split; [repeat split; assumption|].
    destruct (write_denied S key (filters_value r)) eqn:Hw; [|reflexivity].
    destruct (read_multi_z S R key (filters_value r) (repeat 0%N 4096))
      as [[[] val]|]; try discriminate.
    pose proof (add_flag_stays val (driver_name r)) as K.
    destruct (split_multi_sz _ (driver_name r) true) as [filters modified].
    cbn [snd] in K. subst modified. cbn [negb] in H.
    unfold RegSetValueEx in H. rewrite Hw in H. discriminate.
  - intros (key & (Hg & Ho & Hr) & Hw). unfold classfilter.
    rewrite Hg. cbn [negb]. rewrite Ho. cbn [negb].
    assert (T : exists val,
               read_multi_z S R key (filters_value r) (repeat 0%N 4096)
               = Some (true, val)).
    { destruct (values R key (filters_value r)) as [d|] eqn:Hv.
      - destruct (read_multi_z_found S R key _ d Hr Hv) as (k & E & _).
        eexists. exact E.
      - eexists. apply (read_multi_z_missing S R key _ Hr Hv). }
    destruct T as [val ->].
    pose proof (add_flag_stays val (driver_name r)) as K.
    destruct (split_multi_sz _ (driver_name r) true) as [filters modified].
    cbn [snd] in K. subst modified. cbn [negb]. unfold RegSetValueEx.
    rewrite Hw. cbn. eexists. reflexivity.
Qed.

Lemma classfilter_add_succeeds_iff_witness :
  exists R',
    classfilter sample_api sample_args true
      (store empty_registry usb_guid UpperFilters [65%N; 66%N])
    = Some (true, R').
Proof.
  apply (proj2 (classfilter_add_succeeds_iff sample_api sample_args
                  (store empty_registry usb_guid UpperFilters [65%N; 66%N]))).
  exists usb_guid. repeat split.
Defined.

End InstallerProofs.

(** ** Removal of device nodes *)

Module DevnodeProofs.
Import Installer InstallerProofs Devnode.

Local Open Scope N_scope.

Lemma bytes_of_cells d : N.to_nat (bytes_of d / sizeof_WCHAR) = List.length d.
Proof.
  unfold bytes_of, sizeof_WCHAR. rewrite N.mul_comm, N.div_mul by discriminate.
  apply Nat2N.id.
Qed.

Lemma resize_bytes_exact d rest : resize_bytes (d ++ rest) (bytes_of d) = d.
Proof.
  unfold resize_bytes, resize. rewrite bytes_of_cells.
  rewrite firstn_app, firstn_all, Nat.sub_diag, firstn_O, app_nil_r.
  rewrite length_app.
  replace (List.length d - (List.length d + List.length rest))%nat
    with 0%nat by lia.
  apply app_nil_r.
Qed.

Lemma resize_bytes_length prop n :
  List.length (resize_bytes prop n) = N.to_nat (n / sizeof_WCHAR).
Proof.
  unfold resize_bytes, resize. rewrite length_app, repeat_length, length_firstn.
  lia.
Qed.

Lemma get_property_data dd key prop d :
  property_of dd key = PropData d -> bytes_of d < 2 ^ 32 ->
  get_device_property dd key prop = Some (ERROR_SUCCESS, d).
Proof.
  unfold get_device_property. cbn [get_property_loop].
  unfold SetupDiGetDeviceProperty. intros -> Hd.
  destruct (bytes_of d <=? DWORD (bytes_of prop)) eqn:Fit.
  - now rewrite resize_bytes_exact.
  - cbn [N.eqb ERROR_INSUFFICIENT_BUFFER Pos.eqb].
    assert (Hb : bytes_of (resize_bytes prop (bytes_of d)) = bytes_of d).
    { unfold bytes_of at 1. rewrite resize_bytes_length, bytes_of_cells.
      reflexivity. }
    rewrite Hb. unfold DWORD. rewrite N.mod_small by exact Hd.
    rewrite N.leb_refl. now rewrite resize_bytes_exact.
Qed.

Lemma get_property_missing dd key prop :
  property_of dd key = PropMissing ->
  get_device_property dd key prop = Some (ERROR_NOT_FOUND, []).
Proof.
  unfold get_device_property. cbn [get_property_loop].
  unfold SetupDiGetDeviceProperty. now intros ->.
Qed.

Lemma get_property_unreadable dd key prop :
  property_of dd key = PropUnreadable ->
  get_device_property dd key prop = Some (ERROR_INVALID_DATA, []).
Proof.
  unfold get_device_property. cbn [get_property_loop].
  unfold SetupDiGetDeviceProperty. now intros ->.
Qed.

(** X24. [get_device_property] ends within two calls of
    SetupDiGetDeviceProperty, whatever buffer it is given. For a property
    that exists it returns ERROR_SUCCESS and a buffer that holds exactly the
    data; for one that does not exist or cannot be read it returns the error
    and an empty buffer. *)
Theorem get_device_property_outcomes (dd : SP_DEVINFO_DATA) (key : DEVPROPKEY)
    (prop : list WCHAR) :
  (forall d, property_of dd key = PropData d -> bytes_of d < 2 ^ 32 ->
     get_device_property dd key prop = Some (ERROR_SUCCESS, d))
  /\ (property_of dd key = PropMissing ->
      get_device_property dd key prop = Some (ERROR_NOT_FOUND, []))
  /\ (property_of dd key = PropUnreadable ->
      get_device_property dd key prop = Some (ERROR_INVALID_DATA, [])).
Proof.
  split; [|split].
  - intros d. apply get_property_data.
  - apply get_property_missing.
  - apply get_property_unreadable.
Qed.

Lemma get_device_property_outcomes_witness :
  get_device_property
    (mk_dev 7 (PropData (make_hwid ude_hwid)) PropMissing None)
    DEVPKEY_Device_HardwareIds [0; 0]
  = Some (ERROR_SUCCESS, make_hwid ude_hwid).
Proof.
  apply (proj1 (get_device_property_outcomes
                  (mk_dev 7 (PropData (make_hwid ude_hwid)) PropMissing None)
                  DEVPKEY_Device_HardwareIds [0; 0])).
  - reflexivity.
  - reflexivity.
Defined.

Lemma skipn_nth_error {A} (l : list A) : forall n,
  skipn n l = match nth_error l n with
              | Some a => a :: skipn (Datatypes.S n) l
              | None => []
              end.
Proof.
  induction l as [|a l IH]; intros [|n]; cbn; try reflexivity.
  rewrite IH. destruct (nth_error l n); reflexivity.
Qed.

Lemma enum_loop_visit (St : Type) (func : device_visitor_f St) (di : HDEVINFO) :
  N.of_nat (List.length di) < 2 ^ 32 ->
  forall fuel i s,
    (N.to_nat i <= List.length di)%nat ->
    (List.length di - N.to_nat i < fuel)%nat ->
    enum_loop St fuel di i func s = visit St func (skipn (N.to_nat i) di) s.
Proof.
  intros Hsz. induction fuel as [|fuel IH]; intros i s Hi Hf; [lia|].
  cbn [enum_loop]. unfold SetupDiEnumDeviceInfo.
  rewrite (skipn_nth_error di (N.to_nat i)).
  destruct (nth_error di (N.to_nat i)) as [[dd|err]|] eqn:Hn; cbn [visit].
  - assert (N.to_nat i < List.length di)%nat
      by (apply nth_error_Some; congruence).
    assert (Hd : DWORD (i + 1) = i + 1).
    { unfold DWORD. apply N.mod_small. lia. }
    destruct (func dd s) as [[[] s']|]; try reflexivity.
    rewrite Hd, IH by lia.
    now replace (N.to_nat (i + 1)) with (Datatypes.S (N.to_nat i)) by lia.
  - reflexivity.
  - reflexivity.
Qed.

(** X25. [enum_device_info] walks a device information set of fewer than 2^32
    members in index order, once: it calls the visitor on each device up to
    the first index where the enumeration fails or the first device for
    which the visitor returns true, and returns the error of that index,
    ERROR_SUCCESS at the end of the set or on the visitor's request. *)
Theorem enum_device_info_walks_in_order (St : Type)
    (func : device_visitor_f St) (di : HDEVINFO) (s : St) :
  N.of_nat (List.length di) < 2 ^ 32 ->
  enum_device_info St di func s = visit St func di s.
Proof.
  intros Hsz. unfold enum_device_info.
  rewrite (enum_loop_visit St func di Hsz); [reflexivity | cbn; lia | cbn; lia].
Qed.

Lemma enum_device_info_walks_in_order_witness :
  enum_device_info nat
    [inl (mk_dev 1 PropMissing PropMissing None); inr 5;
     inl (mk_dev 2 PropMissing PropMissing None)]
    (fun dd n => Some (false, (n + N.to_nat (DevInst dd))%nat)) 0%nat
  = Some (5, 1%nat).
Proof.
  rewrite (enum_device_info_walks_in_order nat
             (fun dd n => Some (false, (n + N.to_nat (DevInst dd))%nat))
             [inl (mk_dev 1 PropMissing PropMissing None); inr 5;
              inl (mk_dev 2 PropMissing PropMissing None)] 0%nat).
  - reflexivity.
  - reflexivity.
Defined.

Lemma get_property_ex_data dd key prop s d :
  property_of dd key = PropData d -> bytes_of d < 2 ^ 32 ->
  get_device_property_ex dd key prop s = Some (true, d, s).
Proof.
  intros Hp Hd. unfold get_device_property_ex.
  now rewrite (get_property_data dd key prop d Hp Hd).
Qed.

Lemma get_property_ex_error dd key prop s :
  property_of dd key = PropMissing \/ property_of dd key = PropUnreadable ->
  get_device_property_ex dd key prop s
  = Some (false, [], errmsg "SetupDiGetDeviceProperty" s).
Proof.
  intros [Hp|Hp]; unfold get_device_property_ex.
  - now rewrite (get_property_missing dd key prop Hp).
  - now rewrite (get_property_unreadable dd key prop Hp).
Qed.

Lemma uninstall_device_step dd r st :
  sane dd ->
  uninstall_device dd r st = Some (false, device_step r st dd).
Proof.
  intros Hs. destruct st as [reboot s]. unfold uninstall_device, device_step.
  cbn [fst snd].
  destruct (HardwareIds dd) as [d| |] eqn:Hh.
  - rewrite (get_property_ex_data dd DEVPKEY_Device_HardwareIds _ s d Hh)
      by (apply (Hs DEVPKEY_Device_HardwareIds); exact Hh).
    cbn [negb orb].
    destruct (is_empty d); [reflexivity|]. cbn [orb].
    destruct (wstring_eqb d (hwid r)); cbn [negb]; [|reflexivity].
    destruct (dry_run r).
    + destruct (InstanceId dd) as [i| |] eqn:Hi.
      * rewrite (get_property_ex_data dd DEVPKEY_Device_InstanceId _ s i Hi)
          by (apply (Hs DEVPKEY_Device_InstanceId); exact Hi).
        cbn [andb]. now destruct (is_empty i).
      * rewrite get_property_ex_error by (left; exact Hi). reflexivity.
      * rewrite get_property_ex_error by (right; exact Hi). reflexivity.
    + destruct (DiUninstallDevice dd) as [[]|]; reflexivity.
  - rewrite get_property_ex_error by (left; exact Hh). reflexivity.
  - rewrite get_property_ex_error by (right; exact Hh). reflexivity.
Qed.

Lemma visit_uninstall r devs : forall tail st,
  set_end tail -> Forall sane devs ->
  visit _ (fun dd st => uninstall_device dd r st) (map inl devs ++ tail) st
  = Some (end_code tail, fold_left (device_step r) devs st).
Proof.
  induction devs as [|dd devs IH]; intros tail st Ht Hs.
  - cbn. destruct Ht as [-> | (err & rest & ->)]; cbn; [reflexivity|].
    now destruct (err =? ERROR_NO_MORE_ITEMS).
  - inversion Hs as [|? ? Hd Hs']; subst. cbn [map app visit fold_left].
    rewrite (uninstall_device_step dd r st Hd). now apply IH.
Qed.

Lemma remove_devnode_run M r s devs tail :
  SetupDiGetClassDevs M (enumerator_arg r) = Some (map inl devs ++ tail) ->
  set_end tail -> Forall sane devs ->
  N.of_nat (List.length (map inl devs ++ tail)) < 2 ^ 32 ->
  let r' := mk_remove_args (make_hwid (hwid r)) (enumerator r) (dry_run r) in
  let st := fold_left (device_step r') devs (false, s) in
  let s1 := if negb (end_code tail =? 0)
            then errmsg "SetupDiEnumDeviceInfo" (snd st) else snd st in
  remove_devnode M r s
  = Some (true, if fst st then prompt_reboot M s1 else s1).
Proof.
  intros HM Ht Hs Hsz. cbv zeta. unfold remove_devnode.
  fold (enumerator_arg r). rewrite HM.
  unfold enum_device_info. rewrite enum_loop_visit; [| exact Hsz | cbn; lia | cbn; lia].
  cbn [N.to_nat skipn]. rewrite visit_uninstall by assumption.
  now destruct (fold_left _ devs (false, s)) as [reboot s'].
Qed.

Lemma matches_hwid id dd :
  matches id dd = true <-> HardwareIds dd = PropData (make_hwid id).
Proof.
  unfold matches. destruct (HardwareIds dd) as [d| |]; split;
    try discriminate.
  - intros H. apply wstring_eqb_eq in H. now subst.
  - intros H. injection H as ->. apply wstring_eqb_refl.
Qed.

Lemma make_hwid_not_empty id : is_empty (make_hwid id) = false.
Proof. unfold make_hwid. now destruct id. Qed.

(** One device in a dry run. *)
Lemma dry_step id en st dd :
  device_step (mk_remove_args (make_hwid id) en true) st dd
  = (fst st,
     mk_effects
       (printed (snd st) ++
          (if matches id dd
           then match instance_line dd with Some l => [l] | None => [] end
           else []))
       (errors (snd (device_step (mk_remove_args (make_hwid id) en true) st dd)))
       (uninstalled (snd st)) (prompts (snd st))).
Proof.
  destruct st as [reboot [p e u n]]. unfold device_step, matches, instance_line.
  cbn [fst snd hwid dry_run].
  destruct (HardwareIds dd) as [d| |]; cbn; rewrite ?app_nil_r; try reflexivity.
  destruct (wstring_eqb d (make_hwid id)) eqn:E.
  - apply wstring_eqb_eq in E. subst d. rewrite make_hwid_not_empty.
    cbn [orb negb].
    destruct (InstanceId dd) as [[|c i]| |]; cbn; rewrite ?app_nil_r;
      reflexivity.
  - rewrite orb_true_r. cbn. now rewrite app_nil_r.
Qed.

Lemma dry_fold id en devs : forall st,
  let st' := fold_left (device_step (mk_remove_args (make_hwid id) en true))
                       devs st in
  fst st' = fst st
  /\ printed (snd st') = printed (snd st) ++ dry_lines id devs
  /\ uninstalled (snd st') = uninstalled (snd st)
  /\ prompts (snd st') = prompts (snd st).
Proof.
  induction devs as [|dd devs IH]; intros st; cbn [fold_left dry_lines flat_map].
  - rewrite app_nil_r. auto.
  - destruct (IH (device_step (mk_remove_args (make_hwid id) en true) st dd))
      as (A & B & C & D).
    rewrite A, B, C, D. rewrite dry_step. cbn [fst snd printed uninstalled prompts].
    rewrite <- app_assoc. auto.
Qed.

(** One device in a real run. *)
Lemma real_step id en st dd :
  let st' := device_step (mk_remove_args (make_hwid id) en false) st dd in
  fst st' = (matches id dd && needs_reboot dd) || fst st
  /\ printed (snd st') = printed (snd st)
  /\ uninstalled (snd st')
     = uninstalled (snd st) ++ (if matches id dd then [DevInst dd] else [])
  /\ prompts (snd st') = prompts (snd st).
Proof.
  destruct st as [reboot [p e u n]]. unfold device_step, matches, needs_reboot.
  cbn [fst snd hwid dry_run].
  destruct (HardwareIds dd) as [d| |]; cbn; rewrite ?app_nil_r; auto.
  destruct (wstring_eqb d (make_hwid id)) eqn:E.
  - apply wstring_eqb_eq in E. subst d. rewrite make_hwid_not_empty.
    cbn [orb negb andb].
    destruct (DiUninstallDevice dd) as [[]|]; cbn; auto.
  - rewrite orb_true_r. cbn. rewrite app_nil_r. auto.
Qed.

Lemma real_fold id en devs : forall st,
  let st' := fold_left (device_step (mk_remove_args (make_hwid id) en false))
                       devs st in
  fst st' = existsb (fun dd => matches id dd && needs_reboot dd) devs || fst st
  /\ printed (snd st') = printed (snd st)
  /\ uninstalled (snd st')
     = uninstalled (snd st) ++ map DevInst (filter (matches id) devs)
  /\ prompts (snd st') = prompts (snd st).
Proof.
  induction devs as [|dd devs IH]; intros st;
    cbn [fold_left existsb filter map].
  - rewrite app_nil_r. auto.
  - destruct (IH (device_step (mk_remove_args (make_hwid id) en false) st dd))
      as (A & B & C & D).
    destruct (real_step id en st dd) as (A' & B' & C' & D').
    rewrite A, B, C, D, A', B', C', D'.
    split; [|split; [reflexivity|split; [|reflexivity]]].
    + destruct (matches id dd && needs_reboot dd), (existsb _ devs);
        reflexivity.
    + rewrite <- app_assoc. now destruct (matches id dd).
Qed.

Lemma get_property_ex_effects dd key prop s ok prop' s' :
  get_device_property_ex dd key prop s = Some (ok, prop', s') ->
  printed s' = printed s /\ uninstalled s' = uninstalled s
  /\ prompts s' = prompts s.
Proof.
  unfold get_device_property_ex.
  destruct (get_device_property dd key prop) as [[err p]|]; [|discriminate].
  destruct (err =? 0); intros H; injection H as _ _ <-; cbn; auto.
Qed.

Lemma uninstall_device_dry dd r st b st' :
  dry_run r = true ->
  uninstall_device dd r st = Some (b, st') ->
  fst st' = fst st /\ uninstalled (snd st') = uninstalled (snd st)
  /\ prompts (snd st') = prompts (snd st).
Proof.
  intros Hdry. destruct st as [reboot s]. unfold uninstall_device.
  destruct (get_device_property_ex dd DEVPKEY_Device_HardwareIds _ s)
    as [[[ok prop] s1]|] eqn:G1; [|discriminate].
  destruct (get_property_ex_effects _ _ _ _ _ _ _ G1) as (_ & U1 & P1).
  destruct (negb ok || is_empty prop).
  { intros H. injection H as _ <-. cbn. auto. }
  destruct (negb (wstring_eqb prop (hwid r))).
  { intros H. injection H as _ <-. cbn. auto. }
  rewrite Hdry.
  destruct (get_device_property_ex dd DEVPKEY_Device_InstanceId _ s1)
    as [[[ok2 prop2] s2]|] eqn:G2; [|discriminate].
  destruct (get_property_ex_effects _ _ _ _ _ _ _ G2) as (_ & U2 & P2).
  destruct (ok2 && negb (is_empty prop2));
    intros H; injection H as _ <-; cbn; rewrite ?U2, ?P2; auto.
Qed.

Lemma enum_loop_invariant (St : Type) (P : St -> Prop)
    (func : device_visitor_f St) :
  (forall dd s b s', func dd s = Some (b, s') -> P s -> P s') ->
  forall fuel di i s code s',
    enum_loop St fuel di i func s = Some (code, s') -> P s -> P s'.
Proof.
  intros Hf. induction fuel as [|fuel IH]; intros di i s code s';
    cbn [enum_loop]; [discriminate|].
  destruct (SetupDiEnumDeviceInfo di i) as [dd|err].
  - destruct (func dd s) as [[[] s1]|] eqn:F; [| |discriminate].
    + intros H Hp. injection H as _ <-. exact (Hf dd s true s1 F Hp).
    + intros H Hp. apply (IH _ _ _ _ _ H). exact (Hf dd s false s1 F Hp).
  - destruct (err =? ERROR_NO_MORE_ITEMS); intros H Hp;
      injection H as _ <-; exact Hp.
Qed.

(** X26. A dry run removes nothing. With [dry_run] set, whatever the device
    information set holds, [remove_devnode] makes no call of
    DiUninstallDevice and does not prompt for a reboot; on a set of fewer
    than 2^32 members whose devices can be enumerated up to its end or to
    the first failing index, it returns true and prints, in order, the
    instance id of each device whose hardware-id list is exactly the given
    id. *)
Theorem dry_run_removes_nothing (M : machine) (r : devnode_remove_args)
    (s : effects) :
  dry_run r = true ->
  (forall ok s', remove_devnode M r s = Some (ok, s') ->
     uninstalled s' = uninstalled s /\ prompts s' = prompts s)
  /\ (forall devs tail,
        SetupDiGetClassDevs M (enumerator_arg r) = Some (map inl devs ++ tail) ->
        set_end tail -> Forall sane devs ->
        N.of_nat (List.length (map inl devs ++ tail)) < 2 ^ 32 ->
        exists s',
          remove_devnode M r s = Some (true, s')
          /\ printed s' = printed s ++ dry_lines (hwid r) devs).
Proof.
  intros Hdry. split.
  - intros ok s'. unfold remove_devnode.
    destruct (SetupDiGetClassDevs M _) as [di|].
    + destruct (enum_device_info _ di _ (false, s)) as [[err [reboot s1]]|] eqn:En;
        [|discriminate].
      set (r' := mk_remove_args (make_hwid (hwid r)) (enumerator r)
                                (dry_run r)) in *.
      set (P := fun st : bool * effects =>
                  fst st = false /\ uninstalled (snd st) = uninstalled s
                  /\ prompts (snd st) = prompts s).
      assert (Step : forall dd st b st',
                 uninstall_device dd r' st = Some (b, st') -> P st -> P st').
      { intros dd st b st' Hu (A & B & C).
        destruct (uninstall_device_dry dd r' st b st' Hdry Hu) as (A' & B' & C').
        unfold P. rewrite A', B', C'. auto. }
      unfold enum_device_info in En.
      destruct (enum_loop_invariant _ P _ Step _ _ _ _ _ _ En) as (A & B & C).
      { unfold P. cbn. auto. }
      cbn [fst snd] in A, B, C. subst reboot.
      intros H. injection H as _ <-.
      destruct (negb (err =? 0)); cbn; auto.
    + intros H. injection H as _ <-. cbn. auto.
  - intros devs tail HM Ht Hs Hsz.
    rewrite (remove_devnode_run M r s devs tail HM Ht Hs Hsz). rewrite Hdry.
    destruct (dry_fold (hwid r) (enumerator r) devs (false, s))
      as (A & B & _ & _).
    cbn [fst snd] in A, B. rewrite A. eexists. split; [reflexivity|].
    destruct (negb (end_code tail =? 0)); cbn; exact B.
Qed.

Lemma dry_run_removes_nothing_witness :
  exists s',
    remove_devnode sample_machine (mk_remove_args ude_hwid [] true) no_effects
      = Some (true, s')
    /\ printed s' = [L "ROOT\USB\0000"; L "ROOT\USB\0001"].
Proof.
  destruct (dry_run_removes_nothing sample_machine
              (mk_remove_args ude_hwid [] true) no_effects eq_refl)
    as [_ P].
  destruct (P sample_devices [] eq_refl) as (s' & R & Pr).
  - now left.
  - repeat constructor; intros [] d H; injection H as <-; reflexivity.
  - reflexivity.
  - exists s'. split; [exact R|]. rewrite Pr. reflexivity.
Defined.

Lemma device_step_errors r st dd :
  exists e,
    errors (snd (device_step r st dd)) = errors (snd st) ++ e
    /\ ~ In "SetupPromptReboot"%string e.
Proof.
  destruct st as [reboot [p e u n]]. unfold device_step. cbn [fst snd].
  repeat match goal with
         | |- context [match ?x with _ => _ end] => destruct x
         end; cbn;
    first [ exists []; rewrite app_nil_r; split; [reflexivity | intros []]
          | eexists [_]; split;
            [reflexivity | intros [H|[]]; discriminate H] ].
Qed.

Lemma fold_errors r devs : forall st,
  exists e,
    errors (snd (fold_left (device_step r) devs st)) = errors (snd st) ++ e
    /\ ~ In "SetupPromptReboot"%string e.
Proof.
  induction devs as [|dd devs IH]; intros st; cbn [fold_left].
  - exists []. rewrite app_nil_r. split; [reflexivity | intros []].
  - destruct (IH (device_step r st dd)) as (e2 & E2 & N2).
    destruct (device_step_errors r st dd) as (e1 & E1 & N1).
    exists (e1 ++ e2). rewrite E2, E1, app_assoc. split; [reflexivity|].
    intros H. apply in_app_or in H. tauto.
Qed.

(** X27. A real run removes exactly the matching devices. Without [dry_run],
    on a set of fewer than 2^32 members whose devices can be enumerated up
    to its end or to the first failing index, [remove_devnode] returns true
    and calls DiUninstallDevice once, in order, for each device before that
    index whose hardware-id list is exactly the given id, and for no other
    device. If one of these calls asked for a reboot it calls
    SetupPromptReboot once and then prints one line, "Rebooting..." or
    "Reboot is recommended", by the value returned, or reports the error of
    SetupPromptReboot for any other value; if none asked, it neither prompts
    nor prints anything, and reports no error of SetupPromptReboot. *)
Theorem removal_uninstalls_matching (M : machine) (r : devnode_remove_args)
    (s : effects) (devs : list SP_DEVINFO_DATA) (tail : HDEVINFO) :
  dry_run r = false ->
  SetupDiGetClassDevs M (enumerator_arg r) = Some (map inl devs ++ tail) ->
  set_end tail ->
  Forall sane devs ->
  N.of_nat (List.length (map inl devs ++ tail)) < 2 ^ 32 ->
  let asked :=
    existsb (fun dd => matches (hwid r) dd && needs_reboot dd) devs in
  let ret := SetupPromptReboot M in
  exists s' e,
    remove_devnode M r s = Some (true, s')
    /\ printed s'
       = printed s ++
         (if asked
          then if (ret =? SPFILEQ_REBOOT_IN_PROGRESS)%Z
               then [L "Rebooting..."]
               else if (ret =? SPFILEQ_REBOOT_RECOMMENDED)%Z
                    then [L "Reboot is recommended"]
                    else []
          else [])
    /\ uninstalled s'
       = uninstalled s ++ map DevInst (filter (matches (hwid r)) devs)
    /\ prompts s' = (prompts s + if asked then 1 else 0)%nat
    /\ errors s'
       = errors s ++ e ++
         (if asked && negb (ret =? SPFILEQ_REBOOT_IN_PROGRESS)%Z
                   && negb (ret =? SPFILEQ_REBOOT_RECOMMENDED)%Z
          then ["SetupPromptReboot"%string] else [])
    /\ ~ In "SetupPromptReboot"%string e.
Proof.
  intros Hreal HM Ht Hs Hsz. cbv zeta.
  rewrite (remove_devnode_run M r s devs tail HM Ht Hs Hsz). rewrite Hreal.
  destruct (real_fold (hwid r) (enumerator r) devs (false, s))
    as (A & B & C & D).
  destruct (fold_errors (mk_remove_args (make_hwid (hwid r)) (enumerator r)
                                        false) devs (false, s))
    as (e & E & NE).
  cbn [fst snd] in A, B, C, D, E. rewrite A, orb_false_r.
  eexists.
  exists (e ++ if negb (end_code tail =? 0)
               then ["SetupDiEnumDeviceInfo"%string] else []).
  split; [reflexivity|].
  assert (NE' : ~ In "SetupPromptReboot"%string
                  (e ++ if negb (end_code tail =? 0)
                        then ["SetupDiEnumDeviceInfo"%string] else [])).
  { intros H. apply in_app_or in H. destruct H as [H|H]; [now apply NE|].
    destruct (negb (end_code tail =? 0)); [|destruct H].
    destruct H as [H|[]]. discriminate H. }
  unfold prompt_reboot.
  destruct (existsb _ devs), (negb (end_code tail =? 0)),
    (SetupPromptReboot M =? SPFILEQ_REBOOT_IN_PROGRESS)%Z,
    (SetupPromptReboot M =? SPFILEQ_REBOOT_RECOMMENDED)%Z;
    cbn; rewrite ?B, ?C, ?D, ?E, ?app_nil_r, <- ?app_assoc;
    repeat split; try exact NE'; try exact NE; try reflexivity; try lia.
Qed.

Lemma sample_devices_sane : Forall sane sample_devices.
Proof. repeat constructor; intros [] d H; injection H as <-; reflexivity. Qed.

Lemma removal_uninstalls_matching_witness :
  exists s',
    remove_devnode sample_machine (mk_remove_args ude_hwid [] false) no_effects
      = Some (true, s')
    /\ printed s' = [L "Reboot is recommended"]
    /\ uninstalled s' = [1; 3]
    /\ prompts s' = 1%nat.
Proof.
  destruct (removal_uninstalls_matching sample_machine
              (mk_remove_args ude_hwid [] false) no_effects
              sample_devices [] eq_refl eq_refl)
    as (s' & e & R & Pr & U & P & _).
  - now left.
  - exact sample_devices_sane.
  - reflexivity.
  - exists s'. split; [exact R|]. rewrite Pr, U, P.
    split; [|split]; reflexivity.
Defined.

Lemma make_multi_sz_two_not_hwid id other rest :
  make_multi_sz (id :: other :: rest) <> make_hwid id.
Proof.
  intros H. apply (f_equal (@List.length N)) in H.
  rewrite make_multi_sz_length in H. unfold make_hwid in H.
  rewrite !length_app in H. cbn in H. lia.
Qed.

(** X28. The hardware id must be the whole list. A device whose hardware-id
    list holds the given id followed by further ids does not match:
    [uninstall_device] leaves it alone in a real run and prints nothing for it
    in a dry run. *)
Theorem extra_hardware_ids_do_not_match (dd : SP_DEVINFO_DATA)
    (id other : wstring) (rest : list wstring) (en : wstring) (dry : bool)
    (st : bool * effects) :
  HardwareIds dd = PropData (make_multi_sz (id :: other :: rest)) ->
  bytes_of (make_multi_sz (id :: other :: rest)) < 2 ^ 32 ->
  matches id dd = false
  /\ uninstall_device dd (mk_remove_args (make_hwid id) en dry) st
     = Some (false, st).
Proof.
  intros Hh Hsz.
  assert (Hm : matches id dd = false).
  { destruct (matches id dd) eqn:E; [|reflexivity].
    apply matches_hwid in E. rewrite Hh in E. injection E as E.
    now apply make_multi_sz_two_not_hwid in E. }
  split; [exact Hm|].
  destruct st as [reboot s]. unfold uninstall_device.
  rewrite (get_property_ex_data dd DEVPKEY_Device_HardwareIds _ s _ Hh Hsz).
  cbn [negb orb hwid].
  assert (E : wstring_eqb (make_multi_sz (id :: other :: rest)) (make_hwid id)
              = false).
  { apply wstring_eqb_neq, make_multi_sz_two_not_hwid. }
  rewrite E. cbn [negb].
  now destruct (is_empty (make_multi_sz (id :: other :: rest))).
Qed.

Lemma extra_hardware_ids_do_not_match_witness :
  uninstall_device
    (mk_dev 2 (PropData (make_multi_sz [L "USB\ROOT_HUB30"; L "USB\ROOT_HUB"]))
            (PropData (L "USB\ROOT_HUB30\4" ++ [0])) (Some false))
    (mk_remove_args (make_hwid (L "USB\ROOT_HUB30")) [] false)
    (false, no_effects)
  = Some (false, (false, no_effects)).
Proof.
  apply (extra_hardware_ids_do_not_match
           (mk_dev 2 (PropData (make_multi_sz
                                  [L "USB\ROOT_HUB30"; L "USB\ROOT_HUB"]))
                   (PropData (L "USB\ROOT_HUB30\4" ++ [0])) (Some false))
           (L "USB\ROOT_HUB30") (L "USB\ROOT_HUB") [] [] false
           (false, no_effects)).
  - reflexivity.
  - reflexivity.
Defined.

End DevnodeProofs.

(** ** The fetch of bulk and interrupt transfers *)

Module UrbFetchProofs.
Import UrbFetch.

Local Open Scope Z_scope.

(** C10. For an IN transfer the function returns the status of
    [copy_to_transfer_buffer]; [TransferBufferLength] becomes the header's
    [actual_length] (as a ULONG) when that status is STATUS_SUCCESS, and the
    URB is left unchanged otherwise. For a transfer that is not IN the
    function returns STATUS_SUCCESS and changes neither the URB nor the
    memory. *)
Theorem fetch_bulk_sets_length_iff_copied (memory : Type)
    (copy : memory -> Z -> Z -> Z -> list Byte.byte -> Z -> NTSTATUS * memory)
    (urb : URB_BULK_OR_INTERRUPT_TRANSFER) (hdr : usbip_header) (m : memory) :
  let copied :=
    copy m (TransferBuffer urb) (TransferBufferMDL urb)
         (TransferBufferLength urb) (payload hdr) (actual_length hdr) in
  let r := fetch_urbr_bulk_or_interrupt memory copy urb hdr m in
  (IS_TRANSFER_FLAGS_IN (TransferFlags urb) = true ->
     fst (fst r) = fst copied
     /\ snd r = snd copied
     /\ (fst copied = STATUS_SUCCESS ->
           snd (fst r)
             = set_TransferBufferLength (to_ULONG (actual_length hdr)) urb
           /\ (0 <= actual_length hdr < 2 ^ 32 ->
               TransferBufferLength (snd (fst r)) = actual_length hdr))
     /\ (fst copied <> STATUS_SUCCESS -> snd (fst r) = urb))
  /\ (IS_TRANSFER_FLAGS_IN (TransferFlags urb) = false ->
     r = (STATUS_SUCCESS, urb, m)).
Proof.
  cbv zeta. unfold fetch_urbr_bulk_or_interrupt. split; intros Hdir; rewrite Hdir.
  - destruct (copy m (TransferBuffer urb) (TransferBufferMDL urb)
                (TransferBufferLength urb) (payload hdr) (actual_length hdr))
      as [status m'].
    cbn [fst snd].
    destruct (Z.eqb_spec status STATUS_SUCCESS) as [E|E]; cbn [fst snd].
    + repeat split; try congruence.
      intros Hrange. cbn. unfold to_ULONG. now apply Z.mod_small.
    + repeat split; congruence.
  - reflexivity.
Qed.

Lemma fetch_bulk_sets_length_iff_copied_witness :
  TransferBufferLength
    (snd (fst (fetch_urbr_bulk_or_interrupt _ sample_copy
                 (sample_urb 3) (sample_hdr 2) sample_mem))) = 2
  /\ snd (fst (fetch_urbr_bulk_or_interrupt _ sample_copy
                 (sample_urb 3) (sample_hdr 5) sample_mem)) = sample_urb 3
  /\ fetch_urbr_bulk_or_interrupt _ sample_copy
       (sample_urb 2) (sample_hdr 5) sample_mem
     = (STATUS_SUCCESS, sample_urb 2, sample_mem).
Proof.
  split; [|split].
  - destruct (proj1 (fetch_bulk_sets_length_iff_copied _ sample_copy
                       (sample_urb 3) (sample_hdr 2) sample_mem) eq_refl)
      as (_ & _ & A & _).
    destruct (A eq_refl) as [_ B]. apply B. cbn. lia.
  - destruct (proj1 (fetch_bulk_sets_length_iff_copied _ sample_copy
                       (sample_urb 3) (sample_hdr 5) sample_mem) eq_refl)
      as (_ & _ & _ & A).
    apply A. vm_compute. discriminate.
  - exact (proj2 (fetch_bulk_sets_length_iff_copied _ sample_copy
                    (sample_urb 2) (sample_hdr 5) sample_mem) eq_refl).
Defined.

End UrbFetchProofs.
